(** * Cobalt system call dispatch: a shallow embedding of
      [kernel/cobalt/posix/syscall.c]

    The two entry points [handle_head_syscall] and [handle_root_syscall],
    their shared helper [prepare_for_signal] and the hook
    [ipipe_syscall_hook] are transcribed as functions in a small
    state-and-exit monad.  The state is the part of the kernel the
    dispatchers read and write (the call frame, the thread control block
    of the caller, the scheduling domain, pending signals) together with
    a log of the external operations they perform.  The individual call
    handlers are black boxes: arbitrary state transformers returning a
    status. *)

From Stdlib Require Import ZArith List Bool Lia String.
Import ListNotations.
Local Open Scope Z_scope.

(** ** Execution mode bits *)

(* Syscall must run into the Linux domain. *)
Definition __xn_exec_lostage : Z := 0x1.
(* Syscall must run into the Xenomai domain. *)
Definition __xn_exec_histage : Z := 0x2.
(* Shadow syscall: caller must be mapped. *)
Definition __xn_exec_shadow : Z := 0x4.
(* Switch back toggle; caller must return to its original mode. *)
Definition __xn_exec_switchback : Z := 0x8.
(* Exec in current domain. *)
Definition __xn_exec_current : Z := 0x10.
(* Exec in conforming domain, Xenomai or Linux. *)
Definition __xn_exec_conforming : Z := 0x20.
(* Attempt syscall restart in the opposite domain upon -ENOSYS. *)
Definition __xn_exec_adaptive : Z := 0x40.
(* Do not restart syscall upon signal receipt. *)
Definition __xn_exec_norestart : Z := 0x80.
(* Shorthand for shadow init syscall. *)
Definition __xn_exec_init : Z := __xn_exec_lostage.
(* Shorthand for shadow syscall in Xenomai space. *)
Definition __xn_exec_primary : Z := Z.lor __xn_exec_shadow __xn_exec_histage.
(* Shorthand for shadow syscall in Linux space. *)
Definition __xn_exec_secondary : Z := Z.lor __xn_exec_shadow __xn_exec_lostage.
(* Shorthand for syscall in Linux space with switchback if shadow. *)
Definition __xn_exec_downup : Z := Z.lor __xn_exec_lostage __xn_exec_switchback.
(* Shorthand for non-restartable primary syscall. *)
Definition __xn_exec_nonrestartable : Z := Z.lor __xn_exec_primary __xn_exec_norestart.
(* Shorthand for domain probing syscall *)
Definition __xn_exec_probing : Z := Z.lor __xn_exec_conforming __xn_exec_adaptive.
(* Shorthand for oneway trap - does not return to call site. *)
Definition __xn_exec_oneway : Z := __xn_exec_norestart.

(** [flags & mask] read as a C condition. *)
Definition has (flags mask : Z) : bool := negb (Z.land flags mask =? 0).

(** ** Constants of the host kernel and of the Cobalt core *)

(** Modelled from the spec: the statuses PermissionDenied, Interrupted
    (fatal), NotSupported/NotImplemented and Interrupted (retryable), the
    two answers of a dispatcher ("not mine", "handled") and the migration
    causes "signal delivery" and "call requires relaxed execution".  The
    source names them; their values are those of the kernel headers,
    which are not among the sources. *)

Definition EPERM : Z := 1.
Definition EINTR : Z := 4.
Definition ENOSYS : Z := 38.
Definition ERESTARTSYS : Z := 512.

Definition KEVENT_PROPAGATE : Z := 0.
Definition KEVENT_STOP : Z := 1.

Definition SIGDEBUG_MIGRATE_SIGNAL : Z := 1.
Definition SIGDEBUG_MIGRATE_SYSCALL : Z := 2.

(** Modelled from the spec: the thread control block carries info flags
    including Kicked and a Cancelled pending flag, and state flags
    including Weak; the bit masks are declared in a header that is not
    among the sources.  Each is a distinct single bit of its word. *)
Definition XNBREAK : Z := 0x4.
Definition XNKICKED : Z := 0x8.
Definition XNCANCELD : Z := 0x40.
Definition XNDEBUG : Z := 0x800.
Definition XNWEAK : Z := 0x20000.

(** ** Kernel state seen by the dispatchers *)

(** [struct xnthread]: the fields the dispatchers touch. *)
Record xnthread : Type := mk_xnthread {
  info : Z;          (* thread->info *)
  state : Z;         (* thread->state *)
  res_count : Z;     (* thread->res_count *)
  stat_xsc : Z       (* thread->stat.xsc *)
}.

(** [struct pt_regs] through the accessors the code uses. *)
Record pt_regs : Type := mk_pt_regs {
  xn_syscall_p : bool;     (* __xn_syscall_p(regs) *)
  xn_syscall : Z;          (* __xn_syscall(regs), a long *)
  xn_reg_arglist : list Z; (* __xn_reg_arglist(regs) *)
  xn_reg_rval : Z          (* __xn_reg_rval(regs) *)
}.

(** [int nr = __xn_syscall(regs)] and the [int] a handler returns: a
    [long] stored in an [int] keeps its low 32 bits, read as a signed
    number.  Where [long] is as wide as [int] the value is unchanged. *)
Definition int_of_long (v : Z) : Z := (v + 2 ^ 31) mod 2 ^ 32 - 2 ^ 31.

Record world : Type := mk_world {
  regs : pt_regs;
  current_thread : option xnthread;  (* TCB behind xnthread_current() *)
  current_process : bool;            (* cobalt_current_process() != NULL *)
  mm_process : bool;                 (* cobalt_search_process(current->mm) != NULL *)
  root_p : bool;                     (* xnsched_root_p() *)
  sigpending : bool;                 (* signal_pending(current) *)
  cap_sys_nice : bool                (* cap_raised(current_cap(), CAP_SYS_NICE) *)
}.

Definition set_regs (r : pt_regs) (w : world) : world :=
  mk_world r (current_thread w) (current_process w) (mm_process w)
           (root_p w) (sigpending w) (cap_sys_nice w).

Definition set_thread (t : option xnthread) (w : world) : world :=
  mk_world (regs w) t (current_process w) (mm_process w)
           (root_p w) (sigpending w) (cap_sys_nice w).

Definition set_process (p : bool) (w : world) : world :=
  mk_world (regs w) (current_thread w) p (mm_process w)
           (root_p w) (sigpending w) (cap_sys_nice w).

Definition set_root_p (b : bool) (w : world) : world :=
  mk_world (regs w) (current_thread w) (current_process w) (mm_process w)
           b (sigpending w) (cap_sys_nice w).

Definition set_rval (v : Z) (r : pt_regs) : pt_regs :=
  mk_pt_regs (xn_syscall_p r) (xn_syscall r) (xn_reg_arglist r) v.

Definition set_info (i : Z) (t : xnthread) : xnthread :=
  mk_xnthread i (state t) (res_count t) (stat_xsc t).

Definition set_stat_xsc (n : Z) (t : xnthread) : xnthread :=
  mk_xnthread (info t) (state t) (res_count t) n.

(** The domain an event is dispatched for: [ipd] of the handlers. *)
Inductive ipipe_domain : Type :=
| xnsched_realtime_domain
| ipipe_root_domain.

Definition is_realtime (ipd : ipipe_domain) : bool :=
  match ipd with xnsched_realtime_domain => true | ipipe_root_domain => false end.

(** [cobalt_syshand]: a handler receives the five arguments of the frame
    and returns a status; what it does to the kernel state is not
    constrained. *)
Definition cobalt_syshand : Type := list Z -> world -> Z * world.

(** The tables and collaborators the dispatchers are linked against. *)
Record cobalt_env : Type := mk_env {
  __NR_COBALT_SYSCALLS : Z;
  sc_cobalt_bind : Z;
  cobalt_syscalls : Z -> cobalt_syshand;   (* cobalt_syscalls[nr] *)
  cobalt_sysmodes : Z -> Z;                (* cobalt_sysmodes[nr] *)
  harden_status : world -> Z               (* what xnthread_harden() answers *)
}.

(** ** Log of external operations *)

Inductive event : Type :=
| EvRelax (notify : bool) (reason : Z)   (* xnthread_relax(notify, reason) *)
| EvHarden (status : Z)                  (* xnthread_harden() answered status *)
| EvHandler (nr : Z) (primary : bool)    (* handler of call nr entered, in primary mode or not *)
| EvErrorReturn (v : Z)                  (* __xn_error_return(regs, v) *)
| EvStatusReturn (v : Z)                 (* __xn_status_return(regs, v) *)
| EvClearInfo (bits : Z)                 (* xnthread_clear_info(thread, bits) *)
| EvTestCancel.                          (* xnthread_test_cancel() *)

Record kstate : Type := mk_kstate {
  st_world : world;
  st_trace : list event
}.

(** ** The monad: state, early [return], and the ways a call can end
    without returning *)

Inductive outcome (A : Type) : Type :=
| Next (a : A)        (* control reaches the next statement *)
| Return (k : Z)      (* the enclosing C function returned k *)
| Cancelled           (* the thread was cancelled: control never comes back *)
| Oops                (* NULL thread pointer or out-of-bounds table access *)
| OutOfFuel.          (* the restart loop was cut by the model *)

Arguments Next {A} a.
Arguments Return {A} k.
Arguments Cancelled {A}.
Arguments Oops {A}.
Arguments OutOfFuel {A}.

Definition M (A : Type) : Type := kstate -> outcome A * kstate.

Definition ret {A} (a : A) : M A := fun s => (Next a, s).

Definition bind {A B} (m : M A) (f : A -> M B) : M B :=
  fun s =>
    match m s with
    | (Next a, s') => f a s'
    | (Return k, s') => (Return k, s')
    | (Cancelled, s') => (Cancelled, s')
    | (Oops, s') => (Oops, s')
    | (OutOfFuel, s') => (OutOfFuel, s')
    end.

Declare Scope kmonad_scope.
Delimit Scope kmonad_scope with kmonad.
Notation "x <- m ;; k" := (bind m (fun x => k))
  (at level 61, m at next level, right associativity) : kmonad_scope.
Notation "' p <- m ;; k" := (bind m (fun x => let p := x in k))
  (at level 61, p pattern, m at next level, right associativity) : kmonad_scope.
Notation "m ;;; k" := (bind m (fun _ => k))
  (at level 61, right associativity) : kmonad_scope.
Local Open Scope kmonad_scope.

Definition return_ {A} (k : Z) : M A := fun s => (Return k, s).
Definition cancel {A} : M A := fun s => (Cancelled, s).
Definition oops {A} : M A := fun s => (Oops, s).
Definition out_of_fuel {A} : M A := fun s => (OutOfFuel, s).

Definition get_world : M world := fun s => (Next (st_world s), s).
Definition put_world (w : world) : M unit :=
  fun s => (Next tt, mk_kstate w (st_trace s)).
Definition emit (e : event) : M unit :=
  fun s => (Next tt, mk_kstate (st_world s) (st_trace s ++ [e])).

(** ** Accessors and collaborators *)

Definition xnsched_root_p : M bool :=
  w <- get_world ;; ret (root_p w).

(** Modelled from the spec: a thread executes in exactly one of the two
    domains at any instant, so being in primary mode is not being in the
    root (relaxed) domain. *)
Definition xnsched_primary_p : M bool :=
  w <- get_world ;; ret (negb (root_p w)).

Definition signal_pending : M bool :=
  w <- get_world ;; ret (sigpending w).

(** [xnthread_current()]: a pointer to the caller's control block, or
    NULL.  A pointer is modelled by whether it is non-NULL; what it
    points to is the control block kept in the state. *)
Definition xnthread_current : M bool :=
  w <- get_world ;;
  ret (match current_thread w with Some _ => true | None => false end).

(** Reading through a thread pointer.  A NULL pointer, or a pointer whose
    control block is gone, is an oops. *)
Definition deref (thread : bool) : M xnthread :=
  w <- get_world ;;
  match thread, current_thread w with
  | true, Some t => ret t
  | _, _ => oops
  end.

Definition store (t : xnthread) : M unit :=
  w <- get_world ;; put_world (set_thread (Some t) w).

Definition xnthread_test_info (thread : bool) (bits : Z) : M bool :=
  t <- deref thread ;; ret (has (info t) bits).

Definition xnthread_test_state (thread : bool) (bits : Z) : M bool :=
  t <- deref thread ;; ret (has (state t) bits).

Definition xnthread_clear_info (thread : bool) (bits : Z) : M unit :=
  t <- deref thread ;;
  emit (EvClearInfo bits) ;;;
  store (set_info (Z.land (info t) (Z.lnot bits)) t).

Definition thread_res_count (thread : bool) : M Z :=
  t <- deref thread ;; ret (res_count t).

Definition xnstat_counter_inc_xsc (thread : bool) : M unit :=
  t <- deref thread ;; store (set_stat_xsc (stat_xsc t + 1) t).

(** [xnthread_sync_window] copies the thread state to a window mapped in
    user space; nothing the dispatchers read afterwards depends on it. *)
Definition xnthread_sync_window (thread : bool) : M unit :=
  _ <- deref thread ;; ret tt.

Definition __xn_error_return (v : Z) : M unit :=
  w <- get_world ;;
  emit (EvErrorReturn v) ;;;
  put_world (set_regs (set_rval v (regs w)) w).

Definition __xn_status_return (v : Z) : M unit :=
  w <- get_world ;;
  emit (EvStatusReturn v) ;;;
  put_world (set_regs (set_rval v (regs w)) w).

(** Modelled from the spec: entering the relaxed domain cannot fail and
    always makes forward progress; it optionally notifies a debug
    observer and reports a migration cause. *)
Definition xnthread_relax (notify : bool) (reason : Z) : M unit :=
  emit (EvRelax notify reason) ;;;
  w <- get_world ;;
  put_world (set_root_p true w).

(** Modelled from the spec: cancellation is flagged on the control block
    and observed at well-defined points; if it has been requested for the
    calling thread, the thread proceeds to cooperative cancellation and no
    ordinary status is returned to the original caller. *)
Definition xnthread_test_cancel : M unit :=
  emit EvTestCancel ;;;
  w <- get_world ;;
  match current_thread w with
  | Some t => if has (info t) XNCANCELD then cancel else ret tt
  | None => ret tt
  end.

Section Dispatch.

Variable env : cobalt_env.

(** Modelled from the spec: entering the control domain may fail; the
    call answers a status, zero meaning the thread now runs in the
    control domain. *)
Definition xnthread_harden : M Z :=
  w <- get_world ;;
  let r := harden_status env w in
  emit (EvHarden r) ;;;
  (if r =? 0 then put_world (set_root_p false w) else ret tt) ;;;
  ret r.

(** [handler(__xn_reg_arglist(regs))] *)
Definition invoke (nr : Z) (handler : cobalt_syshand) : M Z :=
  w <- get_world ;;
  emit (EvHandler nr (negb (root_p w))) ;;;
  let (r, w') := handler (xn_reg_arglist (regs w)) w in
  put_world w' ;;;
  ret r.

(** ** [prepare_for_signal] *)

Definition prepare_for_signal (thread : bool) (sysflags : Z) : M unit :=
  kicked <- xnthread_test_info thread XNKICKED ;;
  notify <- (if kicked then
               sp <- signal_pending ;;
               notify <- (if sp then
                            __xn_error_return
                              (if has sysflags __xn_exec_norestart
                               then - EINTR else - ERESTARTSYS) ;;;
                            dbg <- xnthread_test_state thread XNDEBUG ;;
                            xnthread_clear_info thread XNBREAK ;;;
                            ret (negb dbg)
                          else ret false) ;;
               xnthread_clear_info thread XNKICKED ;;;
               ret notify
             else ret false) ;;
  xnthread_test_cancel ;;;
  xnthread_relax notify SIGDEBUG_MIGRATE_SIGNAL.

(** ** Shared pieces of the two dispatchers *)

(** The permission test of [handle_head_syscall]. *)
Definition syscall_denied (process thread cap : bool) (nr sysflags : Z) : bool :=
  (negb process && negb (nr =? sc_cobalt_bind env))
  || (negb thread && has sysflags __xn_exec_shadow)
  || (negb cap && negb (nr =? sc_cobalt_bind env)).

(** [if (sysflags & __xn_exec_conforming)
       sysflags |= (thread ? __xn_exec_histage : __xn_exec_lostage);] *)
Definition resolve_conforming (thread : bool) (sysflags : Z) : Z :=
  if has sysflags __xn_exec_conforming
  then Z.lor sysflags (if thread then __xn_exec_histage else __xn_exec_lostage)
  else sysflags.

(** [sysflags ^= (__xn_exec_lostage | __xn_exec_histage | __xn_exec_adaptive);] *)
Definition flip_adaptive (sysflags : Z) : Z :=
  Z.lxor sysflags
    (Z.lor (Z.lor __xn_exec_lostage __xn_exec_histage) __xn_exec_adaptive).

(** Label [ret_handled]. *)
Definition ret_handled {A} (thread : bool) : M A :=
  (if thread then
     xnstat_counter_inc_xsc thread ;;;
     xnthread_sync_window thread
   else ret tt) ;;;
  return_ KEVENT_STOP.

(** ** [handle_head_syscall] *)

(** From label [restart] to label [done]: answers the status, the
    effective mode and the [switched] flag the code reaches [done] with. *)
Fixpoint head_restart (fuel : nat) (ipd : ipipe_domain) (nr : Z)
    (handler : cobalt_syshand) (sysflags : Z) (switched : bool)
    : M (Z * Z * bool) :=
  match fuel with
  | O => out_of_fuel
  | S fuel' =>
    switched <- (if has sysflags __xn_exec_lostage then
                   if is_realtime ipd then
                     xnthread_relax true SIGDEBUG_MIGRATE_SYSCALL ;;;
                     ret true
                   else return_ KEVENT_PROPAGATE
                 else if has sysflags (Z.lor __xn_exec_histage __xn_exec_current) then
                   if negb (is_realtime ipd) then return_ KEVENT_PROPAGATE
                   else ret switched
                 else ret switched) ;;
    r <- invoke nr handler ;;
    if (r =? - ENOSYS) && has sysflags __xn_exec_adaptive then
      if switched then
        r' <- xnthread_harden ;;
        if negb (r' =? 0) then ret (r', sysflags, false)
        else head_restart fuel' ipd nr handler (flip_adaptive sysflags) false
      else head_restart fuel' ipd nr handler (flip_adaptive sysflags) switched
    else ret (r, sysflags, switched)
  end.

(** From label [done] to the end of the function. *)
Definition head_done (thread : bool) (r sysflags : Z) (switched : bool) : M unit :=
  __xn_status_return r ;;;
  root <- xnsched_root_p ;;
  '(sigs, switched) <-
     (if negb root then
        sp <- signal_pending ;;
        interpose <- (if sp then ret true
                      else xnthread_test_info thread XNKICKED) ;;
        if interpose then
          prepare_for_signal thread sysflags ;;;
          ret (true, switched)
        else
          weak <- xnthread_test_state thread XNWEAK ;;
          idle <- (if weak then
                     n <- thread_res_count thread ;; ret (n =? 0)
                   else ret false) ;;
          if idle then
            if switched then ret (false, false)
            else xnthread_relax false 0 ;;; ret (false, switched)
          else ret (false, switched)
      else ret (false, switched)) ;;
  (if negb sigs && has sysflags __xn_exec_switchback && switched then
     (* -EPERM will be trapped later if needed. *)
     _ <- xnthread_harden ;; ret tt
   else ret tt) ;;;
  ret_handled thread.

(** Label [linux_syscall]. *)
Definition head_linux_syscall {A} : M A :=
  root <- xnsched_root_p ;;
  if root then return_ KEVENT_PROPAGATE
  else
    xnthread_relax true SIGDEBUG_MIGRATE_SYSCALL ;;;
    return_ KEVENT_PROPAGATE.

(** Label [bad_syscall]. *)
Definition head_bad_syscall {A} : M A :=
  __xn_error_return (- ENOSYS) ;;;
  return_ KEVENT_STOP.

(** [process = cobalt_current_process(); if (process == NULL) { ... }] *)
Definition lookup_process : M bool :=
  w <- get_world ;;
  if current_process w then ret true
  else put_world (set_process (mm_process w) w) ;;; ret (mm_process w).

(** The code after the permission test: mode resolution, the restart
    loop and the way out. *)
Definition head_dispatch (fuel : nat) (ipd : ipipe_domain) (thread : bool)
    (nr : Z) (handler : cobalt_syshand) (sysflags : Z) : M unit :=
  let sysflags := resolve_conforming thread sysflags in
  '(r, sysflags, switched) <- head_restart fuel ipd nr handler sysflags false ;;
  head_done thread r sysflags switched.

Definition handle_head_syscall (fuel : nat) (ipd : ipipe_domain) : M unit :=
  w <- get_world ;;
  if negb (xn_syscall_p (regs w)) then head_linux_syscall
  else
    thread <- xnthread_current ;;
    let nr := int_of_long (xn_syscall (regs w)) in
    if (nr <? 0) || (nr >=? __NR_COBALT_SYSCALLS env) then head_bad_syscall
    else
      process <- lookup_process ;;
      let handler := cobalt_syscalls env nr in
      let sysflags := cobalt_sysmodes env nr in
      if syscall_denied process thread (cap_sys_nice w) nr sysflags then
        __xn_error_return (- EPERM) ;;;
        ret_handled thread
      else head_dispatch fuel ipd thread nr handler sysflags.

(** ** [handle_root_syscall] *)

(** From label [restart] to the statement after the loop.  A failed
    migration leaves through [ret_handled] with the entry-time [thread]. *)
Fixpoint root_restart (fuel : nat) (thread : bool) (nr : Z)
    (handler : cobalt_syshand) (sysflags : Z) : M (Z * Z * bool) :=
  match fuel with
  | O => out_of_fuel
  | S fuel' =>
    switched <- (if has sysflags __xn_exec_histage then
                   r <- xnthread_harden ;;
                   if negb (r =? 0) then
                     __xn_error_return r ;;;
                     ret_handled thread
                   else ret true
                 else ret false) ;;
    r <- invoke nr handler ;;
    if (r =? - ENOSYS) && has sysflags __xn_exec_adaptive then
      (if switched then xnthread_relax true SIGDEBUG_MIGRATE_SYSCALL
       else ret tt) ;;;
      root_restart fuel' thread nr handler (flip_adaptive sysflags)
    else ret (r, sysflags, switched)
  end.

(** From [__xn_status_return(regs, ret)] to the end of the function. *)
Definition root_done (thread : bool) (r sysflags : Z) (switched : bool) : M unit :=
  __xn_status_return r ;;;
  root <- xnsched_root_p ;;
  '(sigs, sysflags, thread) <-
     (if negb root then
        (* We may have gained a shadow TCB from the syscall we
           just invoked, so make sure to fetch it. *)
        thread <- xnthread_current ;;
        sp <- signal_pending ;;
        if sp then
          prepare_for_signal thread sysflags ;;;
          ret (true, sysflags, thread)
        else
          weak <- xnthread_test_state thread XNWEAK ;;
          idle <- (if weak then
                     n <- thread_res_count thread ;; ret (n =? 0)
                   else ret false) ;;
          if idle then ret (false, Z.lor sysflags __xn_exec_switchback, thread)
          else ret (false, sysflags, thread)
      else ret (false, sysflags, thread)) ;;
  primary <- xnsched_primary_p ;;
  (if negb sigs && has sysflags __xn_exec_switchback && (switched || primary) then
     xnthread_relax false 0
   else ret tt) ;;;
  ret_handled thread.

(** [cobalt_syscalls[nr]] and [cobalt_sysmodes[nr]] where [nr] has not
    been checked: an index outside the tables is an oops. *)
Definition table_entry (nr : Z) : M (cobalt_syshand * Z) :=
  if (nr <? 0) || (nr >=? __NR_COBALT_SYSCALLS env) then oops
  else ret (cobalt_syscalls env nr, cobalt_sysmodes env nr).

Definition handle_root_syscall (fuel : nat) (ipd : ipipe_domain) : M unit :=
  xnthread_test_cancel ;;;
  w <- get_world ;;
  if negb (xn_syscall_p (regs w)) then
    (* Fall back to Linux syscall handling. *)
    return_ KEVENT_PROPAGATE
  else
    thread <- xnthread_current ;;
    (* nr has already been checked in the head domain handler. *)
    let nr := int_of_long (xn_syscall (regs w)) in
    '(handler, sysflags) <- table_entry nr ;;
    let sysflags := resolve_conforming thread sysflags in
    '(r, sysflags, switched) <- root_restart fuel thread nr handler sysflags ;;
    root_done thread r sysflags switched.

(** ** The hooks *)

Definition ipipe_syscall_hook (fuel : nat) (ipipe_root_p : bool)
    (ipd : ipipe_domain) : M unit :=
  if ipipe_root_p then handle_root_syscall fuel ipd
  else handle_head_syscall fuel ipd.

(** [XENO_BUGON(COBALT, ret == KEVENT_PROPAGATE)] is a debug assertion:
    it changes nothing the model keeps. *)
Definition ipipe_fastcall_hook (fuel : nat) : M unit :=
  handle_head_syscall fuel xnsched_realtime_domain.

(** Modelled from the spec: a call first reaches the control-domain
    dispatcher; when that one answers "not mine" for a caller running in
    the relaxed domain, the event is propagated to the relaxed-domain
    dispatcher.  [caller] is the domain the call was issued from. *)
Definition syscall_pipeline (fuel : nat) (caller : ipipe_domain) : M unit :=
  fun s =>
    match ipipe_syscall_hook fuel false caller s with
    | (Return k, s') =>
        if (k =? KEVENT_PROPAGATE) && negb (is_realtime caller)
        then ipipe_syscall_hook fuel true caller s'
        else (Return k, s')
    | other => other
    end.

End Dispatch.

(** ** Reading a log *)

Definition is_handler (e : event) : bool :=
  match e with EvHandler _ _ => true | _ => false end.

(** The handler invocations of a log, in order. *)
Definition handler_calls (tr : list event) : list event := filter is_handler tr.

Definition is_clear_of (bits : Z) (e : event) : bool :=
  match e with EvClearInfo b => b =? bits | _ => false end.

Definition is_relax (e : event) : bool :=
  match e with EvRelax _ _ => true | _ => false end.

Definition is_signal_relax (e : event) : bool :=
  match e with EvRelax _ r => r =? SIGDEBUG_MIGRATE_SIGNAL | _ => false end.

Definition is_harden (e : event) : bool :=
  match e with EvHarden _ => true | _ => false end.

(** Running a dispatcher from a state with an empty log. *)
Definition start (w : world) : kstate := mk_kstate w [].

(** * Vocabulary of the properties *)

(** ** Bindings and the permission gate *)

(** The caller has a thread control block. *)
Definition thread_bound (w : world) : bool :=
  match current_thread w with Some _ => true | None => false end.

(** The process binding the dispatcher ends up with: the one attached to
    the caller, else the one found for its address space. *)
Definition process_bound (w : world) : bool :=
  current_process w || mm_process w.

(** The gate in the words of the specification: a process binding
    exists or this is the feature-negotiation call, a thread binding
    exists whenever the descriptor requires one, and the caller holds the
    privilege or this is the feature-negotiation call. *)
Definition gate_open (env : cobalt_env) (w : world) : bool :=
  let nr := int_of_long (xn_syscall (regs w)) in
  let bind_call := nr =? sc_cobalt_bind env in
  (process_bound w || bind_call)
  && implb (has (cobalt_sysmodes env nr) __xn_exec_shadow) (thread_bound w)
  && (cap_sys_nice w || bind_call).

(** ** Conditions tested after the handler *)

(** Cancellation has been requested for the calling thread. *)
Definition cancel_pending (w : world) : bool :=
  match current_thread w with
  | Some t => has (info t) XNCANCELD
  | None => false
  end.

(** The thread has been kicked out of a wait. *)
Definition kicked (w : world) : bool :=
  match current_thread w with
  | Some t => has (info t) XNKICKED
  | None => false
  end.

(** The thread is weak and holds no resource. *)
Definition weak_idle (w : world) : bool :=
  match current_thread w with
  | Some t => has (state t) XNWEAK && (res_count t =? 0)
  | None => false
  end.

(** When each dispatcher runs the interposition after the handler. *)
Definition head_interposes (w : world) : bool :=
  negb (root_p w) && (sigpending w || kicked w).

Definition root_interposes (w : world) : bool :=
  negb (root_p w) && sigpending w.

(** The state in which the code after the loop runs [xnthread_harden] or
    tests the thread: the handler's status has been written. *)
Definition status_written (r : Z) (w : world) : world :=
  set_regs (set_rval r (regs w)) w.

(** The status [prepare_for_signal] answers to an interrupted call. *)
Definition interrupted_status (sysflags : Z) : Z :=
  if has sysflags __xn_exec_norestart then - EINTR else - ERESTARTSYS.

(** Number of [xnthread_clear_info(thread, XNKICKED)] in a log. *)
Definition kicked_clears (tr : list event) : nat :=
  Datatypes.length (filter (is_clear_of XNKICKED) tr).

(** ** Runs of the restart loops *)

(** The domain the handler is entered in by a pass of the control-domain
    loop that does not leave the dispatcher. *)
Definition head_pass_primary (sysflags : Z) (w : world) : bool :=
  if has sysflags __xn_exec_lostage then false else negb (root_p w).

(** The same for the relaxed-domain loop. *)
Definition root_pass_primary (sysflags : Z) (w : world) : bool :=
  if has sysflags __xn_exec_histage then true else negb (root_p w).

(** What a run of a restart loop, started with log [tr], must satisfy:
    at most two handler invocations, no cut by the model given two units
    of fuel, and, when two invocations took place, the call was adaptive,
    the second one ran in the domain opposite to the first, and the loop
    ended with the flipped mode. *)
Definition retry_bounded (fuel : nat) (nr sysflags : Z) (tr : list event)
    (coherent : Prop) (run : outcome (Z * Z * bool) * kstate) : Prop :=
  exists evs,
    st_trace (snd run) = tr ++ evs
    /\ (Datatypes.length (handler_calls evs) <= 2)%nat
    /\ ((2 <= fuel)%nat -> fst run <> OutOfFuel)
    /\ (coherent ->
        forall e1 e2 rest,
          handler_calls evs = e1 :: e2 :: rest ->
          has sysflags __xn_exec_adaptive = true
          /\ exists p r sw,
              e1 = EvHandler nr p /\ e2 = EvHandler nr (negb p) /\ rest = []
              /\ fst run = Next (r, flip_adaptive sysflags, sw)).

(** [m] adds to the log at most [k] events selected by [sel] and, when
    [cut_free] holds, is not cut by the model. *)
Definition emits_at_most {A} (sel : event -> bool) (cut_free : Prop)
    (k : nat) (m : M A) : Prop :=
  forall s, exists evs,
    st_trace (snd (m s)) = st_trace s ++ evs
    /\ (Datatypes.length (filter sel evs) <= k)%nat
    /\ (cut_free -> fst (m s) <> OutOfFuel).

(** At most [k] handler invocations. *)
Definition calls_at_most {A} (cut_free : Prop) (k : nat) (m : M A) : Prop :=
  emits_at_most is_handler cut_free k m.

(** At most [k] clears of XNKICKED, whether the run is cut or not. *)
Definition clears_at_most {A} (k : nat) (m : M A) : Prop :=
  emits_at_most (is_clear_of XNKICKED) False k m.

(** ** The mode table of the source

    [cobalt_sysmodes] is filled by designated initializers: every slot
    defaults to 0, then each [__COBALT_MODE(name, mode)] stores the mode
    at index [sc_cobalt_name], a later initializer for the same index
    overriding an earlier one.  The numbering [sc_cobalt_*] comes from a
    header that is not among the sources, so it is a parameter. *)
Definition cobalt_mode_entries : list (string * Z) := [
  ("thread_create"%string, __xn_exec_init);
  ("thread_getpid"%string, __xn_exec_current);
  ("thread_setschedparam_ex"%string, __xn_exec_conforming);
  ("thread_getschedparam_ex"%string, __xn_exec_current);
  ("sched_weightprio"%string, __xn_exec_current);
  ("sched_yield"%string, __xn_exec_primary);
  ("thread_setmode"%string, __xn_exec_primary);
  ("thread_setname"%string, __xn_exec_current);
  ("thread_kill"%string, __xn_exec_conforming);
  ("thread_getstat"%string, __xn_exec_current);
  ("thread_join"%string, __xn_exec_primary);
  ("sem_init"%string, __xn_exec_current);
  ("sem_destroy"%string, __xn_exec_current);
  ("sem_post"%string, __xn_exec_current);
  ("sem_wait"%string, __xn_exec_primary);
  ("sem_timedwait"%string, __xn_exec_primary);
  ("sem_trywait"%string, __xn_exec_primary);
  ("sem_getvalue"%string, __xn_exec_current);
  ("sem_open"%string, __xn_exec_current);
  ("sem_close"%string, __xn_exec_current);
  ("sem_unlink"%string, __xn_exec_current);
  ("sem_broadcast_np"%string, __xn_exec_current);
  ("sem_inquire"%string, __xn_exec_current);
  ("clock_getres"%string, __xn_exec_current);
  ("clock_gettime"%string, __xn_exec_current);
  ("clock_settime"%string, __xn_exec_current);
  ("clock_nanosleep"%string, __xn_exec_nonrestartable);
  ("mutex_init"%string, __xn_exec_current);
  ("mutex_check_init"%string, __xn_exec_current);
  ("mutex_destroy"%string, __xn_exec_current);
  ("mutex_lock"%string, __xn_exec_primary);
  ("mutex_timedlock"%string, __xn_exec_primary);
  ("mutex_trylock"%string, __xn_exec_primary);
  ("mutex_unlock"%string, __xn_exec_nonrestartable);
  ("cond_init"%string, __xn_exec_current);
  ("cond_destroy"%string, __xn_exec_current);
  ("cond_wait_prologue"%string, __xn_exec_nonrestartable);
  ("cond_wait_epilogue"%string, __xn_exec_primary);
  ("mq_open"%string, __xn_exec_lostage);
  ("mq_close"%string, __xn_exec_lostage);
  ("mq_unlink"%string, __xn_exec_lostage);
  ("mq_getattr"%string, __xn_exec_current);
  ("mq_setattr"%string, __xn_exec_current);
  ("mq_timedsend"%string, __xn_exec_primary);
  ("mq_timedreceive"%string, __xn_exec_primary);
  ("mq_notify"%string, __xn_exec_primary);
  ("sigwait"%string, __xn_exec_primary);
  ("sigwaitinfo"%string, __xn_exec_nonrestartable);
  ("sigtimedwait"%string, __xn_exec_nonrestartable);
  ("sigpending"%string, __xn_exec_primary);
  ("kill"%string, __xn_exec_conforming);
  ("sigqueue"%string, __xn_exec_conforming);
  ("timer_create"%string, __xn_exec_current);
  ("timer_delete"%string, __xn_exec_current);
  ("timer_settime"%string, __xn_exec_primary);
  ("timer_gettime"%string, __xn_exec_current);
  ("timer_getoverrun"%string, __xn_exec_current);
  ("timerfd_create"%string, __xn_exec_lostage);
  ("timerfd_gettime"%string, __xn_exec_current);
  ("timerfd_settime"%string, __xn_exec_primary);
  ("select"%string, __xn_exec_nonrestartable);
  ("sched_minprio"%string, __xn_exec_current);
  ("sched_maxprio"%string, __xn_exec_current);
  ("monitor_init"%string, __xn_exec_current);
  ("monitor_destroy"%string, __xn_exec_primary);
  ("monitor_enter"%string, __xn_exec_primary);
  ("monitor_wait"%string, __xn_exec_nonrestartable);
  ("monitor_sync"%string, __xn_exec_nonrestartable);
  ("monitor_exit"%string, __xn_exec_primary);
  ("event_init"%string, __xn_exec_current);
  ("event_destroy"%string, __xn_exec_current);
  ("event_wait"%string, __xn_exec_primary);
  ("event_sync"%string, __xn_exec_current);
  ("event_inquire"%string, __xn_exec_current);
  ("sched_setconfig_np"%string, __xn_exec_current);
  ("sched_getconfig_np"%string, __xn_exec_current);
  ("open"%string, __xn_exec_lostage);
  ("socket"%string, __xn_exec_lostage);
  ("close"%string, __xn_exec_lostage);
  ("mmap"%string, __xn_exec_lostage);
  ("ioctl"%string, __xn_exec_probing);
  ("read"%string, __xn_exec_probing);
  ("write"%string, __xn_exec_probing);
  ("recvmsg"%string, __xn_exec_probing);
  ("sendmsg"%string, __xn_exec_probing);
  ("migrate"%string, __xn_exec_current);
  ("archcall"%string, __xn_exec_current);
  ("bind"%string, __xn_exec_lostage);
  ("extend"%string, __xn_exec_lostage);
  ("info"%string, __xn_exec_lostage);
  ("trace"%string, __xn_exec_current);
  ("get_current"%string, __xn_exec_current);
  ("mayday"%string, __xn_exec_oneway);
  ("backtrace"%string, __xn_exec_current);
  ("serialdbg"%string, __xn_exec_current);
  ("sysconf"%string, __xn_exec_current);
  ("sysctl"%string, __xn_exec_probing)
].

Definition cobalt_sysmodes_of (sc : string -> Z) (nr : Z) : Z :=
  fold_left (fun acc e => if sc (fst e) =? nr then snd e else acc)
            cobalt_mode_entries 0.

(** The modes written in the table, and the default. *)
Definition cobalt_table_modes : list Z :=
  [0; __xn_exec_init; __xn_exec_current; __xn_exec_conforming;
   __xn_exec_primary; __xn_exec_nonrestartable; __xn_exec_lostage;
   __xn_exec_probing; __xn_exec_oneway].

(** The environment made of the table of the source, for a numbering of
    the calls. *)
Definition table_env (sc : string -> Z) (nr_syscalls : Z)
    (handlers : Z -> cobalt_syshand) (harden : world -> Z) : cobalt_env :=
  mk_env nr_syscalls (sc "bind"%string) handlers (cobalt_sysmodes_of sc) harden.

(** ** Sample inputs *)

(** A shadow thread with no flag raised, and a weak one. *)
Definition plain_thread : xnthread := mk_xnthread 0 0 0 0.
Definition weak_thread : xnthread := mk_xnthread 0 XNWEAK 0 0.

(** A thread kicked out of a wait, and one that is moreover cancelled. *)
Definition kicked_thread : xnthread := mk_xnthread XNKICKED 0 0 0.
Definition doomed_thread : xnthread :=
  mk_xnthread (Z.lor XNKICKED XNCANCELD) 0 0 0.

Definition sample_regs (nr : Z) : pt_regs := mk_pt_regs true nr [0; 0; 0; 0; 0] 0.

(** A bound, privileged caller. *)
Definition caller (t : option xnthread) (nr : Z) (in_root sig : bool) : world :=
  mk_world (sample_regs nr) t true true in_root sig true.

(** A caller with no thread binding, no process binding and no
    privilege, running in the root domain. *)
Definition unbound_caller (nr : Z) : world :=
  mk_world (sample_regs nr) None false false true false false.

(** A handler that only answers a status. *)
Definition answer (v : Z) : cobalt_syshand := fun _ w => (v, w).

(** A handler that is served in the relaxed domain only. *)
Definition relaxed_only (v : Z) : cobalt_syshand :=
  fun _ w => (if root_p w then v else - ENOSYS, w).

(** A handler that is served in primary mode only. *)
Definition primary_only (v : Z) : cobalt_syshand :=
  fun _ w => (if root_p w then - ENOSYS else v, w).

(** A handler that leaves the thread in primary mode. *)
Definition hardening (v : Z) : cobalt_syshand :=
  fun _ w => (v, set_root_p false w).

(** Hardening is refused while a signal is pending. *)
Definition harden_unless_signal (w : world) : Z :=
  if sigpending w then - ERESTARTSYS else 0.

(** A table whose entries all have the same handler and mode. *)
Definition sample_env (mode : Z) (h : cobalt_syshand) : cobalt_env :=
  mk_env 128 87 (fun _ => h) (fun _ => mode) harden_unless_signal.

(** A numbering of the calls for the examples: the rank of the call in
    the table. *)
Fixpoint position (name : string) (names : list string) : Z :=
  match names with
  | [] => 0
  | n :: rest => if String.eqb n name then 0 else 1 + position name rest
  end.

Definition sc_position (name : string) : Z :=
  position name (map fst cobalt_mode_entries).

(** The table of the source under that numbering, every call answering
    0. *)
Definition position_env : cobalt_env :=
  table_env sc_position 128 (fun _ => answer 0) harden_unless_signal.

(** * The handlers defined beside the dispatchers *)

(** Modelled from the spec: the state flags of a thread include Dormant;
    the statuses are named by the source, their values are those of the
    kernel headers, which are not among the sources. *)
Definition XNDORMANT : Z := 0x10.
Definition EFAULT : Z := 14.
Definition ENOEXEC : Z := 8.
Definition EINVAL : Z := 22.

(** ** [cobalt_ni] and the handler table *)

Definition cobalt_ni : cobalt_syshand := fun _ w => (- ENOSYS, w).

(** The calls of [cobalt_syscalls], in the order of the initializers.
    Every slot defaults to [cobalt_ni]; [__COBALT_CALL_ENTRY(name)] stores
    the handler of the call at index [sc_cobalt_name].  The 32-bit
    entries of CONFIG_XENO_OPT_SYS3264 are left out. *)
Definition cobalt_call_entries : list string := [
  "thread_create"%string; "thread_getpid"%string;
  "thread_setschedparam_ex"%string; "thread_getschedparam_ex"%string;
  "sched_weightprio"%string; "sched_yield"%string; "thread_setmode"%string;
  "thread_setname"%string; "thread_kill"%string; "thread_getstat"%string;
  "thread_join"%string; "sem_init"%string; "sem_destroy"%string;
  "sem_post"%string; "sem_wait"%string; "sem_timedwait"%string;
  "sem_trywait"%string; "sem_getvalue"%string; "sem_open"%string;
  "sem_close"%string; "sem_unlink"%string; "sem_broadcast_np"%string;
  "sem_inquire"%string; "clock_getres"%string; "clock_gettime"%string;
  "clock_settime"%string; "clock_nanosleep"%string; "mutex_init"%string;
  "mutex_check_init"%string; "mutex_destroy"%string; "mutex_lock"%string;
  "mutex_timedlock"%string; "mutex_trylock"%string; "mutex_unlock"%string;
  "cond_init"%string; "cond_destroy"%string; "cond_wait_prologue"%string;
  "cond_wait_epilogue"%string; "mq_open"%string; "mq_close"%string;
  "mq_unlink"%string; "mq_getattr"%string; "mq_setattr"%string;
  "mq_timedsend"%string; "mq_timedreceive"%string; "mq_notify"%string;
  "sigwait"%string; "sigwaitinfo"%string; "sigtimedwait"%string;
  "sigpending"%string; "kill"%string; "sigqueue"%string;
  "timer_create"%string; "timer_delete"%string; "timer_settime"%string;
  "timer_gettime"%string; "timer_getoverrun"%string;
  "timerfd_create"%string; "timerfd_gettime"%string;
  "timerfd_settime"%string; "select"%string; "sched_minprio"%string;
  "sched_maxprio"%string; "monitor_init"%string; "monitor_destroy"%string;
  "monitor_enter"%string; "monitor_wait"%string; "monitor_sync"%string;
  "monitor_exit"%string; "event_init"%string; "event_destroy"%string;
  "event_wait"%string; "event_sync"%string; "event_inquire"%string;
  "sched_setconfig_np"%string; "sched_getconfig_np"%string; "open"%string;
  "socket"%string; "close"%string; "mmap"%string; "ioctl"%string;
  "read"%string; "write"%string; "recvmsg"%string; "sendmsg"%string;
  "migrate"%string; "archcall"%string; "bind"%string; "extend"%string;
  "info"%string; "trace"%string; "get_current"%string; "mayday"%string;
  "backtrace"%string; "serialdbg"%string; "sysconf"%string;
  "sysctl"%string
].

Definition cobalt_syscalls_of (sc : string -> Z)
    (handlers : string -> cobalt_syshand) (nr : Z) : cobalt_syshand :=
  fold_left (fun acc name => if sc name =? nr then handlers name else acc)
            cobalt_call_entries cobalt_ni.

(** The two tables of the source, for a numbering of the calls and the
    handlers behind their names. *)
Definition source_env (sc : string -> Z) (nr_syscalls : Z)
    (handlers : string -> cobalt_syshand) (harden : world -> Z) : cobalt_env :=
  mk_env nr_syscalls (sc "bind"%string) (cobalt_syscalls_of sc handlers)
         (cobalt_sysmodes_of sc) harden.

(** ** [cobalt_migrate] *)

Section Migrate.

Variable env : cobalt_env.

(** The two values of the argument, from a header that is not among the
    sources. *)
Variables COBALT_PRIMARY COBALT_SECONDARY : Z.

(** [ipipe_root_p] tells whether the handler runs over the root domain
    of the pipeline.  The value of the function is the value of the
    computation. *)
Definition cobalt_migrate (ipipe_root_p : bool) (domain : Z) : M Z :=
  thread <- xnthread_current ;;
  if ipipe_root_p then
    if domain =? COBALT_PRIMARY then
      if negb thread then ret (- EPERM)
      else
        (* Paranoid: a corner case where userland fiddles with
           SIGSHADOW while the target thread is still waiting to be
           started. *)
        dormant <- xnthread_test_state thread XNDORMANT ;;
        if dormant then ret 0
        else
          r <- xnthread_harden env ;;
          ret (if negb (r =? 0) then r else 1)
    else ret 0
  else
    (* ipipe_current_domain != ipipe_root_domain *)
    if domain =? COBALT_SECONDARY then
      xnthread_relax false 0 ;;;
      ret 1
    else ret 0.

End Migrate.

(** ** [cobalt_mayday] *)

(** [xnarch_fixup_mayday] rewrites the frame of the caller from what the
    architecture saved for it; it is a parameter.  The frame is
    [task_pt_regs(current)], the one the dispatcher was entered with.
    The handler returns an [int]: the value of the return register goes
    through [int_of_long].  The warning printed for a caller with no
    thread is not kept. *)
Definition cobalt_mayday (xnarch_fixup_mayday : world -> pt_regs)
    : cobalt_syshand :=
  fun _ w =>
    match current_thread w with
    | None => (- EPERM, w)
    | Some _ =>
        let regs' := xnarch_fixup_mayday w in
        (* Return whatever value xnarch_fixup_mayday set for this
           register, in order not to undo what xnarch_fixup_mayday
           did. *)
        (int_of_long (xn_reg_rval regs'), set_regs regs' w)
    end.

(** ** [cobalt_serialdbg] *)

(** User memory: the byte at an address, when the address can be read. *)
Definition umem : Type := Z -> option Byte.byte.

Fixpoint read_bytes (m : umem) (addr : Z) (n : nat) : option (list Byte.byte) :=
  match n with
  | O => Some []
  | S n' =>
      match m addr, read_bytes m (addr + 1) n' with
      | Some b, Some l => Some (b :: l)
      | _, _ => None
      end
  end.

(** [__xn_safe_copy_from_user(buf, src, n)], a macro of the architecture:
    the [n] bytes at [src], or a failure when one of them cannot be
    read. *)
Definition __xn_safe_copy_from_user (m : umem) (src n : Z) : option (list Byte.byte) :=
  read_bytes m src (Z.to_nat n).

(** [sizeof(buf)] *)
Definition serialdbg_bufsz : Z := 128.

(** The loop of [cobalt_serialdbg]; [out] is what has been handed to
    [__ipipe_serial_debug] so far, the [n] bytes of [buf] of each call.
    [None] when the fuel runs out. *)
Fixpoint serialdbg_loop (fuel : nat) (m : umem) (u_msg len : Z)
    (out : list (list Byte.byte)) : option (Z * list (list Byte.byte)) :=
  match fuel with
  | O => None
  | S fuel' =>
      if len >? 0 then
        let n := if len >? serialdbg_bufsz then serialdbg_bufsz else len in
        match __xn_safe_copy_from_user m u_msg n with
        | None => Some (- EFAULT, out)
        | Some buf =>
            serialdbg_loop fuel' m (u_msg + n) (len - n) (out ++ [buf])
        end
      else Some (0, out)
  end.

Definition cobalt_serialdbg (fuel : nat) (m : umem) (u_msg len : Z)
    : option (Z * list (list Byte.byte)) :=
  serialdbg_loop fuel m u_msg len [].

(** ** [stringify_feature_set] and [cobalt_bind] *)

Section Features.

(** Width of [unsigned long]. *)
Variable BITS_PER_LONG : Z.

(** The call of [ksformat] in the loop, which formats an optional
    separator and the label of a feature into the room left: the count it
    answers, for the room left, whether a separator is asked for, and the
    feature.  Both [ksformat] and [get_feature_label] come from headers
    that are not among the sources. *)
Variable ksformat : Z -> bool -> Z -> Z.

(** The loop of [stringify_feature_set].  The buffer is represented by
    the pieces formatted into it, in order: whether the piece starts with
    a separator, and the feature whose label it holds. *)
Fixpoint stringify_loop (fuel : nat) (fset feature size nfeat : Z)
    (out : list (bool * Z)) : option (list (bool * Z)) :=
  match fuel with
  | O => None
  | S fuel' =>
      if negb (fset =? 0) && (size >? 0) then
        let next := Z.shiftl feature 1 mod 2 ^ BITS_PER_LONG in
        if has fset feature then
          let nc := ksformat size (nfeat >? 0) feature in
          stringify_loop fuel' (Z.land fset (Z.lnot feature)) next
            (size - nc) (nfeat + 1) (out ++ [(nfeat >? 0, feature)])
        else stringify_loop fuel' fset next size nfeat out
      else Some out
  end.

Definition stringify_feature_set (fuel : nat) (fset size : Z)
    : option (list (bool * Z)) :=
  stringify_loop fuel fset 1 size 0 [].

(** [struct cobalt_featinfo]; [feat_arch] stands for the fields only
    [collect_arch_features] knows. *)
Record cobalt_featinfo : Type := mk_featinfo {
  feat_all : Z;
  feat_all_s : option (list (bool * Z));
  feat_man : Z;
  feat_man_s : option (list (bool * Z));
  feat_req : Z;
  feat_req_s : option (list (bool * Z));
  feat_mis : Z;
  feat_mis_s : option (list (bool * Z));
  feat_abirev : Z;
  feat_arch : list Z
}.

(** [struct cobalt_bindreq] *)
Record cobalt_bindreq : Type := mk_bindreq {
  breq_feat_req : Z;
  breq_abi_rev : Z;
  breq_feat_ret : cobalt_featinfo
}.

(** Constants and helpers of headers that are not among the sources. *)
Variables XENOMAI_FEAT_DEP XENOMAI_FEAT_MAN XENOMAI_ABI_REV : Z.
(** [sizeof(f->feat_all_s)] and the like. *)
Variables sizeof_feat_all_s sizeof_feat_man_s : Z.
Variables sizeof_feat_mis_s sizeof_feat_req_s : Z.
Variable check_abi_revision : Z -> bool.
Variable collect_arch_features : cobalt_featinfo -> cobalt_featinfo.
Variable cobalt_bind_core : Z.

(** What a run of [cobalt_bind] leaves: its status, what it copied back
    to the user, and whether [cobalt_bind_core] was called. *)
Record bind_run : Type := mk_bind_run {
  bind_status : Z;
  bind_copied : option cobalt_bindreq;
  bind_core_called : bool
}.

(** [u_breq] is what the user buffer holds, if it can be read, and
    [writable] whether it can be written. *)
Definition cobalt_bind (fuel : nat) (u_breq : option cobalt_bindreq)
    (writable : bool) : bind_run :=
  match u_breq with
  | None => mk_bind_run (- EFAULT) None false
  | Some breq =>
      let featreq := breq_feat_req breq in
      let featmis :=
        Z.land (Z.lnot XENOMAI_FEAT_DEP) (Z.land featreq XENOMAI_FEAT_MAN) in
      let abirev := breq_abi_rev breq in
      (* Pass back the supported feature set and the ABI revision
         level to user-space. *)
      let f :=
        collect_arch_features
          (mk_featinfo
             XENOMAI_FEAT_DEP
             (stringify_feature_set fuel XENOMAI_FEAT_DEP sizeof_feat_all_s)
             (Z.land featreq XENOMAI_FEAT_MAN)
             (stringify_feature_set fuel (Z.land featreq XENOMAI_FEAT_MAN)
                sizeof_feat_man_s)
             featreq
             (stringify_feature_set fuel featreq sizeof_feat_req_s)
             featmis
             (stringify_feature_set fuel featmis sizeof_feat_mis_s)
             XENOMAI_ABI_REV
             (feat_arch (breq_feat_ret breq))) in
      let breq' := mk_bindreq featreq abirev f in
      if negb writable then mk_bind_run (- EFAULT) None false
      (* If some mandatory features the user-space code relies on
         are missing at kernel level, we cannot go further. *)
      else if negb (featmis =? 0) then mk_bind_run (- EINVAL) (Some breq') false
      else if negb (check_abi_revision abirev) then
        mk_bind_run (- ENOEXEC) (Some breq') false
      else mk_bind_run cobalt_bind_core (Some breq') true
  end.

End Features.

(** * Vocabulary of the further properties *)

(** [m] never makes the enclosing function answer anything but what [P]
    allows. *)
Definition returns_only {A} (P : Z -> Prop) (m : M A) : Prop :=
  forall s k s', m s = (Return k, s') -> P k.




(** The first handler invocation a run adds to the log, if it adds any,
    is [e]. *)
Definition enters_first {A} (e : event) (s : kstate)
    (run : outcome A * kstate) : Prop :=
  exists evs,
    st_trace (snd run) = st_trace s ++ evs
    /\ (handler_calls evs = [] \/ exists rest, handler_calls evs = e :: rest).

(** Number of [xnthread_harden] in a log. *)
Definition hardenings (tr : list event) : nat :=
  Datatypes.length (filter is_harden tr).

(** ** Further sample inputs *)

(** A thread in primary mode issuing a regular Linux syscall. *)
Definition foreign_caller : world :=
  mk_world (mk_pt_regs false 1 [0; 0; 0; 0; 0] 0) (Some plain_thread)
           true true false false true.

(** A bound caller in the root domain that lacks CAP_SYS_NICE. *)
Definition unprivileged_caller (nr : Z) : world :=
  mk_world (sample_regs nr) (Some plain_thread) true true true false false.

(** Hardening is always refused. *)
Definition harden_refused (w : world) : Z := - EPERM.

(** A table of adaptive calls served in neither domain, with a
    hardening that is refused. *)
Definition declining_env : cobalt_env :=
  mk_env 128 87 (fun _ => answer (- ENOSYS))
         (fun _ => Z.lor __xn_exec_lostage __xn_exec_adaptive) harden_refused.

(** A fix-up that puts 7 in the return register. *)
Definition sample_fixup (w : world) : pt_regs := set_rval 7 (regs w).

(** The handlers of the examples: [cobalt_mayday], every other call
    answering 0. *)
Definition sample_handlers (name : string) : cobalt_syshand :=
  if String.eqb name "mayday" then cobalt_mayday sample_fixup else answer 0.

(** The two tables of the source under the numbering by rank. *)
Definition sample_source_env : cobalt_env :=
  source_env sc_position 128 sample_handlers harden_unless_signal.

(** User memory readable from 0 up to [limit], full of the letter A. *)
Definition sample_mem (limit : Z) : umem :=
  fun a => if (0 <=? a) && (a <? limit) then Some Byte.x41 else None.


(** * Properties *)

(** ** Mode words *)

Lemma lor_eqb_0 (x y : Z) : (Z.lor x y =? 0) = (x =? 0) && (y =? 0).
Proof.
  destruct (Z.eqb_spec x 0) as [->|Hx]; simpl.
  - reflexivity.
  - apply Z.eqb_neq. intro H. apply Z.lor_eq_0_iff in H. tauto.
Qed.

Lemma has_lor (a b m : Z) : has (Z.lor a b) m = has a m || has b m.
Proof.
  unfold has. rewrite Z.land_lor_distr_l, lor_eqb_0. apply negb_andb.
Qed.

Lemma has_either (f a b : Z) : has f (Z.lor a b) = has f a || has f b.
Proof.
  unfold has. rewrite Z.land_lor_distr_r, lor_eqb_0. apply negb_andb.
Qed.

(** A one-bit mask tests one bit. *)
Lemma has_bit (f k : Z) : 0 <= k -> has f (2 ^ k) = Z.testbit f k.
Proof.
  intro Hk. unfold has.
  destruct (Z.testbit f k) eqn:Hb.
  - apply negb_true_iff, Z.eqb_neq. intro H.
    assert (Ht : Z.testbit (Z.land f (2 ^ k)) k = true)
      by (rewrite Z.land_spec, Hb, Z.pow2_bits_true; auto).
    rewrite H, Z.bits_0 in Ht. discriminate.
  - apply negb_false_iff, Z.eqb_eq. apply Z.bits_inj'. intros n Hn.
    rewrite Z.land_spec, Z.bits_0.
    destruct (Z.eq_dec n k) as [->|Hne].
    + rewrite Hb. reflexivity.
    + rewrite Z.pow2_bits_false by congruence. apply andb_false_r.
Qed.

Lemma has_lxor_bit (f m k : Z) :
  0 <= k -> has (Z.lxor f m) (2 ^ k) = xorb (has f (2 ^ k)) (has m (2 ^ k)).
Proof. intro Hk. rewrite !has_bit by assumption. apply Z.lxor_spec. Qed.

Lemma has_clear_bit (f j k : Z) :
  0 <= j -> 0 <= k ->
  has (Z.land f (Z.lnot (2 ^ j))) (2 ^ k) = has f (2 ^ k) && negb (k =? j).
Proof.
  intros Hj Hk. rewrite !has_bit by assumption.
  rewrite Z.land_spec, Z.lnot_spec by assumption.
  destruct (Z.eqb_spec k j) as [->|Hne].
  - rewrite Z.pow2_bits_true by assumption. reflexivity.
  - rewrite Z.pow2_bits_false by congruence. reflexivity.
Qed.

(** What the flip of the retry does, bit by bit: it toggles the bits of
    [__xn_exec_lostage], [__xn_exec_histage] and [__xn_exec_adaptive]
    and leaves the others alone. *)
Lemma flip_adaptive_bit (f k : Z) :
  0 <= k ->
  has (flip_adaptive f) (2 ^ k)
  = xorb (has f (2 ^ k)) ((k =? 0) || (k =? 1) || (k =? 6)).
Proof.
  intro Hk. unfold flip_adaptive. rewrite has_lxor_bit by assumption.
  f_equal. rewrite has_bit by assumption.
  change (Z.lor (Z.lor __xn_exec_lostage __xn_exec_histage) __xn_exec_adaptive)
    with (Z.lor (Z.lor (2 ^ 0) (2 ^ 1)) (2 ^ 6)).
  rewrite !Z.lor_spec, !Z.pow2_bits_eqb by lia.
  rewrite (Z.eqb_sym 0 k), (Z.eqb_sym 1 k), (Z.eqb_sym 6 k). reflexivity.
Qed.

Lemma flip_adaptive_lostage (f : Z) :
  has (flip_adaptive f) __xn_exec_lostage = negb (has f __xn_exec_lostage).
Proof.
  pose proof (flip_adaptive_bit f 0 (Z.le_refl 0)) as H.
  change (2 ^ 0) with __xn_exec_lostage in H. rewrite H.
  destruct (has f __xn_exec_lostage); reflexivity.
Qed.

Lemma flip_adaptive_histage (f : Z) :
  has (flip_adaptive f) __xn_exec_histage = negb (has f __xn_exec_histage).
Proof.
  pose proof (flip_adaptive_bit f 1 ltac:(lia)) as H.
  change (2 ^ 1) with __xn_exec_histage in H. rewrite H.
  destruct (has f __xn_exec_histage); reflexivity.
Qed.

Lemma flip_adaptive_adaptive (f : Z) :
  has (flip_adaptive f) __xn_exec_adaptive = negb (has f __xn_exec_adaptive).
Proof.
  pose proof (flip_adaptive_bit f 6 ltac:(lia)) as H.
  change (2 ^ 6) with __xn_exec_adaptive in H. rewrite H.
  destruct (has f __xn_exec_adaptive); reflexivity.
Qed.

Lemma flip_adaptive_switchback (f : Z) :
  has (flip_adaptive f) __xn_exec_switchback = has f __xn_exec_switchback.
Proof.
  pose proof (flip_adaptive_bit f 3 ltac:(lia)) as H.
  change (2 ^ 3) with __xn_exec_switchback in H. rewrite H.
  apply xorb_false_r.
Qed.

(** ** Proof steps shared by the theorems below *)

(** Unfolds the monad and the accessors, leaving the dispatchers, the
    collaborators driven by the environment and the mode tests folded. *)
Ltac kstep :=
  cbv beta iota zeta delta
    [bind ret return_ cancel oops out_of_fuel get_world put_world emit
     xnsched_root_p xnsched_primary_p signal_pending xnthread_current
     deref store xnthread_test_info xnthread_test_state xnthread_clear_info
     thread_res_count xnstat_counter_inc_xsc xnthread_sync_window
     __xn_error_return __xn_status_return xnthread_relax xnthread_test_cancel
     xnthread_harden invoke ret_handled
     set_regs set_thread set_process set_root_p set_rval set_info set_stat_xsc
     start];
  cbn [regs current_thread current_process mm_process root_p sigpending
       cap_sys_nice info state res_count stat_xsc
       xn_syscall_p xn_syscall xn_reg_arglist xn_reg_rval
       st_world st_trace is_realtime negb andb orb fst snd].

(** [kstep], using along the way the equations in the context. *)
Ltac krun :=
  cbn [regs current_thread current_process mm_process root_p sigpending
       cap_sys_nice info state res_count stat_xsc
       xn_syscall_p xn_syscall xn_reg_arglist xn_reg_rval] in *;
  repeat (kstep;
          repeat match goal with
                 | H : ?x = _ |- context [?x] => rewrite H
                 end).

(** Settles a comparison of numbers that are all given. *)
Ltac kdecide := vm_compute; repeat split; first [reflexivity | discriminate].

(** Names the answer of the handler invoked in the goal. *)
Ltac khandler :=
  match goal with
  | h : cobalt_syshand |- context [?h' ?a ?w] =>
      constr_eq h h'; destruct (h a w) as [?r ?w1]
  end.

Lemma handler_calls_app (a b : list event) :
  handler_calls (a ++ b) = handler_calls a ++ handler_calls b.
Proof. apply filter_app. Qed.

Lemma range_test (n nr : Z) :
  nr < 0 \/ n <= nr -> (nr <? 0) || (nr >=? n) = true.
Proof.
  intros [H|H].
  - apply Z.ltb_lt in H. rewrite H. reflexivity.
  - apply orb_true_iff. right. apply Z.geb_le. lia.
Qed.

Lemma range_test_in (n nr : Z) :
  0 <= nr < n -> (nr <? 0) || (nr >=? n) = false.
Proof.
  intros [H1 H2]. apply orb_false_iff. split.
  - apply Z.ltb_ge. assumption.
  - rewrite Z.geb_leb. apply Z.leb_gt. assumption.
Qed.

(** ** Calls outside the table *)

(** C7, as the code has it: a recognized call whose id, as stored in
    the [int nr] of the dispatcher, lies outside
    [0, __NR_COBALT_SYSCALLS) is answered by the control-domain
    dispatcher, whichever domain it was issued from, with -ENOSYS in the
    frame and KEVENT_STOP, and no handler is entered; as the event is
    stopped there, the relaxed-domain dispatcher, which has no range
    check of its own, is never reached. *)
Theorem out_of_range_not_implemented
    (env : cobalt_env) (fuel : nat) (ipd : ipipe_domain)
    (w : world) (tr : list event) :
  xn_syscall_p (regs w) = true ->
  int_of_long (xn_syscall (regs w)) < 0
  \/ __NR_COBALT_SYSCALLS env <= int_of_long (xn_syscall (regs w)) ->
  exists s',
    handle_head_syscall env fuel ipd (mk_kstate w tr) = (Return KEVENT_STOP, s')
    /\ syscall_pipeline env fuel ipd (mk_kstate w tr) = (Return KEVENT_STOP, s')
    /\ xn_reg_rval (regs (st_world s')) = - ENOSYS
    /\ st_trace s' = tr ++ [EvErrorReturn (- ENOSYS)]
    /\ handler_calls (st_trace s') = handler_calls tr.
Proof.
  destruct w as [[p nr args rv] th cp mp rp sp cap]; cbn [regs xn_syscall_p xn_syscall].
  intros Hp Hr. subst p.
  set (w := mk_world (mk_pt_regs true nr args rv) th cp mp rp sp cap).
  assert (Hhead : handle_head_syscall env fuel ipd (mk_kstate w tr)
                  = (Return KEVENT_STOP,
                     mk_kstate (set_regs (set_rval (- ENOSYS) (regs w)) w)
                               (tr ++ [EvErrorReturn (- ENOSYS)]))).
  { unfold handle_head_syscall, head_bad_syscall. subst w. kstep.
    rewrite (range_test _ _ Hr). reflexivity. }
  eexists. split; [exact Hhead|]. split; [|split; [|split]].
  - unfold syscall_pipeline, ipipe_syscall_hook. rewrite Hhead. reflexivity.
  - reflexivity.
  - reflexivity.
  - simpl. rewrite handler_calls_app. simpl. apply app_nil_r.
Qed.

(** C7 as stated fails for an id that does not fit an [int]: the range
    test is made on [int nr], so the id 2^32 + 40, which is outside the
    range of a table of 128 calls, is dispatched as call 40: the handler
    is entered and its status, not -ENOSYS, is written. *)
Lemma wide_id_wraps :
  (exists s',
      handle_head_syscall (sample_env __xn_exec_current (answer 7)) 2
        xnsched_realtime_domain
        (start (caller (Some plain_thread) (2 ^ 32 + 40) false false))
      = (Return KEVENT_STOP, s')
      /\ st_trace s' = [EvHandler 40 true; EvStatusReturn 7]
      /\ xn_reg_rval (regs (st_world s')) = 7)
  /\ ~ (forall (env : cobalt_env) (fuel : nat) (ipd : ipipe_domain)
               (w : world),
          xn_syscall_p (regs w) = true ->
          xn_syscall (regs w) < 0
          \/ __NR_COBALT_SYSCALLS env <= xn_syscall (regs w) ->
          exists s',
            handle_head_syscall env fuel ipd (start w)
            = (Return KEVENT_STOP, s')
            /\ xn_reg_rval (regs (st_world s')) = - ENOSYS
            /\ handler_calls (st_trace s') = []).
Proof.
  split.
  - eexists. split; [vm_compute; reflexivity|]. split; reflexivity.
  - intro H.
    assert (Hr : xn_syscall
                   (regs (caller (Some plain_thread) (2 ^ 32 + 40) false false))
                 < 0
                 \/ __NR_COBALT_SYSCALLS
                      (sample_env __xn_exec_current (answer 7))
                    <= xn_syscall
                         (regs (caller (Some plain_thread) (2 ^ 32 + 40)
                                  false false)))
      by (right; kdecide).
    destruct (H (sample_env __xn_exec_current (answer 7)) 2%nat
                xnsched_realtime_domain
                (caller (Some plain_thread) (2 ^ 32 + 40) false false)
                eq_refl Hr) as (s' & Hrun & Hrv & _).
    vm_compute in Hrun. injection Hrun as <-. discriminate Hrv.
Qed.

(** The relaxed-domain dispatcher indexes the tables with the id as it
    is in [nr]: entered with an id outside the tables it reads out of
    bounds, before any handler is entered. *)
Lemma root_unchecked_index
    (env : cobalt_env) (fuel : nat) (ipd : ipipe_domain)
    (w : world) (tr : list event) :
  xn_syscall_p (regs w) = true ->
  cancel_pending w = false ->
  int_of_long (xn_syscall (regs w)) < 0
  \/ __NR_COBALT_SYSCALLS env <= int_of_long (xn_syscall (regs w)) ->
  handle_root_syscall env fuel ipd (mk_kstate w tr)
  = (Oops, mk_kstate w (tr ++ [EvTestCancel])).
Proof.
  destruct w as [[p nr args rv] th cp mp rp sp cap].
  unfold cancel_pending. cbn [regs xn_syscall_p xn_syscall current_thread].
  intros Hp Hc Hr. subst p. apply range_test in Hr.
  unfold handle_root_syscall, table_entry.
  destruct th as [[i st rc xsc]|]; krun; reflexivity.
Qed.

(** ** The permission gate *)

Lemma syscall_denied_spec (env : cobalt_env) (w : world) :
  syscall_denied env (process_bound w) (thread_bound w) (cap_sys_nice w)
                 (int_of_long (xn_syscall (regs w)))
                 (cobalt_sysmodes env (int_of_long (xn_syscall (regs w))))
  = negb (gate_open env w).
Proof.
  unfold syscall_denied, gate_open.
  destruct (process_bound w), (thread_bound w), (cap_sys_nice w),
    (int_of_long (xn_syscall (regs w)) =? sc_cobalt_bind env),
    (has (cobalt_sysmodes env (int_of_long (xn_syscall (regs w)))) __xn_exec_shadow);
    reflexivity.
Qed.

Lemma head_gate_closed
    (env : cobalt_env) (fuel : nat) (ipd : ipipe_domain)
    (w : world) (tr : list event) :
  xn_syscall_p (regs w) = true ->
  0 <= int_of_long (xn_syscall (regs w)) < __NR_COBALT_SYSCALLS env ->
  gate_open env w = false ->
  exists s',
    handle_head_syscall env fuel ipd (mk_kstate w tr) = (Return KEVENT_STOP, s')
    /\ xn_reg_rval (regs (st_world s')) = - EPERM
    /\ st_trace s' = tr ++ [EvErrorReturn (- EPERM)].
Proof.
  intros Hp Hr Hg. pose proof (syscall_denied_spec env w) as Hd.
  rewrite Hg in Hd. revert Hd.
  destruct w as [[p nr args rv] th cp mp rp sp cap].
  unfold process_bound, thread_bound.
  cbn [regs xn_syscall_p xn_syscall current_thread current_process
       mm_process cap_sys_nice] in *.
  subst p. intro Hd.
  unfold handle_head_syscall, lookup_process. kstep.
  rewrite (range_test_in _ _ Hr).
  destruct cp; kstep; cbn [orb] in Hd; rewrite Hd; destruct th; kstep;
    eexists; repeat split.
Qed.

Lemma head_gate_open
    (env : cobalt_env) (fuel : nat) (ipd : ipipe_domain)
    (w : world) (tr : list event) :
  xn_syscall_p (regs w) = true ->
  0 <= int_of_long (xn_syscall (regs w)) < __NR_COBALT_SYSCALLS env ->
  gate_open env w = true ->
  handle_head_syscall env fuel ipd (mk_kstate w tr)
  = head_dispatch env fuel ipd (thread_bound w) (int_of_long (xn_syscall (regs w)))
      (cobalt_syscalls env (int_of_long (xn_syscall (regs w))))
      (cobalt_sysmodes env (int_of_long (xn_syscall (regs w))))
      (mk_kstate (set_process (process_bound w) w) tr).
Proof.
  intros Hp Hr Hg. pose proof (syscall_denied_spec env w) as Hd.
  rewrite Hg in Hd. revert Hd.
  destruct w as [[p nr args rv] th cp mp rp sp cap].
  unfold process_bound, thread_bound.
  cbn [regs xn_syscall_p xn_syscall current_thread current_process
       mm_process cap_sys_nice] in *.
  subst p. intro Hd.
  unfold handle_head_syscall, lookup_process. kstep.
  rewrite (range_test_in _ _ Hr).
  destruct cp; kstep; cbn [orb] in Hd; rewrite Hd; reflexivity.
Qed.

(** C3: for a recognized call with an id in range, the control-domain
    dispatcher answers -EPERM with KEVENT_STOP, entering no handler,
    unless the gate is open for the call (process binding or bind call; thread
    binding whenever the mode has [__xn_exec_shadow]; CAP_SYS_NICE or
    bind call), in which case it goes on to dispatch the call.  The bind
    call, whose mode asks for no thread binding, goes on even without
    process binding and privilege; any other call without the privilege
    is denied. *)
Theorem permission_gate
    (env : cobalt_env) (fuel : nat) (ipd : ipipe_domain)
    (w : world) (tr : list event) :
  xn_syscall_p (regs w) = true ->
  0 <= int_of_long (xn_syscall (regs w)) < __NR_COBALT_SYSCALLS env ->
  let nr := int_of_long (xn_syscall (regs w)) in
  let mode := cobalt_sysmodes env nr in
  let dispatched :=
    handle_head_syscall env fuel ipd (mk_kstate w tr)
    = head_dispatch env fuel ipd (thread_bound w) nr
        (cobalt_syscalls env nr) mode
        (mk_kstate (set_process (process_bound w) w) tr) in
  let denied :=
    exists s',
      handle_head_syscall env fuel ipd (mk_kstate w tr) = (Return KEVENT_STOP, s')
      /\ xn_reg_rval (regs (st_world s')) = - EPERM
      /\ handler_calls (st_trace s') = handler_calls tr in
  (gate_open env w = false -> denied)
  /\ (gate_open env w = true -> dispatched)
  /\ (nr = sc_cobalt_bind env -> has mode __xn_exec_shadow = false -> dispatched)
  /\ (nr <> sc_cobalt_bind env -> cap_sys_nice w = false -> denied)
  /\ (has mode __xn_exec_shadow = true -> thread_bound w = false -> denied).
Proof.
  intros Hp Hr nr mode dispatched denied.
  assert (Hclosed : gate_open env w = false -> denied).
  { intro Hg. destruct (head_gate_closed env fuel ipd w tr Hp Hr Hg)
      as (s' & Hrun & Hrv & Htr).
    exists s'. split; [exact Hrun|]. split; [exact Hrv|].
    rewrite Htr, handler_calls_app. apply app_nil_r. }
  assert (Hopen : gate_open env w = true -> dispatched).
  { intro Hg. exact (head_gate_open env fuel ipd w tr Hp Hr Hg). }
  split; [exact Hclosed|]. split; [exact Hopen|]. split; [|split].
  - intros Hb Hs. apply Hopen. unfold gate_open. fold nr. fold mode.
    rewrite Hs. apply Z.eqb_eq in Hb. rewrite Hb.
    rewrite !orb_true_r. reflexivity.
  - intros Hb Hc. apply Hclosed. unfold gate_open. fold nr.
    apply Z.eqb_neq in Hb. rewrite Hb, Hc. rewrite andb_false_r. reflexivity.
  - intros Hs Ht. apply Hclosed. unfold gate_open. fold nr. fold mode.
    rewrite Hs, Ht. rewrite andb_false_r. reflexivity.
Qed.

(** ** Failed migration in the relaxed-domain dispatcher *)


(** ** Resolution of the conforming mode *)

Lemma resolve_conforming_lor (thread : bool) (mode : Z) :
  has mode __xn_exec_conforming = true ->
  resolve_conforming thread mode
  = Z.lor mode (if thread then __xn_exec_histage else __xn_exec_lostage).
Proof. intro H. unfold resolve_conforming. rewrite H. reflexivity. Qed.

Lemma root_entry
    (env : cobalt_env) (fuel : nat) (ipd : ipipe_domain)
    (w : world) (tr : list event) :
  xn_syscall_p (regs w) = true ->
  0 <= int_of_long (xn_syscall (regs w)) < __NR_COBALT_SYSCALLS env ->
  cancel_pending w = false ->
  handle_root_syscall env fuel ipd (mk_kstate w tr)
  = (let nr := int_of_long (xn_syscall (regs w)) in
     '(r, sysflags, switched) <-
        root_restart env fuel (thread_bound w) nr (cobalt_syscalls env nr)
          (resolve_conforming (thread_bound w) (cobalt_sysmodes env nr)) ;;
     root_done (thread_bound w) r sysflags switched)%kmonad
      (mk_kstate w (tr ++ [EvTestCancel])).
Proof.
  intros Hp Hr Hc. apply range_test_in in Hr. revert Hc.
  destruct w as [[p nr args rv] th cp mp rp sp cap].
  unfold cancel_pending, thread_bound.
  cbn [regs xn_syscall_p xn_syscall current_thread] in *.
  subst p. intros Hc.
  unfold handle_root_syscall, table_entry.
  destruct th as [[i st rc xsc]|]; cbn [info] in Hc; krun; reflexivity.
Qed.

(** C6: for a call whose mode has [__xn_exec_conforming], the effective
    mode is the mode with [__xn_exec_histage] added when the caller has a
    thread binding and with [__xn_exec_lostage] added otherwise, so it
    depends on the state only through the presence of the binding; both
    dispatchers enter their restart loop with that effective mode, in
    which one of the two domain bits is set. *)
Theorem conforming_resolved
    (env : cobalt_env) (fuel : nat) (ipd : ipipe_domain)
    (w : world) (tr : list event) :
  let nr := int_of_long (xn_syscall (regs w)) in
  let mode := cobalt_sysmodes env nr in
  let thread := thread_bound w in
  let effective :=
    Z.lor mode (if thread then __xn_exec_histage else __xn_exec_lostage) in
  xn_syscall_p (regs w) = true ->
  0 <= nr < __NR_COBALT_SYSCALLS env ->
  has mode __xn_exec_conforming = true ->
  resolve_conforming thread mode = effective
  /\ has effective __xn_exec_histage = has mode __xn_exec_histage || thread
  /\ has effective __xn_exec_lostage = has mode __xn_exec_lostage || negb thread
  /\ has effective __xn_exec_lostage || has effective __xn_exec_histage = true
  /\ (forall w2, thread_bound w2 = thread ->
        resolve_conforming (thread_bound w2) mode = effective)
  /\ (gate_open env w = true ->
      handle_head_syscall env fuel ipd (mk_kstate w tr)
      = ('(r, sysflags, switched) <-
            head_restart env fuel ipd nr (cobalt_syscalls env nr) effective false ;;
         head_done env thread r sysflags switched)%kmonad
          (mk_kstate (set_process (process_bound w) w) tr))
  /\ (cancel_pending w = false ->
      handle_root_syscall env fuel ipd (mk_kstate w tr)
      = ('(r, sysflags, switched) <-
            root_restart env fuel thread nr (cobalt_syscalls env nr) effective ;;
         root_done thread r sysflags switched)%kmonad
          (mk_kstate w (tr ++ [EvTestCancel]))).
Proof.
  intros nr mode thread effective Hp Hr Hconf.
  assert (Hres : resolve_conforming thread mode = effective)
    by (apply resolve_conforming_lor; exact Hconf).
  split; [exact Hres|].
  split; [|split; [|split; [|split; [|split]]]].
  - unfold effective. rewrite has_lor. destruct thread; reflexivity.
  - unfold effective. rewrite has_lor. destruct thread; reflexivity.
  - unfold effective. rewrite !has_lor. destruct thread.
    + change (has __xn_exec_histage __xn_exec_histage) with true.
      rewrite !orb_true_r. reflexivity.
    + change (has __xn_exec_lostage __xn_exec_lostage) with true.
      rewrite !orb_true_r. reflexivity.
  - intros w2 Hw2. rewrite Hw2. exact Hres.
  - intro Hg. rewrite (head_gate_open env fuel ipd w tr Hp Hr Hg).
    unfold head_dispatch. subst effective thread mode nr. cbv zeta.
    rewrite Hres. reflexivity.
  - intro Hc. rewrite (root_entry env fuel ipd w tr Hp Hr Hc).
    subst effective thread mode nr. cbv zeta. rewrite Hres. reflexivity.
Qed.

(** ** Info bits across [xnthread_clear_info] *)

Lemma clear_kicked_kicked (i : Z) :
  has (Z.land i (Z.lnot XNKICKED)) XNKICKED = false.
Proof.
  pose proof (has_clear_bit i 3 3 ltac:(lia) ltac:(lia)) as H.
  change (2 ^ 3) with XNKICKED in H. rewrite H. apply andb_false_r.
Qed.

Lemma clear_kicked_canceld (i : Z) :
  has (Z.land i (Z.lnot XNKICKED)) XNCANCELD = has i XNCANCELD.
Proof.
  pose proof (has_clear_bit i 3 6 ltac:(lia) ltac:(lia)) as H.
  change (2 ^ 3) with XNKICKED in H. change (2 ^ 6) with XNCANCELD in H.
  rewrite H. apply andb_true_r.
Qed.

Lemma clear_break_canceld (i : Z) :
  has (Z.land i (Z.lnot XNBREAK)) XNCANCELD = has i XNCANCELD.
Proof.
  pose proof (has_clear_bit i 2 6 ltac:(lia) ltac:(lia)) as H.
  change (2 ^ 2) with XNBREAK in H. change (2 ^ 6) with XNCANCELD in H.
  rewrite H. apply andb_true_r.
Qed.

Lemma clear_break_kicked (i : Z) :
  has (Z.land i (Z.lnot XNBREAK)) XNKICKED = has i XNKICKED.
Proof.
  pose proof (has_clear_bit i 2 3 ltac:(lia) ltac:(lia)) as H.
  change (2 ^ 2) with XNBREAK in H. change (2 ^ 3) with XNKICKED in H.
  rewrite H. apply andb_true_r.
Qed.

Lemma kicked_clears_app (a b : list event) :
  kicked_clears (a ++ b) = (kicked_clears a + kicked_clears b)%nat.
Proof. unfold kicked_clears. rewrite filter_app. apply length_app. Qed.

(** ** Interposition with the thread kicked and a signal pending *)

Lemma prepare_for_signal_kicked
    (w : world) (t : xnthread) (sysflags : Z) (tr : list event) :
  current_thread w = Some t ->
  has (info t) XNKICKED = true ->
  sigpending w = true ->
  let status := interrupted_status sysflags in
  let t' := set_info (Z.land (Z.land (info t) (Z.lnot XNBREAK)) (Z.lnot XNKICKED)) t in
  let w' := set_thread (Some t') (set_regs (set_rval status (regs w)) w) in
  let evs := [EvErrorReturn status; EvClearInfo XNBREAK; EvClearInfo XNKICKED;
              EvTestCancel] in
  prepare_for_signal true sysflags (mk_kstate w tr)
  = if has (info t) XNCANCELD
    then (Cancelled, mk_kstate w' (tr ++ evs))
    else (Next tt,
          mk_kstate (set_root_p true w')
            (tr ++ evs ++ [EvRelax (negb (has (state t) XNDEBUG))
                                   SIGDEBUG_MIGRATE_SIGNAL])).
Proof.
  destruct w as [[p nr args rv] th cp mp rp sp cap].
  destruct t as [i st rc xsc].
  cbn [current_thread sigpending info state].
  intros Ht Hk Hs. subst th sp.
  unfold prepare_for_signal, interrupted_status. krun.
  rewrite clear_kicked_canceld, clear_break_canceld.
  destruct (has i XNCANCELD); krun; rewrite <- !app_assoc; reflexivity.
Qed.

Lemma prepare_for_signal_not_kicked
    (w : world) (t : xnthread) (sysflags : Z) (tr : list event) :
  current_thread w = Some t ->
  has (info t) XNKICKED = false ->
  prepare_for_signal true sysflags (mk_kstate w tr)
  = if has (info t) XNCANCELD
    then (Cancelled, mk_kstate w (tr ++ [EvTestCancel]))
    else (Next tt,
          mk_kstate (set_root_p true w)
            (tr ++ [EvTestCancel; EvRelax false SIGDEBUG_MIGRATE_SIGNAL])).
Proof.
  destruct w as [[p nr args rv] th cp mp rp sp cap].
  destruct t as [i st rc xsc].
  cbn [current_thread info].
  intros Ht Hk. subst th.
  unfold prepare_for_signal. krun.
  destruct (has i XNCANCELD); krun; rewrite <- ?app_assoc; reflexivity.
Qed.

(** When the control-domain dispatcher interposes: the rest of the call
    is the status write, [prepare_for_signal] and the way out. *)
Lemma head_done_interposed
    (env : cobalt_env) (w : world) (t : xnthread)
    (r sysflags : Z) (switched : bool) (tr : list event) :
  current_thread w = Some t ->
  root_p w = false ->
  sigpending w || has (info t) XNKICKED = true ->
  head_done env true r sysflags switched (mk_kstate w tr)
  = (prepare_for_signal true sysflags ;;; ret_handled true)%kmonad
      (mk_kstate (set_regs (set_rval r (regs w)) w) (tr ++ [EvStatusReturn r])).
Proof.
  destruct w as [[p nr args rv] th cp mp rp sp cap].
  destruct t as [i st rc xsc].
  cbn [current_thread root_p sigpending info].
  intros Ht Hr Hi. subst th rp.
  unfold head_done. kstep.
  destruct sp; cbn [orb] in Hi; krun.
  - destruct (prepare_for_signal true sysflags _) as [[u| | | |] s1]; reflexivity.
  - destruct (prepare_for_signal true sysflags _) as [[u| | | |] s1]; reflexivity.
Qed.

(** When the relaxed-domain dispatcher interposes. *)
Lemma root_done_interposed
    (w : world) (t : xnthread) (thread : bool)
    (r sysflags : Z) (switched : bool) (tr : list event) :
  current_thread w = Some t ->
  root_p w = false ->
  sigpending w = true ->
  root_done thread r sysflags switched (mk_kstate w tr)
  = (prepare_for_signal true sysflags ;;; ret_handled true)%kmonad
      (mk_kstate (set_regs (set_rval r (regs w)) w) (tr ++ [EvStatusReturn r])).
Proof.
  destruct w as [[p nr args rv] th cp mp rp sp cap].
  destruct t as [i st rc xsc].
  cbn [current_thread root_p sigpending info].
  intros Ht Hr Hi. subst th rp sp.
  unfold root_done. krun.
  destruct (prepare_for_signal true sysflags _) as [[u| | | |] s1]; reflexivity.
Qed.

(** ** Interposition with a signal pending and the thread not kicked *)

(** C10: when interposition is entered with a signal pending and XNKICKED
    clear, which both dispatchers do for a thread out of the root domain,
    the status word keeps the handler's status, no interrupted status is
    written, the info word of the thread is not touched; the thread is
    tested for cancellation and, not being cancelled, relaxed with cause
    SIGDEBUG_MIGRATE_SIGNAL and no notification. *)
Theorem unkicked_signal_interposition
    (env : cobalt_env) (w : world) (t : xnthread) (sysflags : Z)
    (tr : list event) :
  current_thread w = Some t ->
  has (info t) XNKICKED = false ->
  sigpending w = true ->
  (exists out s',
      prepare_for_signal true sysflags (mk_kstate w tr) = (out, s')
      /\ regs (st_world s') = regs w
      /\ current_thread (st_world s') = Some t
      /\ (exists rest, st_trace s' = tr ++ EvTestCancel :: rest)
      /\ kicked_clears (st_trace s') = kicked_clears tr
      /\ (cancel_pending w = true -> out = Cancelled)
      /\ (cancel_pending w = false ->
          out = Next tt
          /\ root_p (st_world s') = true
          /\ st_trace s'
             = tr ++ [EvTestCancel; EvRelax false SIGDEBUG_MIGRATE_SIGNAL]))
  /\ (root_p w = false -> cancel_pending w = false ->
      forall (r : Z) (switched thread : bool),
        (exists s',
            head_done env true r sysflags switched (mk_kstate w tr)
            = (Return KEVENT_STOP, s')
            /\ xn_reg_rval (regs (st_world s')) = r
            /\ (exists t', current_thread (st_world s') = Some t'
                           /\ info t' = info t)
            /\ root_p (st_world s') = true
            /\ st_trace s'
               = tr ++ [EvStatusReturn r; EvTestCancel;
                        EvRelax false SIGDEBUG_MIGRATE_SIGNAL])
        /\ (exists s',
            root_done thread r sysflags switched (mk_kstate w tr)
            = (Return KEVENT_STOP, s')
            /\ xn_reg_rval (regs (st_world s')) = r
            /\ (exists t', current_thread (st_world s') = Some t'
                           /\ info t' = info t)
            /\ root_p (st_world s') = true
            /\ st_trace s'
               = tr ++ [EvStatusReturn r; EvTestCancel;
                        EvRelax false SIGDEBUG_MIGRATE_SIGNAL])).
Proof.
  intros Ht Hk Hs.
  assert (Hc : cancel_pending w = has (info t) XNCANCELD)
    by (unfold cancel_pending; rewrite Ht; reflexivity).
  split.
  - rewrite (prepare_for_signal_not_kicked w t sysflags tr Ht Hk). rewrite Hc.
    destruct (has (info t) XNCANCELD); eexists; eexists;
      (split; [reflexivity|]); cbn [st_world st_trace];
      (split; [reflexivity|]); (split; [exact Ht|]);
      (split; [eexists; reflexivity|]);
      (split; [rewrite kicked_clears_app; apply Nat.add_0_r|]);
      split; try discriminate; try reflexivity.
    intros _. repeat split.
  - intros Hroot Hnc r switched thread. rewrite Hc in Hnc.
    assert (Hi : sigpending w || has (info t) XNKICKED = true)
      by (rewrite Hs; reflexivity).
    rewrite (head_done_interposed env w t r sysflags switched tr Ht Hroot Hi).
    rewrite (root_done_interposed w t thread r sysflags switched tr Ht Hroot Hs).
    unfold bind.
    rewrite (prepare_for_signal_not_kicked _ t sysflags _);
      [|exact Ht|exact Hk].
    rewrite Hnc.
    destruct w as [[p nr args rv] th cp mp rp sp cap].
    destruct t as [i st rc xsc].
    cbn [current_thread root_p sigpending info state] in *. subst th rp sp.
    kstep.
    split; (eexists; split; [reflexivity|]);
      cbn [st_world st_trace regs xn_reg_rval current_thread root_p];
      (split; [reflexivity|]);
      (split; [eexists; split; reflexivity|]);
      (split; [reflexivity|]);
      rewrite <- !app_assoc; reflexivity.
Qed.

(** ** Cancellation *)

(** C8: with cancellation requested and a signal pending at the
    interposition point, the call ends in cancellation: neither
    [prepare_for_signal] nor the dispatcher around it returns, so no
    status reaches the caller, and the relax for signal delivery is not
    performed, the cancellation test being the last thing done.  A
    cancellation requested before the relaxed-domain dispatcher is entered
    is honoured before the call is even recognized. *)
Theorem cancellation_takes_precedence
    (env : cobalt_env) (w : world) (t : xnthread) (sysflags : Z)
    (tr : list event) :
  current_thread w = Some t ->
  has (info t) XNCANCELD = true ->
  sigpending w = true ->
  let cancelled_in (run : outcome unit * kstate) :=
    exists s' pre,
      run = (Cancelled, s')
      /\ st_trace s' = tr ++ pre ++ [EvTestCancel]
      /\ filter is_relax (st_trace s') = filter is_relax tr
      /\ handler_calls (st_trace s') = handler_calls tr
      /\ root_p (st_world s') = root_p w in
  cancelled_in (prepare_for_signal true sysflags (mk_kstate w tr))
  /\ (root_p w = false ->
      forall (r : Z) (switched thread : bool),
        cancelled_in (head_done env true r sysflags switched (mk_kstate w tr))
        /\ cancelled_in (root_done thread r sysflags switched (mk_kstate w tr)))
  /\ (forall (fuel : nat) (ipd : ipipe_domain),
        handle_root_syscall env fuel ipd (mk_kstate w tr)
        = (Cancelled, mk_kstate w (tr ++ [EvTestCancel]))).
Proof.
  intros Ht Hc Hs cancelled_in.
  assert (Hprep : forall w0 tr0 pre0,
             current_thread w0 = Some t -> sigpending w0 = true ->
             exists s' pre,
               prepare_for_signal true sysflags (mk_kstate w0 (tr0 ++ pre0))
               = (Cancelled, s')
               /\ st_trace s' = tr0 ++ pre ++ [EvTestCancel]
               /\ filter is_relax pre = filter is_relax pre0
               /\ handler_calls pre = handler_calls pre0
               /\ root_p (st_world s') = root_p w0).
  { intros w0 tr0 pre0 Ht0 Hs0. destruct (has (info t) XNKICKED) eqn:Hk.
    - rewrite (prepare_for_signal_kicked w0 t sysflags _ Ht0 Hk Hs0), Hc.
      eexists. exists (pre0 ++ [EvErrorReturn (interrupted_status sysflags);
                                EvClearInfo XNBREAK; EvClearInfo XNKICKED]).
      split; [reflexivity|]. cbn [st_world st_trace root_p set_thread set_regs].
      split; [rewrite <- !app_assoc; reflexivity|].
      split; [rewrite filter_app; apply app_nil_r|].
      split; [rewrite handler_calls_app; apply app_nil_r|reflexivity].
    - rewrite (prepare_for_signal_not_kicked w0 t sysflags _ Ht0 Hk), Hc.
      eexists. exists pre0.
      split; [reflexivity|]. cbn [st_world st_trace].
      split; [rewrite <- !app_assoc; reflexivity|].
      repeat split. }
  assert (Hfin : forall run pre0,
             (exists s' pre,
                 run = (Cancelled, s')
                 /\ st_trace s' = tr ++ pre ++ [EvTestCancel]
                 /\ filter is_relax pre = filter is_relax pre0
                 /\ handler_calls pre = handler_calls pre0
                 /\ root_p (st_world s') = root_p w) ->
             filter is_relax pre0 = [] -> handler_calls pre0 = [] ->
             cancelled_in run).
  { intros run pre0 (s' & pre & Hrun & Htr & Hrel & Hh & Hroot) Hr0 Hh0.
    exists s', pre. split; [exact Hrun|]. split; [exact Htr|].
    rewrite Htr, !filter_app, !handler_calls_app, Hrel, Hh, Hr0, Hh0.
    cbn [filter is_relax handler_calls is_handler].
    rewrite !app_nil_r. repeat split. exact Hroot. }
  split; [|split].
  - apply (Hfin _ []); [|reflexivity|reflexivity].
    pose proof (Hprep w tr [] Ht Hs) as H. rewrite app_nil_r in H. exact H.
  - intros Hroot r switched thread.
    assert (Hi : sigpending w || has (info t) XNKICKED = true)
      by (rewrite Hs; reflexivity).
    rewrite (head_done_interposed env w t r sysflags switched tr Ht Hroot Hi).
    rewrite (root_done_interposed w t thread r sysflags switched tr Ht Hroot Hs).
    assert (Hboth : cancelled_in
              ((prepare_for_signal true sysflags ;;; ret_handled true)%kmonad
                 (mk_kstate (set_regs (set_rval r (regs w)) w)
                            (tr ++ [EvStatusReturn r])))).
    { apply (Hfin _ [EvStatusReturn r]); [|reflexivity|reflexivity].
      destruct (Hprep (set_regs (set_rval r (regs w)) w) tr [EvStatusReturn r]
                  Ht Hs) as (s' & pre & Hrun & Hrest).
      exists s', pre. unfold bind. rewrite Hrun. split; [reflexivity|exact Hrest]. }
    split; exact Hboth.
  - intros fuel ipd. unfold handle_root_syscall. kstep.
    rewrite Ht. rewrite Hc. reflexivity.
Qed.

(** ** Switching back *)

Lemma head_done_switchback
    (env : cobalt_env) (w : world) (t : xnthread)
    (r sysflags : Z) (tr : list event) :
  current_thread w = Some t ->
  has sysflags __xn_exec_switchback = true ->
  head_interposes w = false ->
  (root_p w = true -> harden_status env (status_written r w) = 0) ->
  exists s',
    head_done env true r sysflags true (mk_kstate w tr) = (Return KEVENT_STOP, s')
    /\ root_p (st_world s') = false
    /\ xn_reg_rval (regs (st_world s')) = r.
Proof.
  destruct w as [[p nr args rv] th cp mp rp sp cap].
  destruct t as [i st rc xsc].
  unfold head_interposes, kicked, status_written, set_regs, set_rval.
  cbn [current_thread root_p sigpending info regs xn_syscall_p xn_syscall
       xn_reg_arglist mm_process current_process cap_sys_nice].
  intros Ht Hsb Hi Hh. subst th.
  unfold head_done.
  destruct rp; cbn [negb andb] in Hi.
  - specialize (Hh eq_refl). krun. eexists. repeat split.
  - apply orb_false_iff in Hi. destruct Hi as [Hsp Hk]. subst sp.
    cbn [info] in Hk. krun.
    destruct (has st XNWEAK); krun.
    + destruct (rc =? 0); krun.
      * eexists. repeat split.
      * destruct (harden_status env _ =? 0); krun; eexists; repeat split.
    + destruct (harden_status env _ =? 0); krun; eexists; repeat split.
Qed.

Lemma head_done_interposed_relaxed
    (env : cobalt_env) (w : world) (t : xnthread)
    (r sysflags : Z) (switched : bool) (tr : list event) :
  current_thread w = Some t ->
  head_interposes w = true ->
  cancel_pending w = false ->
  exists s',
    head_done env true r sysflags switched (mk_kstate w tr)
    = (Return KEVENT_STOP, s')
    /\ root_p (st_world s') = true
    /\ filter is_harden (st_trace s') = filter is_harden tr.
Proof.
  intros Ht Hi Hc.
  unfold head_interposes, kicked in Hi. rewrite Ht in Hi.
  apply andb_true_iff in Hi. destruct Hi as [Hroot Hi].
  apply negb_true_iff in Hroot.
  unfold cancel_pending in Hc. rewrite Ht in Hc.
  rewrite (head_done_interposed env w t r sysflags switched tr Ht Hroot Hi).
  unfold bind.
  destruct (has (info t) XNKICKED) eqn:Hk.
  - destruct w as [[p nr args rv] th cp mp rp sp cap].
    destruct t as [i st rc xsc].
    cbn [current_thread root_p sigpending info] in *. subst th rp.
    unfold prepare_for_signal. krun.
    destruct sp; krun.
    + rewrite clear_kicked_canceld, clear_break_canceld, Hc. krun.
      eexists. split; [reflexivity|]. split; [reflexivity|].
      cbn [st_trace]. rewrite <- !app_assoc. rewrite filter_app.
      apply app_nil_r.
    + rewrite clear_kicked_canceld, Hc. krun.
      eexists. split; [reflexivity|]. split; [reflexivity|].
      cbn [st_trace]. rewrite <- !app_assoc. rewrite filter_app.
      apply app_nil_r.
  - rewrite (prepare_for_signal_not_kicked _ t sysflags _); [|exact Ht|exact Hk].
    rewrite Hc.
    destruct w as [[p nr args rv] th cp mp rp sp cap].
    destruct t as [i st rc xsc].
    cbn [current_thread root_p sigpending info] in *. subst th rp.
    krun.
    eexists. split; [reflexivity|]. split; [reflexivity|].
    cbn [st_trace]. rewrite <- !app_assoc. rewrite filter_app.
    apply app_nil_r.
Qed.

Lemma root_done_switchback
    (w : world) (t : xnthread) (thread : bool)
    (r sysflags : Z) (tr : list event) :
  current_thread w = Some t ->
  has sysflags __xn_exec_switchback = true ->
  (root_interposes w = true -> cancel_pending w = false) ->
  exists s',
    root_done thread r sysflags true (mk_kstate w tr) = (Return KEVENT_STOP, s')
    /\ root_p (st_world s') = true.
Proof.
  destruct w as [[p nr args rv] th cp mp rp sp cap].
  destruct t as [i st rc xsc].
  unfold root_interposes, cancel_pending.
  cbn [current_thread root_p sigpending info].
  intros Ht Hsb Hc. subst th.
  unfold root_done.
  destruct rp; cbn [negb andb] in Hc.
  - krun. destruct thread; krun; eexists; split; reflexivity.
  - destruct sp.
    + specialize (Hc eq_refl). unfold prepare_for_signal. krun.
      destruct (has i XNKICKED); krun.
      * rewrite clear_kicked_canceld, clear_break_canceld, Hc. krun.
        eexists; split; reflexivity.
      * eexists; split; reflexivity.
    + krun. destruct (has st XNWEAK); krun.
      * destruct (rc =? 0); krun.
        -- rewrite has_lor, Hsb. krun. eexists; split; reflexivity.
        -- eexists; split; reflexivity.
      * eexists; split; reflexivity.
Qed.

Lemma root_done_interposed_relaxed
    (w : world) (t : xnthread) (thread : bool)
    (r sysflags : Z) (switched : bool) (tr : list event) :
  current_thread w = Some t ->
  root_interposes w = true ->
  cancel_pending w = false ->
  exists s',
    root_done thread r sysflags switched (mk_kstate w tr)
    = (Return KEVENT_STOP, s')
    /\ root_p (st_world s') = true.
Proof.
  intros Ht Hi Hc.
  unfold root_interposes in Hi.
  apply andb_true_iff in Hi. destruct Hi as [Hroot Hs].
  apply negb_true_iff in Hroot.
  unfold cancel_pending in Hc. rewrite Ht in Hc.
  rewrite (root_done_interposed w t thread r sysflags switched tr Ht Hroot Hs).
  unfold bind.
  destruct (has (info t) XNKICKED) eqn:Hk.
  - rewrite (prepare_for_signal_kicked _ t sysflags _);
      [|exact Ht|exact Hk|exact Hs].
    rewrite Hc.
    destruct w as [[p nr args rv] th cp mp rp sp cap].
    destruct t as [i st rc xsc].
    cbn [current_thread] in Ht. subst th. krun.
    eexists. split; reflexivity.
  - rewrite (prepare_for_signal_not_kicked _ t sysflags _); [|exact Ht|exact Hk].
    rewrite Hc.
    destruct w as [[p nr args rv] th cp mp rp sp cap].
    destruct t as [i st rc xsc].
    cbn [current_thread] in Ht. subst th. krun.
    eexists. split; reflexivity.
Qed.

(** C1, as the code has it: after a call that made the thread migrate
    ([switched] set) and whose mode has [__xn_exec_switchback], the
    relaxed-domain dispatcher leaves the thread in the relaxed domain it
    came from, and the control-domain dispatcher leaves it in the control
    domain provided [xnthread_harden] succeeds when the thread has to
    re-enter it (the status of that call is dropped, a failure leaves the
    thread relaxed).  When interposition runs and the thread is not
    cancelled, the thread ends in the relaxed domain whatever the mode. *)
Theorem switchback_restores_domain
    (env : cobalt_env) (w : world) (t : xnthread) (r sysflags : Z)
    (tr : list event) :
  current_thread w = Some t ->
  has sysflags __xn_exec_switchback = true ->
  (head_interposes w = false ->
   (root_p w = true -> harden_status env (status_written r w) = 0) ->
   exists s',
     head_done env true r sysflags true (mk_kstate w tr) = (Return KEVENT_STOP, s')
     /\ root_p (st_world s') = false)
  /\ (forall thread,
      root_interposes w = false ->
      exists s',
        root_done thread r sysflags true (mk_kstate w tr) = (Return KEVENT_STOP, s')
        /\ root_p (st_world s') = true)
  /\ (forall mode switched thread,
      cancel_pending w = false ->
      (head_interposes w = true ->
       exists s',
         head_done env true r mode switched (mk_kstate w tr)
         = (Return KEVENT_STOP, s')
         /\ root_p (st_world s') = true)
      /\ (root_interposes w = true ->
          exists s',
            root_done thread r mode switched (mk_kstate w tr)
            = (Return KEVENT_STOP, s')
            /\ root_p (st_world s') = true)).
Proof.
  intros Ht Hsb. split; [|split].
  - intros Hi Hh.
    destruct (head_done_switchback env w t r sysflags tr Ht Hsb Hi Hh)
      as (s' & Hrun & Hroot & _).
    exists s'. split; assumption.
  - intros thread Hi.
    apply (root_done_switchback w t thread r sysflags tr Ht Hsb).
    rewrite Hi. discriminate.
  - intros mode switched thread Hc. split; intro Hi.
    + destruct (head_done_interposed_relaxed env w t r mode switched tr Ht Hi Hc)
        as (s' & Hrun & Hroot & _).
      exists s'. split; assumption.
    + exact (root_done_interposed_relaxed w t thread r mode switched tr Ht Hi Hc).
Qed.

(** C1 as stated fails in the control-domain dispatcher: a thread in
    primary mode with a signal pending issues a call of mode
    [__xn_exec_downup]; it is relaxed, the handler runs, no interposition
    takes place as the thread is in the root domain, the switch back is
    attempted and refused, and the call completes with the thread
    relaxed. *)
Lemma switchback_harden_may_fail :
  (exists s',
      handle_head_syscall (sample_env __xn_exec_downup (answer 0)) 2
        xnsched_realtime_domain (start (caller (Some plain_thread) 40 false true))
      = (Return KEVENT_STOP, s')
      /\ st_trace s'
         = [EvRelax true SIGDEBUG_MIGRATE_SYSCALL; EvHandler 40 false;
            EvStatusReturn 0; EvHarden (- ERESTARTSYS)]
      /\ root_p (st_world s') = true)
  /\ ~ (forall (env : cobalt_env) (w : world) (t : xnthread)
               (r sysflags : Z) (s' : kstate),
          current_thread w = Some t ->
          has sysflags __xn_exec_switchback = true ->
          head_interposes w = false ->
          head_done env true r sysflags true (start w) = (Return KEVENT_STOP, s') ->
          root_p (st_world s') = false).
Proof.
  split.
  - eexists. split; [vm_compute; reflexivity|]. split; reflexivity.
  - intro H.
    specialize (H (sample_env __xn_exec_downup (answer 0))
                  (caller (Some plain_thread) 40 true true) plain_thread
                  0 __xn_exec_downup _ eq_refl eq_refl eq_refl eq_refl).
    discriminate H.
Qed.

(** ** Weak threads holding no resource *)

(** C9 as stated fails: a weak thread holding no resource, in primary
    mode after the handler, no signal and no cancellation pending,
    [switched] set.  The control-domain dispatcher clears [switched] and
    leaves the thread in the control domain; the relaxed-domain dispatcher
    relaxes it.  Such a state is reached by a call of mode
    [__xn_exec_lostage] whose handler hardens the thread. *)
Lemma weak_paths_differ :
  (exists s1 s2,
      head_done (sample_env __xn_exec_lostage (answer 0)) true 0
        __xn_exec_lostage true (start (caller (Some weak_thread) 40 false false))
      = (Return KEVENT_STOP, s1)
      /\ root_done true 0 __xn_exec_lostage true
           (start (caller (Some weak_thread) 40 false false))
         = (Return KEVENT_STOP, s2)
      /\ root_p (st_world s1) = false
      /\ root_p (st_world s2) = true)
  /\ (exists s1 s2,
      handle_head_syscall (sample_env __xn_exec_lostage (hardening 0)) 2
        xnsched_realtime_domain (start (caller (Some weak_thread) 40 false false))
      = (Return KEVENT_STOP, s1)
      /\ handle_root_syscall (sample_env __xn_exec_lostage (hardening 0)) 2
           ipipe_root_domain (start (caller (Some weak_thread) 40 true false))
         = (Return KEVENT_STOP, s2)
      /\ root_p (st_world s1) = false
      /\ root_p (st_world s2) = true)
  /\ ~ (forall (env : cobalt_env) (w : world) (t : xnthread)
               (r sysflags : Z) (switched thread : bool) (s1 s2 : kstate),
          current_thread w = Some t ->
          weak_idle w = true ->
          sigpending w = false ->
          cancel_pending w = false ->
          head_done env true r sysflags switched (start w) = (Return KEVENT_STOP, s1) ->
          root_done thread r sysflags switched (start w) = (Return KEVENT_STOP, s2) ->
          root_p (st_world s1) = root_p (st_world s2)
          /\ xn_reg_rval (regs (st_world s1)) = xn_reg_rval (regs (st_world s2))).
Proof.
  split; [|split].
  - eexists. eexists. split; [vm_compute; reflexivity|].
    split; [vm_compute; reflexivity|]. split; reflexivity.
  - eexists. eexists. split; [vm_compute; reflexivity|].
    split; [vm_compute; reflexivity|]. split; reflexivity.
  - intro H.
    specialize (H (sample_env __xn_exec_lostage (answer 0))
                  (caller (Some weak_thread) 40 false false) weak_thread
                  0 __xn_exec_lostage true true _ _
                  eq_refl eq_refl eq_refl eq_refl eq_refl eq_refl).
    destruct H as [H _]. discriminate H.
Qed.

(** C9, as the code has it: for a weak thread holding no resource, with
    no signal and no cancellation pending after the handler, the two
    dispatchers complete with the same status, the handler's; the
    relaxed-domain dispatcher always leaves the thread relaxed; the
    control-domain dispatcher leaves it relaxed when [switched] is clear,
    but when [switched] is set and the thread, not kicked, is in primary
    mode, it clears the flag and leaves the thread in the control
    domain. *)
Theorem weak_idle_paths
    (env : cobalt_env) (w : world) (t : xnthread) (r sysflags : Z)
    (switched thread : bool) (tr : list event) :
  current_thread w = Some t ->
  weak_idle w = true ->
  sigpending w = false ->
  cancel_pending w = false ->
  exists s1 s2,
    head_done env true r sysflags switched (mk_kstate w tr) = (Return KEVENT_STOP, s1)
    /\ root_done thread r sysflags switched (mk_kstate w tr) = (Return KEVENT_STOP, s2)
    /\ xn_reg_rval (regs (st_world s1)) = r
    /\ xn_reg_rval (regs (st_world s2)) = r
    /\ root_p (st_world s2) = true
    /\ (switched = false -> root_p (st_world s1) = true)
    /\ (switched = true -> root_p w = false -> kicked w = false ->
        root_p (st_world s1) = false).
Proof.
  destruct w as [[p nr args rv] th cp mp rp sp cap].
  destruct t as [i st rc xsc].
  unfold weak_idle, cancel_pending, kicked.
  cbn [current_thread sigpending root_p].
  intros Ht Hw Hs Hc. subst th sp. cbn [info state res_count] in *.
  apply andb_true_iff in Hw. destruct Hw as [Hweak Hrc].
  unfold head_done, root_done, prepare_for_signal.
  destruct rp.
  - (* the thread is in the root domain: no test of the thread *)
    destruct switched.
    + destruct (has sysflags __xn_exec_switchback) eqn:Hsb; krun.
      * destruct (harden_status env _ =? 0); krun;
          destruct thread; krun;
          eexists; eexists; (split; [reflexivity|]); (split; [reflexivity|]);
          repeat split; intros; discriminate.
      * destruct thread; krun;
          eexists; eexists; (split; [reflexivity|]); (split; [reflexivity|]);
          repeat split; intros; discriminate.
    + krun. destruct (has sysflags __xn_exec_switchback) eqn:Hsb; krun;
        destruct thread; krun;
        eexists; eexists; (split; [reflexivity|]); (split; [reflexivity|]);
        repeat split; intros; discriminate.
  - destruct switched; destruct (has i XNKICKED) eqn:Hk; krun;
      rewrite ?clear_kicked_canceld, ?Hc; krun;
      rewrite ?has_lor;
      change (has __xn_exec_switchback __xn_exec_switchback) with true;
      rewrite ?orb_true_r, ?andb_false_r; krun;
      eexists; eexists; (split; [reflexivity|]); (split; [reflexivity|]);
      repeat split; intros; discriminate.
Qed.

(** ** The restart loop *)

(** A pass with [__xn_exec_adaptive] clear is the last one. *)
Lemma head_restart_last
    (env : cobalt_env) (n : nat) (ipd : ipipe_domain) (nr : Z)
    (h : cobalt_syshand) (sysflags : Z) (switched : bool)
    (w : world) (tr : list event) :
  has sysflags __xn_exec_adaptive = false ->
  exists out s' evs,
    head_restart env (S n) ipd nr h sysflags switched (mk_kstate w tr) = (out, s')
    /\ st_trace s' = tr ++ evs
    /\ out <> OutOfFuel
    /\ (handler_calls evs = []
        \/ exists r sw,
            out = Next (r, sysflags, sw)
            /\ handler_calls evs = [EvHandler nr (head_pass_primary sysflags w)]
            /\ (has sysflags __xn_exec_lostage = true -> is_realtime ipd = true)).
Proof.
  intro Ha. cbn [head_restart]. unfold head_pass_primary.
  destruct (has sysflags __xn_exec_lostage) eqn:Hlo.
  - destruct ipd; krun.
    + khandler. krun. rewrite andb_false_r.
      eexists. eexists. eexists. split; [reflexivity|]. cbn [st_trace].
      rewrite <- !app_assoc. split; [reflexivity|]. split; [discriminate|].
      right. eexists. eexists. split; [reflexivity|]. split; [reflexivity|reflexivity].
    + eexists. eexists. exists []. split; [reflexivity|]. cbn [st_trace].
      rewrite app_nil_r. split; [reflexivity|]. split; [discriminate|].
      left. reflexivity.
  - destruct (has sysflags (Z.lor __xn_exec_histage __xn_exec_current)) eqn:Hhc;
      destruct ipd; krun;
      try (khandler; krun; rewrite andb_false_r;
           eexists; eexists; eexists; (split; [reflexivity|]); cbn [st_trace];
           rewrite <- ?app_assoc; (split; [reflexivity|]);
           (split; [discriminate|]);
           right; eexists; eexists; (split; [reflexivity|]); split; [reflexivity|discriminate]).
    eexists. eexists. exists []. split; [reflexivity|]. cbn [st_trace].
    rewrite app_nil_r. split; [reflexivity|]. split; [discriminate|].
    left. reflexivity.
Qed.

Lemma root_restart_last
    (env : cobalt_env) (n : nat) (thread : bool) (nr : Z)
    (h : cobalt_syshand) (sysflags : Z)
    (w : world) (tr : list event) :
  has sysflags __xn_exec_adaptive = false ->
  exists out s' evs,
    root_restart env (S n) thread nr h sysflags (mk_kstate w tr) = (out, s')
    /\ st_trace s' = tr ++ evs
    /\ out <> OutOfFuel
    /\ (handler_calls evs = []
        \/ exists r sw,
            out = Next (r, sysflags, sw)
            /\ handler_calls evs = [EvHandler nr (root_pass_primary sysflags w)]).
Proof.
  intro Ha. cbn [root_restart]. unfold root_pass_primary.
  destruct (has sysflags __xn_exec_histage) eqn:Hhi; krun.
  - destruct (harden_status env w =? 0) eqn:Hh; krun.
    + khandler. krun. rewrite andb_false_r.
      eexists. eexists. eexists. split; [reflexivity|]. cbn [st_trace].
      rewrite <- !app_assoc. split; [reflexivity|]. split; [discriminate|].
      right. eexists. eexists. split; reflexivity.
    + destruct thread; krun.
      * destruct (current_thread w) as [t|]; krun;
          eexists; eexists; eexists; (split; [reflexivity|]); cbn [st_trace];
          rewrite <- ?app_assoc; (split; [reflexivity|]);
          (split; [discriminate|]); left; reflexivity.
      * eexists; eexists; eexists; (split; [reflexivity|]); cbn [st_trace];
          rewrite <- ?app_assoc; (split; [reflexivity|]);
          (split; [discriminate|]); left; reflexivity.
  - khandler. krun. rewrite andb_false_r.
    eexists. eexists. eexists. split; [reflexivity|]. cbn [st_trace].
    rewrite <- ?app_assoc. split; [reflexivity|]. split; [discriminate|].
    right. eexists. eexists. split; reflexivity.
Qed.

Lemma retry_bounded_no_call (fuel : nat) (nr sysflags : Z) (tr pre : list event)
    (coherent : Prop) (out : outcome (Z * Z * bool)) (s' : kstate) :
  st_trace s' = tr ++ pre ->
  handler_calls pre = [] ->
  (out <> OutOfFuel \/ (fuel < 2)%nat) ->
  retry_bounded fuel nr sysflags tr coherent (out, s').
Proof.
  intros Htr Hc Hout. exists pre. cbn [fst snd]. rewrite Hc.
  split; [exact Htr|]. split; [cbn; lia|]. split.
  - intros Hf. destruct Hout as [H|H]; [exact H|lia].
  - intros _ e1 e2 rest H. discriminate H.
Qed.

Lemma retry_bounded_one_call (fuel : nat) (nr sysflags : Z) (tr pre : list event)
    (coherent : Prop) (out : outcome (Z * Z * bool)) (s' : kstate) (e : event) :
  st_trace s' = tr ++ pre ->
  handler_calls pre = [e] ->
  (out <> OutOfFuel \/ (fuel < 2)%nat) ->
  retry_bounded fuel nr sysflags tr coherent (out, s').
Proof.
  intros Htr Hc Hout. exists pre. cbn [fst snd]. rewrite Hc.
  split; [exact Htr|]. split; [cbn; lia|]. split.
  - intros Hf. destruct Hout as [H|H]; [exact H|lia].
  - intros _ e1 e2 rest H. discriminate H.
Qed.

Lemma retry_bounded_two_calls (fuel : nat) (nr sysflags : Z) (tr pre : list event)
    (coherent : Prop) (r : Z) (sw : bool) (s' : kstate) (p1 p2 : bool) :
  st_trace s' = tr ++ pre ->
  handler_calls pre = [EvHandler nr p1; EvHandler nr p2] ->
  has sysflags __xn_exec_adaptive = true ->
  (coherent -> p2 = negb p1) ->
  retry_bounded fuel nr sysflags tr coherent
    (Next (r, flip_adaptive sysflags, sw), s').
Proof.
  intros Htr Hc Ha Hp. exists pre. cbn [fst snd]. rewrite Hc.
  split; [exact Htr|]. split; [cbn; lia|]. split; [discriminate|].
  intros Hcoh e1 e2 rest H. injection H as <- <- <-.
  split; [exact Ha|]. exists p1, r, sw. rewrite (Hp Hcoh). repeat split.
Qed.

(** Glueing the events of the first pass to those of the last one. *)
Lemma trace_glue (tr pre evs : list event) (s' : kstate) :
  st_trace s' = (tr ++ pre) ++ evs -> st_trace s' = tr ++ (pre ++ evs).
Proof. intro H. rewrite H. symmetry. apply app_assoc. Qed.

Lemma head_restart_bounded
    (env : cobalt_env) (fuel : nat) (ipd : ipipe_domain) (nr : Z)
    (h : cobalt_syshand) (sysflags : Z) (w : world) (tr : list event) :
  retry_bounded fuel nr sysflags tr
    (is_realtime ipd = true -> root_p w = false)
    (head_restart env fuel ipd nr h sysflags false (mk_kstate w tr)).
Proof.
  destruct fuel as [|n].
  { cbn [head_restart]. apply (retry_bounded_no_call _ _ _ _ []).
    - cbn. symmetry. apply app_nil_r.
    - reflexivity.
    - right. lia. }
  destruct (has sysflags __xn_exec_adaptive) eqn:Ha.
  2:{ destruct (head_restart_last env n ipd nr h sysflags false w tr Ha)
        as (out & s' & evs & Hrun & Htr & Hout & [Hc | (r & sw & _ & Hc & _)]);
        rewrite Hrun.
      - apply (retry_bounded_no_call _ _ _ _ evs); auto.
      - apply (retry_bounded_one_call _ _ _ _ evs _ _ _ _ Htr Hc). left. exact Hout. }
  assert (Hfa : has (flip_adaptive sysflags) __xn_exec_adaptive = false)
    by (rewrite flip_adaptive_adaptive, Ha; reflexivity).
  cbn [head_restart].
  destruct (has sysflags __xn_exec_lostage) eqn:Hlo.
  - destruct ipd; krun.
    2:{ apply (retry_bounded_no_call _ _ _ _ []);
          [cbn; symmetry; apply app_nil_r|reflexivity|left; discriminate]. }
    khandler. krun. destruct (r =? - ENOSYS) eqn:Hr; krun.
    2:{ eapply (retry_bounded_one_call _ _ _ _ [_; _]);
          [cbn [st_trace]; rewrite <- !app_assoc; reflexivity
          |reflexivity|left; discriminate]. }
    destruct (harden_status env w1 =? 0) eqn:Hh; krun.
    2:{ eapply (retry_bounded_one_call _ _ _ _ [_; _; _]);
          [cbn [st_trace]; rewrite <- !app_assoc; reflexivity
          |reflexivity|left; discriminate]. }
    destruct n as [|m].
    { cbn [head_restart]. unfold out_of_fuel.
      eapply (retry_bounded_one_call _ _ _ _ [_; _; _]);
        [cbn [st_trace]; rewrite <- !app_assoc; reflexivity
        |reflexivity|right; lia]. }
    match goal with
    | |- context [head_restart env (S m) ?i ?n ?hh ?f ?sw (mk_kstate ?w2 ?t2)] =>
        destruct (head_restart_last env m i n hh f sw w2 t2 Hfa)
          as (out & s' & evs & Hrun & Htr & Hout
              & [Hc | (r2 & sw2 & Hnext & Hc & Hreal)]);
        rewrite Hrun
    end.
    + rewrite <- !app_assoc in Htr.
      eapply (retry_bounded_one_call _ _ _ _ _ _ _ _ _ Htr);
        [|left; exact Hout].
      cbn [app handler_calls filter is_handler]. fold (handler_calls evs).
      rewrite Hc. reflexivity.
    + subst out. rewrite <- !app_assoc in Htr.
      eapply (retry_bounded_two_calls _ _ _ _ _ _ _ _ _ _ _ Htr); [|exact Ha|].
      * cbn [app handler_calls filter is_handler]. fold (handler_calls evs).
        rewrite Hc. reflexivity.
      * intros _. unfold head_pass_primary.
        rewrite flip_adaptive_lostage, Hlo. reflexivity.
  - assert (Hpass :
      retry_bounded (S n) nr sysflags tr
        (is_realtime ipd = true -> root_p w = false)
        ((r <- invoke nr h ;;
          if (r =? - ENOSYS) && has sysflags __xn_exec_adaptive
          then head_restart env n ipd nr h (flip_adaptive sysflags) false
          else ret (r, sysflags, false))%kmonad (mk_kstate w tr))).
    { krun. khandler. krun. destruct (r =? - ENOSYS) eqn:Hr; krun.
      2:{ eapply (retry_bounded_one_call _ _ _ _ [_]);
            [reflexivity|reflexivity|left; discriminate]. }
      destruct n as [|m].
      { cbn [head_restart]. unfold out_of_fuel.
        eapply (retry_bounded_one_call _ _ _ _ [_]);
          [reflexivity|reflexivity|right; lia]. }
      match goal with
      | |- context [head_restart env (S m) ?i ?n ?hh ?f ?sw (mk_kstate ?w2 ?t2)] =>
          destruct (head_restart_last env m i n hh f sw w2 t2 Hfa)
            as (out & s' & evs & Hrun & Htr & Hout
                & [Hc | (r2 & sw2 & Hnext & Hc & Hreal)]);
          rewrite Hrun
      end.
      + rewrite <- !app_assoc in Htr.
        eapply (retry_bounded_one_call _ _ _ _ _ _ _ _ _ Htr);
          [|left; exact Hout].
        cbn [app handler_calls filter is_handler]. fold (handler_calls evs).
        rewrite Hc. reflexivity.
      + subst out. rewrite <- !app_assoc in Htr.
        eapply (retry_bounded_two_calls _ _ _ _ _ _ _ _ _ _ _ Htr); [|exact Ha|].
        * cbn [app handler_calls filter is_handler]. fold (handler_calls evs).
          rewrite Hc. reflexivity.
        * intros Hcoh. unfold head_pass_primary.
          rewrite flip_adaptive_lostage, Hlo. cbn [negb].
          rewrite flip_adaptive_lostage, Hlo in Hreal.
          rewrite (Hcoh (Hreal eq_refl)). reflexivity. }
    destruct (has sysflags (Z.lor __xn_exec_histage __xn_exec_current)) eqn:Hhc;
      destruct ipd; cbn [is_realtime negb]; try exact Hpass.
    kstep.
    apply (retry_bounded_no_call _ _ _ _ []);
      [cbn; symmetry; apply app_nil_r|reflexivity|left; discriminate].
Qed.

Lemma root_restart_bounded
    (env : cobalt_env) (fuel : nat) (thread : bool) (nr : Z)
    (h : cobalt_syshand) (sysflags : Z) (w : world) (tr : list event) :
  retry_bounded fuel nr sysflags tr (root_p w = true)
    (root_restart env fuel thread nr h sysflags (mk_kstate w tr)).
Proof.
  destruct fuel as [|n].
  { cbn [root_restart]. apply (retry_bounded_no_call _ _ _ _ []).
    - cbn. symmetry. apply app_nil_r.
    - reflexivity.
    - right. lia. }
  destruct (has sysflags __xn_exec_adaptive) eqn:Ha.
  2:{ destruct (root_restart_last env n thread nr h sysflags w tr Ha)
        as (out & s' & evs & Hrun & Htr & Hout & [Hc | (r & sw & _ & Hc)]);
        rewrite Hrun.
      - apply (retry_bounded_no_call _ _ _ _ evs); auto.
      - apply (retry_bounded_one_call _ _ _ _ evs _ _ _ _ Htr Hc). left. exact Hout. }
  assert (Hfa : has (flip_adaptive sysflags) __xn_exec_adaptive = false)
    by (rewrite flip_adaptive_adaptive, Ha; reflexivity).
  cbn [root_restart].
  destruct (has sysflags __xn_exec_histage) eqn:Hhi.
  - krun. destruct (harden_status env w =? 0) eqn:Hh; krun.
    2:{ destruct thread; krun;
          [destruct (current_thread w) as [t|]; krun|];
          eapply (retry_bounded_no_call _ _ _ _ [_; _]);
          try (cbn [st_trace]; rewrite <- !app_assoc; reflexivity);
          try reflexivity; left; discriminate. }
    khandler. krun. destruct (r =? - ENOSYS) eqn:Hr; krun.
    2:{ eapply (retry_bounded_one_call _ _ _ _ [_; _]);
          [cbn [st_trace]; rewrite <- !app_assoc; reflexivity
          |reflexivity|left; discriminate]. }
    destruct n as [|m].
    { cbn [root_restart]. unfold out_of_fuel.
      eapply (retry_bounded_one_call _ _ _ _ [_; _; _]);
        [cbn [st_trace]; rewrite <- !app_assoc; reflexivity
        |reflexivity|right; lia]. }
    match goal with
    | |- context [root_restart env (S m) ?th ?n ?hh ?f (mk_kstate ?w2 ?t2)] =>
        destruct (root_restart_last env m th n hh f w2 t2 Hfa)
          as (out & s' & evs & Hrun & Htr & Hout
              & [Hc | (r2 & sw2 & Hnext & Hc)]);
        rewrite Hrun
    end.
    + rewrite <- !app_assoc in Htr.
      eapply (retry_bounded_one_call _ _ _ _ _ _ _ _ _ Htr);
        [|left; exact Hout].
      cbn [app handler_calls filter is_handler]. fold (handler_calls evs).
      rewrite Hc. reflexivity.
    + subst out. rewrite <- !app_assoc in Htr.
      eapply (retry_bounded_two_calls _ _ _ _ _ _ _ _ _ _ _ Htr); [|exact Ha|].
      * cbn [app handler_calls filter is_handler]. fold (handler_calls evs).
        rewrite Hc. reflexivity.
      * intros _. unfold root_pass_primary.
        rewrite flip_adaptive_histage, Hhi. reflexivity.
  - krun. khandler. krun. destruct (r =? - ENOSYS) eqn:Hr; krun.
    2:{ eapply (retry_bounded_one_call _ _ _ _ [_]);
          [reflexivity|reflexivity|left; discriminate]. }
    destruct n as [|m].
    { cbn [root_restart]. unfold out_of_fuel.
      eapply (retry_bounded_one_call _ _ _ _ [_]);
        [reflexivity|reflexivity|right; lia]. }
    match goal with
    | |- context [root_restart env (S m) ?th ?n ?hh ?f (mk_kstate ?w2 ?t2)] =>
        destruct (root_restart_last env m th n hh f w2 t2 Hfa)
          as (out & s' & evs & Hrun & Htr & Hout
              & [Hc | (r2 & sw2 & Hnext & Hc)]);
        rewrite Hrun
    end.
    + rewrite <- !app_assoc in Htr.
      eapply (retry_bounded_one_call _ _ _ _ _ _ _ _ _ Htr);
        [|left; exact Hout].
      cbn [app handler_calls filter is_handler]. fold (handler_calls evs).
      rewrite Hc. reflexivity.
    + subst out. rewrite <- !app_assoc in Htr.
      eapply (retry_bounded_two_calls _ _ _ _ _ _ _ _ _ _ _ Htr); [|exact Ha|].
      * cbn [app handler_calls filter is_handler]. fold (handler_calls evs).
        rewrite Hc. reflexivity.
      * intros Hcoh. unfold root_pass_primary.
        rewrite flip_adaptive_histage, Hhi. cbn [negb].
        rewrite Hcoh. reflexivity.
Qed.

(** ** Counting events over a whole dispatcher *)

Lemma emits_pure {A} (sel : event -> bool) (c : Prop) (o : outcome A) :
  o <> OutOfFuel -> emits_at_most sel c 0 (fun s => (o, s)).
Proof.
  intros Ho s. exists []. cbn. rewrite app_nil_r.
  split; [reflexivity|]. split; [lia|]. intros _. exact Ho.
Qed.

Lemma emits_ret {A} (sel : event -> bool) (c : Prop) (a : A) :
  emits_at_most sel c 0 (ret a).
Proof. apply emits_pure. discriminate. Qed.

Lemma emits_return {A} (sel : event -> bool) (c : Prop) (k : Z) :
  emits_at_most sel c 0 (@return_ A k).
Proof. apply emits_pure. discriminate. Qed.

Lemma emits_cancel {A} (sel : event -> bool) (c : Prop) :
  emits_at_most sel c 0 (@cancel A).
Proof. apply emits_pure. discriminate. Qed.

Lemma emits_oops {A} (sel : event -> bool) (c : Prop) :
  emits_at_most sel c 0 (@oops A).
Proof. apply emits_pure. discriminate. Qed.

Lemma emits_get_world (sel : event -> bool) (c : Prop) :
  emits_at_most sel c 0 get_world.
Proof.
  intros s. exists []. cbn. rewrite app_nil_r.
  split; [reflexivity|]. split; [lia|]. discriminate.
Qed.

Lemma emits_put_world (sel : event -> bool) (c : Prop) (w : world) :
  emits_at_most sel c 0 (put_world w).
Proof.
  intros s. exists []. cbn. rewrite app_nil_r.
  split; [reflexivity|]. split; [lia|]. discriminate.
Qed.

Lemma emits_emit (sel : event -> bool) (c : Prop) (e : event) :
  sel e = false -> emits_at_most sel c 0 (emit e).
Proof.
  intros He s. exists [e]. cbn. rewrite He.
  split; [reflexivity|]. split; [cbn; lia|]. discriminate.
Qed.

Lemma emits_emit_one (sel : event -> bool) (c : Prop) (e : event) :
  emits_at_most sel c 1 (emit e).
Proof.
  intros s. exists [e]. cbn.
  split; [reflexivity|]. split; [destruct (sel e); cbn; lia|]. discriminate.
Qed.

Lemma emits_bind {A B} (sel : event -> bool) (c : Prop) (k1 k2 : nat)
    (m : M A) (f : A -> M B) :
  emits_at_most sel c k1 m ->
  (forall a, emits_at_most sel c k2 (f a)) ->
  emits_at_most sel c (k1 + k2) (bind m f).
Proof.
  intros Hm Hf s. unfold bind.
  destruct (Hm s) as (evs1 & Htr1 & Hlen1 & Hcut1).
  destruct (m s) as [[a|k| | |] s1]; cbn [fst snd] in *;
    try (exists evs1; split; [exact Htr1|]; split; [lia|];
         first [ intros _; discriminate
               | intros Hc; exfalso; apply (Hcut1 Hc); reflexivity ]).
  destruct (Hf a s1) as (evs2 & Htr2 & Hlen2 & Hcut2).
  exists (evs1 ++ evs2). rewrite Htr2, Htr1, app_assoc.
  split; [reflexivity|]. split; [|exact Hcut2].
  rewrite filter_app, length_app. lia.
Qed.

Lemma emits_quiet_bind {A B} (sel : event -> bool) (c : Prop)
    (m : M A) (f : A -> M B) :
  emits_at_most sel c 0 m ->
  (forall a, emits_at_most sel c 0 (f a)) ->
  emits_at_most sel c 0 (bind m f).
Proof. intros Hm Hf. exact (emits_bind sel c 0 0 m f Hm Hf). Qed.

Lemma emits_weaken {A} (sel : event -> bool) (c : Prop) (k k' : nat) (m : M A) :
  (k <= k')%nat -> emits_at_most sel c k m -> emits_at_most sel c k' m.
Proof.
  intros Hk Hm s. destruct (Hm s) as (evs & Htr & Hlen & Hcut).
  exists evs. split; [exact Htr|]. split; [lia|exact Hcut].
Qed.

(** Discharges [emits_at_most _ _ 0] for code made of primitives that
    emit no selected event. *)
Ltac kquiet :=
  repeat first
    [ apply emits_ret | apply emits_return | apply emits_cancel
    | apply emits_oops | apply emits_get_world | apply emits_put_world
    | apply emits_emit; solve [reflexivity | auto]
    | apply emits_quiet_bind; [|intro]
    | match goal with
      | |- emits_at_most _ _ _ (if ?b then _ else _) => destruct b
      | |- emits_at_most _ _ _ (match ?x with _ => _ end) => destruct x
      | |- emits_at_most _ _ _ (let _ := _ in _) => cbv zeta
      end ].

(** Code that enters no handler and clears no info bit is quiet for any
    selection of those two kinds of events. *)
Section Quiet.

Variable sel : event -> bool.
Variable c : Prop.
Hypothesis sel_relax : forall n r, sel (EvRelax n r) = false.
Hypothesis sel_harden : forall r, sel (EvHarden r) = false.
Hypothesis sel_error : forall v, sel (EvErrorReturn v) = false.
Hypothesis sel_status : forall v, sel (EvStatusReturn v) = false.
Hypothesis sel_cancel : sel EvTestCancel = false.

Lemma xnthread_relax_quiet (notify : bool) (reason : Z) :
  emits_at_most sel c 0 (xnthread_relax notify reason).
Proof. unfold xnthread_relax. kquiet. Qed.

Lemma xnthread_harden_quiet (env : cobalt_env) :
  emits_at_most sel c 0 (xnthread_harden env).
Proof. unfold xnthread_harden. kquiet. Qed.

Lemma xn_error_return_quiet (v : Z) :
  emits_at_most sel c 0 (__xn_error_return v).
Proof. unfold __xn_error_return. kquiet. Qed.

Lemma xn_status_return_quiet (v : Z) :
  emits_at_most sel c 0 (__xn_status_return v).
Proof. unfold __xn_status_return. kquiet. Qed.

Lemma xnthread_test_cancel_quiet :
  emits_at_most sel c 0 xnthread_test_cancel.
Proof. unfold xnthread_test_cancel. kquiet. Qed.

Lemma xnthread_test_info_quiet (thread : bool) (bits : Z) :
  emits_at_most sel c 0 (xnthread_test_info thread bits).
Proof. unfold xnthread_test_info, deref. kquiet. Qed.

Lemma xnthread_test_state_quiet (thread : bool) (bits : Z) :
  emits_at_most sel c 0 (xnthread_test_state thread bits).
Proof. unfold xnthread_test_state, deref. kquiet. Qed.

Lemma thread_res_count_quiet (thread : bool) :
  emits_at_most sel c 0 (thread_res_count thread).
Proof. unfold thread_res_count, deref. kquiet. Qed.

Lemma ret_handled_quiet {A} (thread : bool) :
  emits_at_most sel c 0 (@ret_handled A thread).
Proof.
  unfold ret_handled, xnstat_counter_inc_xsc, xnthread_sync_window, deref, store.
  kquiet.
Qed.

Lemma reads_quiet :
  emits_at_most sel c 0 xnsched_root_p
  /\ emits_at_most sel c 0 xnsched_primary_p
  /\ emits_at_most sel c 0 signal_pending
  /\ emits_at_most sel c 0 xnthread_current
  /\ emits_at_most sel c 0 lookup_process.
Proof.
  unfold xnsched_root_p, xnsched_primary_p, signal_pending, xnthread_current,
    lookup_process.
  repeat split; kquiet.
Qed.

(** The code after the restart loop emits what [prepare_for_signal]
    emits, and nothing else that is selected. *)
Lemma head_done_emits (env : cobalt_env) (k : nat)
    (thread : bool) (r sysflags : Z) (switched : bool) :
  (forall th f, emits_at_most sel c k (prepare_for_signal th f)) ->
  emits_at_most sel c k (head_done env thread r sysflags switched).
Proof.
  intro Hprep. destruct reads_quiet as (Hroot & _ & Hsig & _).
  unfold head_done.
  apply (emits_bind sel c 0 k); [apply xn_status_return_quiet|intros _].
  apply (emits_bind sel c 0 k); [exact Hroot|intros root].
  replace k with (k + 0)%nat by lia.
  apply (emits_bind sel c k 0).
  - destruct (negb root); [|apply (emits_weaken _ _ 0); [lia|kquiet]].
    apply (emits_bind sel c 0 k); [exact Hsig|intros sp].
    apply (emits_bind sel c 0 k);
      [destruct sp; [kquiet|apply xnthread_test_info_quiet]|intros interpose].
    destruct interpose.
    + replace k with (k + 0)%nat by lia.
      apply (emits_bind sel c k 0); [apply Hprep|intros _; kquiet].
    + apply (emits_weaken _ _ 0); [lia|].
      apply emits_quiet_bind; [apply xnthread_test_state_quiet|intros weak].
      apply emits_quiet_bind;
        [destruct weak;
           [apply emits_quiet_bind; [apply thread_res_count_quiet|intro; kquiet]
           |kquiet]
        |intros idle].
      destruct idle; [destruct switched|]; kquiet.
  - intros [sigs sw].
    apply emits_quiet_bind; [|intros _; apply ret_handled_quiet].
    destruct (negb sigs && has sysflags __xn_exec_switchback && sw); [|kquiet].
    apply emits_quiet_bind; [apply xnthread_harden_quiet|intro; kquiet].
Qed.

Lemma root_done_emits (k : nat)
    (thread : bool) (r sysflags : Z) (switched : bool) :
  (forall th f, emits_at_most sel c k (prepare_for_signal th f)) ->
  emits_at_most sel c k (root_done thread r sysflags switched).
Proof.
  intro Hprep. destruct reads_quiet as (Hroot & Hprim & Hsig & Hcur & _).
  unfold root_done.
  apply (emits_bind sel c 0 k); [apply xn_status_return_quiet|intros _].
  apply (emits_bind sel c 0 k); [exact Hroot|intros root].
  replace k with (k + 0)%nat by lia.
  apply (emits_bind sel c k 0).
  - destruct (negb root); [|apply (emits_weaken _ _ 0); [lia|kquiet]].
    apply (emits_bind sel c 0 k); [exact Hcur|intros th].
    apply (emits_bind sel c 0 k); [exact Hsig|intros sp].
    destruct sp.
    + replace k with (k + 0)%nat by lia.
      apply (emits_bind sel c k 0); [apply Hprep|intros _; kquiet].
    + apply (emits_weaken _ _ 0); [lia|].
      apply emits_quiet_bind; [apply xnthread_test_state_quiet|intros weak].
      apply emits_quiet_bind;
        [destruct weak;
           [apply emits_quiet_bind; [apply thread_res_count_quiet|intro; kquiet]
           |kquiet]
        |intros idle].
      destruct idle; kquiet.
  - intros [[sigs f] th].
    apply emits_quiet_bind; [exact Hprim|intros primary].
    apply emits_quiet_bind; [|intros _; apply ret_handled_quiet].
    destruct (negb sigs && has f __xn_exec_switchback && (switched || primary));
      [apply xnthread_relax_quiet|kquiet].
Qed.

(** Either dispatcher emits what its restart loop and
    [prepare_for_signal] emit, and nothing else that is selected. *)
Lemma handle_head_syscall_emits (env : cobalt_env) (fuel k1 k2 : nat)
    (ipd : ipipe_domain) :
  (forall nr h f,
      emits_at_most sel c k1 (head_restart env fuel ipd nr h f false)) ->
  (forall th f, emits_at_most sel c k2 (prepare_for_signal th f)) ->
  emits_at_most sel c (k1 + k2) (handle_head_syscall env fuel ipd).
Proof.
  intros Hloop Hprep. destruct reads_quiet as (Hroot & _ & _ & Hcur & Hproc).
  unfold handle_head_syscall.
  apply (emits_bind sel c 0 (k1 + k2)); [apply emits_get_world|intro w].
  destruct (negb (xn_syscall_p (regs w))).
  { apply (emits_weaken _ _ 0); [lia|]. unfold head_linux_syscall.
    apply emits_quiet_bind; [exact Hroot|intros root].
    destruct root; [kquiet|].
    apply emits_quiet_bind; [apply xnthread_relax_quiet|intro; kquiet]. }
  apply (emits_bind sel c 0 (k1 + k2)); [exact Hcur|intro thread].
  cbv zeta.
  destruct ((int_of_long (xn_syscall (regs w)) <? 0)
            || (int_of_long (xn_syscall (regs w)) >=? __NR_COBALT_SYSCALLS env)).
  { apply (emits_weaken _ _ 0); [lia|]. unfold head_bad_syscall.
    apply emits_quiet_bind; [apply xn_error_return_quiet|intro; kquiet]. }
  apply (emits_bind sel c 0 (k1 + k2)); [exact Hproc|intro process].
  destruct (syscall_denied env process thread (cap_sys_nice w) _ _).
  { apply (emits_weaken _ _ 0); [lia|].
    apply emits_quiet_bind; [apply xn_error_return_quiet|intros _].
    apply ret_handled_quiet. }
  unfold head_dispatch. cbv zeta.
  apply (emits_bind sel c k1 k2); [apply Hloop|intros [[r f] sw]].
  apply head_done_emits. exact Hprep.
Qed.

Lemma handle_root_syscall_emits (env : cobalt_env) (fuel k1 k2 : nat)
    (ipd : ipipe_domain) :
  (forall th nr h f,
      emits_at_most sel c k1 (root_restart env fuel th nr h f)) ->
  (forall th f, emits_at_most sel c k2 (prepare_for_signal th f)) ->
  emits_at_most sel c (k1 + k2) (handle_root_syscall env fuel ipd).
Proof.
  intros Hloop Hprep. destruct reads_quiet as (_ & _ & _ & Hcur & _).
  unfold handle_root_syscall.
  apply (emits_bind sel c 0 (k1 + k2)); [apply xnthread_test_cancel_quiet|intros _].
  apply (emits_bind sel c 0 (k1 + k2)); [apply emits_get_world|intro w].
  destruct (negb (xn_syscall_p (regs w))).
  { apply (emits_weaken _ _ 0); [lia|]. kquiet. }
  apply (emits_bind sel c 0 (k1 + k2)); [exact Hcur|intro thread].
  cbv zeta.
  apply (emits_bind sel c 0 (k1 + k2)); [unfold table_entry; kquiet|intros [h mode]].
  apply (emits_bind sel c k1 k2); [apply Hloop|intros [[r f] sw]].
  apply root_done_emits. exact Hprep.
Qed.

End Quiet.

(** *** Handler invocations *)

Lemma prepare_for_signal_calls (c : Prop) (thread : bool) (sysflags : Z) :
  emits_at_most is_handler c 0 (prepare_for_signal thread sysflags).
Proof.
  unfold prepare_for_signal, xnthread_test_info, xnthread_test_state,
    xnthread_clear_info, xnthread_test_cancel, xnthread_relax,
    __xn_error_return, signal_pending, deref, store.
  kquiet.
Qed.

Lemma head_restart_calls
    (env : cobalt_env) (fuel : nat) (ipd : ipipe_domain) (nr : Z)
    (h : cobalt_syshand) (sysflags : Z) :
  emits_at_most is_handler (2 <= fuel)%nat 2
    (head_restart env fuel ipd nr h sysflags false).
Proof.
  intros [w tr].
  destruct (head_restart_bounded env fuel ipd nr h sysflags w tr)
    as (evs & Htr & Hlen & Hcut & _).
  exists evs. split; [exact Htr|]. split; [exact Hlen|exact Hcut].
Qed.

Lemma root_restart_calls
    (env : cobalt_env) (fuel : nat) (thread : bool) (nr : Z)
    (h : cobalt_syshand) (sysflags : Z) :
  emits_at_most is_handler (2 <= fuel)%nat 2
    (root_restart env fuel thread nr h sysflags).
Proof.
  intros [w tr].
  destruct (root_restart_bounded env fuel thread nr h sysflags w tr)
    as (evs & Htr & Hlen & Hcut & _).
  exists evs. split; [exact Htr|]. split; [exact Hlen|exact Hcut].
Qed.

Lemma handle_head_syscall_calls
    (env : cobalt_env) (fuel : nat) (ipd : ipipe_domain) :
  calls_at_most (2 <= fuel)%nat 2 (handle_head_syscall env fuel ipd).
Proof.
  unfold calls_at_most.
  apply handle_head_syscall_emits with (k1 := 2%nat) (k2 := 0%nat);
    try (intros; reflexivity).
  - intros nr h f. apply head_restart_calls.
  - intros th f. apply prepare_for_signal_calls.
Qed.

Lemma handle_root_syscall_calls
    (env : cobalt_env) (fuel : nat) (ipd : ipipe_domain) :
  calls_at_most (2 <= fuel)%nat 2 (handle_root_syscall env fuel ipd).
Proof.
  unfold calls_at_most.
  apply handle_root_syscall_emits with (k1 := 2%nat) (k2 := 0%nat);
    try (intros; reflexivity).
  - intros th nr h f. apply root_restart_calls.
  - intros th f. apply prepare_for_signal_calls.
Qed.

(** *** Clears of XNKICKED *)

Lemma head_restart_clears
    (env : cobalt_env) (fuel : nat) (ipd : ipipe_domain) (nr : Z)
    (h : cobalt_syshand) (sysflags : Z) (switched : bool) :
  emits_at_most (is_clear_of XNKICKED) False 0
    (head_restart env fuel ipd nr h sysflags switched).
Proof.
  revert sysflags switched.
  induction fuel as [|fuel IH]; intros sysflags switched; cbn [head_restart].
  - intros s. exists []. cbn. rewrite app_nil_r.
    split; [reflexivity|]. split; [lia|]. intros [].
  - unfold invoke, xnthread_harden, xnthread_relax.
    repeat first [ apply IH | progress kquiet ].
Qed.

Lemma root_restart_clears
    (env : cobalt_env) (fuel : nat) (thread : bool) (nr : Z)
    (h : cobalt_syshand) (sysflags : Z) :
  emits_at_most (is_clear_of XNKICKED) False 0
    (root_restart env fuel thread nr h sysflags).
Proof.
  revert sysflags.
  induction fuel as [|fuel IH]; intros sysflags; cbn [root_restart].
  - intros s. exists []. cbn. rewrite app_nil_r.
    split; [reflexivity|]. split; [lia|]. intros [].
  - unfold invoke, xnthread_harden, xnthread_relax, __xn_error_return.
    repeat first [ apply IH | apply ret_handled_quiet | progress kquiet ].
Qed.

Lemma prepare_for_signal_clears (thread : bool) (sysflags : Z) :
  emits_at_most (is_clear_of XNKICKED) False 1
    (prepare_for_signal thread sysflags).
Proof.
  unfold prepare_for_signal.
  apply (emits_bind _ _ 0 1);
    [unfold xnthread_test_info, deref; kquiet|intros kicked].
  apply (emits_bind _ _ 1 0);
    [|intros notify; unfold xnthread_test_cancel, xnthread_relax; kquiet].
  destruct kicked; [|apply (emits_weaken _ _ 0); [lia|kquiet]].
  apply (emits_bind _ _ 0 1); [unfold signal_pending; kquiet|intros sp].
  apply (emits_bind _ _ 0 1).
  - destruct sp; [|kquiet].
    unfold __xn_error_return, xnthread_test_state, xnthread_clear_info,
      deref, store.
    kquiet.
  - intros notify.
    apply (emits_bind _ _ 1 0); [|intros _; kquiet].
    unfold xnthread_clear_info.
    apply (emits_bind _ _ 0 1); [unfold deref; kquiet|intros t].
    apply (emits_bind _ _ 1 0); [apply emits_emit_one|intros _].
    unfold store. kquiet.
Qed.

Lemma handle_head_syscall_clears
    (env : cobalt_env) (fuel : nat) (ipd : ipipe_domain) :
  clears_at_most 1 (handle_head_syscall env fuel ipd).
Proof.
  unfold clears_at_most.
  apply handle_head_syscall_emits with (k1 := 0%nat) (k2 := 1%nat);
    try (intros; reflexivity).
  - intros nr h f. apply head_restart_clears.
  - intros th f. apply prepare_for_signal_clears.
Qed.

Lemma handle_root_syscall_clears
    (env : cobalt_env) (fuel : nat) (ipd : ipipe_domain) :
  clears_at_most 1 (handle_root_syscall env fuel ipd).
Proof.
  unfold clears_at_most.
  apply handle_root_syscall_emits with (k1 := 0%nat) (k2 := 1%nat);
    try (intros; reflexivity).
  - intros th nr h f. apply root_restart_clears.
  - intros th f. apply prepare_for_signal_clears.
Qed.

(** C5: when interposition runs with XNKICKED set and a signal pending,
    the status of the call is overwritten with -ERESTARTSYS, or with
    -EINTR if the mode has [__xn_exec_norestart]; XNKICKED is cleared,
    by exactly one [xnthread_clear_info] in [prepare_for_signal] and in
    the whole of either dispatcher's way out, no call clearing it more
    than once; and, the thread not being cancelled, it is relaxed with
    cause SIGDEBUG_MIGRATE_SIGNAL, the notification being requested unless
    the thread is in XNDEBUG state. *)
Theorem kicked_signal_interposition
    (env : cobalt_env) (w : world) (t : xnthread) (sysflags : Z)
    (tr : list event) :
  current_thread w = Some t ->
  has (info t) XNKICKED = true ->
  sigpending w = true ->
  let status := interrupted_status sysflags in
  let notify := negb (has (state t) XNDEBUG) in
  let interposed (s' : kstate) :=
    xn_reg_rval (regs (st_world s')) = status
    /\ (exists t', current_thread (st_world s') = Some t'
                   /\ has (info t') XNKICKED = false)
    /\ kicked_clears (st_trace s') = (kicked_clears tr + 1)%nat in
  (exists out s',
      prepare_for_signal true sysflags (mk_kstate w tr) = (out, s')
      /\ interposed s'
      /\ (cancel_pending w = true -> out = Cancelled)
      /\ (cancel_pending w = false ->
          out = Next tt
          /\ root_p (st_world s') = true
          /\ st_trace s'
             = tr ++ [EvErrorReturn status; EvClearInfo XNBREAK;
                      EvClearInfo XNKICKED; EvTestCancel;
                      EvRelax notify SIGDEBUG_MIGRATE_SIGNAL]))
  /\ (root_p w = false -> cancel_pending w = false ->
      forall (r : Z) (switched thread : bool),
        (exists s',
            head_done env true r sysflags switched (mk_kstate w tr)
            = (Return KEVENT_STOP, s')
            /\ interposed s'
            /\ root_p (st_world s') = true
            /\ filter is_relax (st_trace s')
               = filter is_relax tr ++ [EvRelax notify SIGDEBUG_MIGRATE_SIGNAL])
        /\ (exists s',
            root_done thread r sysflags switched (mk_kstate w tr)
            = (Return KEVENT_STOP, s')
            /\ interposed s'
            /\ root_p (st_world s') = true
            /\ filter is_relax (st_trace s')
               = filter is_relax tr ++ [EvRelax notify SIGDEBUG_MIGRATE_SIGNAL]))
  /\ (forall (fuel : nat) (ipd : ipipe_domain),
        clears_at_most 1 (handle_head_syscall env fuel ipd)
        /\ clears_at_most 1 (handle_root_syscall env fuel ipd)).
Proof.
  intros Ht Hk Hs status notify interposed.
  assert (Hc : cancel_pending w = has (info t) XNCANCELD)
    by (unfold cancel_pending; rewrite Ht; reflexivity).
  split; [|split].
  - rewrite (prepare_for_signal_kicked w t sysflags tr Ht Hk Hs).
    fold status. fold notify. rewrite Hc.
    destruct (has (info t) XNCANCELD); eexists; eexists;
      (split; [reflexivity|]); (split; [|split]);
      try discriminate; try reflexivity.
    + unfold interposed. cbn [st_world st_trace]. split; [reflexivity|]. split.
      * eexists. split; [reflexivity|]. apply clear_kicked_kicked.
      * rewrite kicked_clears_app. reflexivity.
    + unfold interposed. cbn [st_world st_trace]. split; [reflexivity|]. split.
      * eexists. split; [reflexivity|]. apply clear_kicked_kicked.
      * rewrite kicked_clears_app. reflexivity.
    + intros _. repeat split.
  - intros Hroot Hnc r switched thread. rewrite Hc in Hnc.
    assert (Hi : sigpending w || has (info t) XNKICKED = true)
      by (rewrite Hs; reflexivity).
    rewrite (head_done_interposed env w t r sysflags switched tr Ht Hroot Hi).
    rewrite (root_done_interposed w t thread r sysflags switched tr Ht Hroot Hs).
    unfold bind.
    rewrite (prepare_for_signal_kicked _ t sysflags _);
      [|exact Ht|exact Hk|exact Hs].
    rewrite Hnc. fold status. fold notify.
    destruct w as [[p nr args rv] th cp mp rp sp cap].
    destruct t as [i st rc xsc].
    cbn [current_thread root_p sigpending info state] in *. subst th rp sp.
    kstep.
    assert (Hfin : forall s',
      s' = mk_kstate
             (mk_world (mk_pt_regs p nr args status)
                (Some (mk_xnthread
                         (Z.land (Z.land i (Z.lnot XNBREAK)) (Z.lnot XNKICKED))
                         st rc (xsc + 1)))
                cp mp true true cap)
             (tr ++ [EvStatusReturn r; EvErrorReturn status;
                     EvClearInfo XNBREAK; EvClearInfo XNKICKED; EvTestCancel;
                     EvRelax notify SIGDEBUG_MIGRATE_SIGNAL]) ->
      interposed s'
      /\ root_p (st_world s') = true
      /\ filter is_relax (st_trace s')
         = filter is_relax tr ++ [EvRelax notify SIGDEBUG_MIGRATE_SIGNAL]).
    { intros s' ->. unfold interposed. cbn [st_world st_trace regs xn_reg_rval
        current_thread root_p].
      split; [split; [reflexivity|split]|split].
      - eexists. split; [reflexivity|]. apply clear_kicked_kicked.
      - rewrite kicked_clears_app. reflexivity.
      - reflexivity.
      - rewrite filter_app. reflexivity. }
    split; (eexists; split; [reflexivity|]); apply Hfin;
      rewrite <- !app_assoc; reflexivity.
  - intros fuel ipd. split.
    + apply handle_head_syscall_clears.
    + apply handle_root_syscall_clears.
Qed.

(** C2: a restart loop enters the handler at most twice, and two units
    of fuel are enough for it never to be cut; when it enters it twice
    the mode had [__xn_exec_adaptive], the second entry is in the domain
    opposite to the first, and the loop ends with the flipped mode, in
    which [__xn_exec_adaptive] is clear and [__xn_exec_lostage] and
    [__xn_exec_histage] are complemented.  The bound holds for each
    dispatcher as a whole. *)
Theorem adaptive_retry_bounded
    (env : cobalt_env) (fuel : nat) (ipd : ipipe_domain) (thread : bool)
    (nr : Z) (h : cobalt_syshand) (sysflags : Z) (w : world)
    (tr : list event) :
  retry_bounded fuel nr sysflags tr
    (is_realtime ipd = true -> root_p w = false)
    (head_restart env fuel ipd nr h sysflags false (mk_kstate w tr))
  /\ retry_bounded fuel nr sysflags tr (root_p w = true)
       (root_restart env fuel thread nr h sysflags (mk_kstate w tr))
  /\ (has sysflags __xn_exec_adaptive = true ->
      has (flip_adaptive sysflags) __xn_exec_adaptive = false
      /\ has (flip_adaptive sysflags) __xn_exec_lostage
         = negb (has sysflags __xn_exec_lostage)
      /\ has (flip_adaptive sysflags) __xn_exec_histage
         = negb (has sysflags __xn_exec_histage))
  /\ calls_at_most (2 <= fuel)%nat 2 (handle_head_syscall env fuel ipd)
  /\ calls_at_most (2 <= fuel)%nat 2 (handle_root_syscall env fuel ipd).
Proof.
  split; [apply head_restart_bounded|].
  split; [apply root_restart_bounded|].
  split; [|split].
  - intro Ha. rewrite flip_adaptive_adaptive, Ha.
    split; [reflexivity|]. split.
    + apply flip_adaptive_lostage.
    + apply flip_adaptive_histage.
  - apply handle_head_syscall_calls.
  - apply handle_root_syscall_calls.
Qed.

(** ** The modes of the source table *)

Lemma designated_lookup (sc : string -> Z) (nr : Z)
    (entries : list (string * Z)) (d : Z) :
  let r := fold_left (fun acc e => if sc (fst e) =? nr then snd e else acc)
                     entries d in
  (r = d /\ forall e, In e entries -> sc (fst e) <> nr)
  \/ exists e, In e entries /\ sc (fst e) = nr /\ r = snd e.
Proof.
  revert d. induction entries as [|a entries IH]; intro d; cbn [fold_left].
  - left. split; [reflexivity|]. intros e [].
  - destruct (Z.eqb_spec (sc (fst a)) nr) as [Ha|Ha].
    + destruct (IH (snd a)) as [[Hr Hnone]|(e & Hin & Hsc & Hr)].
      * right. exists a. split; [left; reflexivity|]. split; assumption.
      * right. exists e. split; [right; exact Hin|]. split; assumption.
    + destruct (IH d) as [[Hr Hnone]|(e & Hin & Hsc & Hr)].
      * left. split; [exact Hr|]. intros e [<-|Hin]; [exact Ha|apply Hnone, Hin].
      * right. exists e. split; [right; exact Hin|]. split; assumption.
Qed.

(** Whatever the numbering, a slot of the table holds one of the nine
    modes the source writes. *)
Lemma cobalt_sysmodes_of_in (sc : string -> Z) (nr : Z) :
  In (cobalt_sysmodes_of sc nr) cobalt_table_modes.
Proof.
  unfold cobalt_sysmodes_of.
  destruct (designated_lookup sc nr cobalt_mode_entries 0)
    as [[Hr _]|(e & Hin & _ & Hr)]; rewrite Hr.
  - left. reflexivity.
  - assert (Hall : forallb (fun e => existsb (Z.eqb (snd e)) cobalt_table_modes)
                     cobalt_mode_entries = true) by (vm_compute; reflexivity).
    rewrite forallb_forall in Hall. specialize (Hall e Hin).
    apply existsb_exists in Hall. destruct Hall as (m & Hm & He).
    apply Z.eqb_eq in He. rewrite He. exact Hm.
Qed.

(** No call of the table asks for a switch back, and the only adaptive
    mode is the probing one. *)
Lemma cobalt_sysmodes_of_shape (sc : string -> Z) (nr : Z) :
  has (cobalt_sysmodes_of sc nr) __xn_exec_switchback = false
  /\ (has (cobalt_sysmodes_of sc nr) __xn_exec_adaptive = true ->
      cobalt_sysmodes_of sc nr = __xn_exec_probing).
Proof.
  pose proof (cobalt_sysmodes_of_in sc nr) as H.
  unfold cobalt_table_modes in H. cbn [In] in H.
  repeat (destruct H as [<-|H]); try contradiction;
    (split; [reflexivity|]); intro Ha; solve [reflexivity | discriminate Ha].
Qed.

(** The mode of the bind call is [__xn_exec_lostage], as soon as no
    other call of the table shares its number. *)
Lemma cobalt_sysmodes_of_bind (sc : string -> Z) :
  (forall e, In e cobalt_mode_entries ->
             sc (fst e) = sc "bind"%string -> fst e = "bind"%string) ->
  cobalt_sysmodes_of sc (sc "bind"%string) = __xn_exec_lostage.
Proof.
  intro Hinj. unfold cobalt_sysmodes_of.
  destruct (designated_lookup sc (sc "bind"%string) cobalt_mode_entries 0)
    as [[_ Hnone]|(e & Hin & Hsc & Hr)].
  - exfalso. apply (Hnone ("bind"%string, __xn_exec_lostage)); [|reflexivity].
    apply (nth_error_In _ 87). reflexivity.
  - rewrite Hr. specialize (Hinj e Hin Hsc).
    assert (Hall : forallb (fun e => negb (String.eqb (fst e) "bind")
                                     || (snd e =? __xn_exec_lostage))
                     cobalt_mode_entries = true) by (vm_compute; reflexivity).
    rewrite forallb_forall in Hall. specialize (Hall e Hin).
    rewrite Hinj, String.eqb_refl in Hall. cbn [negb orb] in Hall.
    apply Z.eqb_eq. exact Hall.
Qed.

(** ** The theorems at sample inputs *)

(** Call 300 issued from the root domain is answered -ENOSYS by the
    control-domain dispatcher. *)
Lemma out_of_range_witness :
  exists s',
    handle_head_syscall (sample_env __xn_exec_current (answer 0)) 2
      ipipe_root_domain (mk_kstate (caller None 300 true false) [])
    = (Return KEVENT_STOP, s')
    /\ xn_reg_rval (regs (st_world s')) = - ENOSYS.
Proof.
  assert (Hr : int_of_long (xn_syscall (regs (caller None 300 true false))) < 0
               \/ __NR_COBALT_SYSCALLS (sample_env __xn_exec_current (answer 0))
                  <= int_of_long (xn_syscall (regs (caller None 300 true false))))
    by (right; kdecide).
  destruct (out_of_range_not_implemented
              (sample_env __xn_exec_current (answer 0)) 2 ipipe_root_domain
              (caller None 300 true false) [] eq_refl Hr)
    as (s' & Hrun & _ & Hrv & _).
  exists s'. split; [exact Hrun|exact Hrv].
Defined.

(** The bind call of the source table goes through the gate for a caller
    with no binding and no privilege. *)
Lemma permission_gate_witness :
  handle_head_syscall position_env 2 ipipe_root_domain
    (mk_kstate (unbound_caller 87) [])
  = head_dispatch position_env 2 ipipe_root_domain false 87
      (answer 0) __xn_exec_lostage
      (mk_kstate (unbound_caller 87) []).
Proof.
  assert (Hr : 0 <= int_of_long (xn_syscall (regs (unbound_caller 87)))
               < __NR_COBALT_SYSCALLS position_env)
    by kdecide.
  destruct (permission_gate position_env 2 ipipe_root_domain
              (unbound_caller 87) [] eq_refl Hr)
    as (_ & _ & Hbind & _).
  exact (Hbind eq_refl eq_refl).
Defined.


(** A kicked thread with a signal pending, in a non-restartable call. *)
Lemma kicked_signal_witness :
  exists out s',
    prepare_for_signal true __xn_exec_nonrestartable
      (mk_kstate (caller (Some kicked_thread) 40 false true) [])
    = (out, s')
    /\ xn_reg_rval (regs (st_world s')) = - EINTR
    /\ kicked_clears (st_trace s') = 1%nat.
Proof.
  destruct (kicked_signal_interposition
              (sample_env __xn_exec_nonrestartable (answer 0))
              (caller (Some kicked_thread) 40 false true) kicked_thread
              __xn_exec_nonrestartable [] eq_refl eq_refl eq_refl)
    as [(out & s' & Hrun & (Hrv & _ & Hclears) & _) _].
  exists out, s'. split; [exact Hrun|]. split; [exact Hrv|exact Hclears].
Defined.

(** The probing mode for a caller with a thread binding. *)
Lemma conforming_resolved_witness :
  resolve_conforming true __xn_exec_probing
  = Z.lor __xn_exec_probing __xn_exec_histage.
Proof.
  assert (Hr : 0 <= int_of_long (xn_syscall (regs (caller (Some plain_thread) 40 false false)))
               < __NR_COBALT_SYSCALLS (sample_env __xn_exec_probing (answer 0)))
    by kdecide.
  destruct (conforming_resolved
              (sample_env __xn_exec_probing (answer 0)) 2 xnsched_realtime_domain
              (caller (Some plain_thread) 40 false false) []
              eq_refl Hr eq_refl)
    as (Hres & _).
  exact Hres.
Defined.

(** A thread both kicked and cancelled, a signal pending. *)
Lemma cancellation_witness :
  handle_root_syscall (sample_env __xn_exec_primary (answer 0)) 2
    ipipe_root_domain (mk_kstate (caller (Some doomed_thread) 40 true true) [])
  = (Cancelled, mk_kstate (caller (Some doomed_thread) 40 true true) [EvTestCancel]).
Proof.
  destruct (cancellation_takes_precedence
              (sample_env __xn_exec_primary (answer 0))
              (caller (Some doomed_thread) 40 true true) doomed_thread
              __xn_exec_primary [] eq_refl eq_refl eq_refl)
    as (_ & _ & Hentry).
  exact (Hentry 2%nat ipipe_root_domain).
Defined.

(** A plain thread in primary mode, a signal pending. *)
Lemma unkicked_signal_witness :
  exists s',
    head_done (sample_env __xn_exec_primary (answer 0)) true 7
      __xn_exec_primary false
      (mk_kstate (caller (Some plain_thread) 40 false true) [])
    = (Return KEVENT_STOP, s')
    /\ xn_reg_rval (regs (st_world s')) = 7
    /\ root_p (st_world s') = true.
Proof.
  destruct (unkicked_signal_interposition
              (sample_env __xn_exec_primary (answer 0))
              (caller (Some plain_thread) 40 false true) plain_thread
              __xn_exec_primary [] eq_refl eq_refl eq_refl)
    as [_ Hdone].
  destruct (Hdone eq_refl eq_refl 7 false true)
    as [(s' & Hrun & Hrv & _ & Hroot & _) _].
  exists s'. split; [exact Hrun|]. split; [exact Hrv|exact Hroot].
Defined.

(** A thread relaxed for a [__xn_exec_downup] call, no signal pending:
    it is hardened again. *)
Lemma switchback_witness :
  exists s',
    head_done (sample_env __xn_exec_downup (answer 0)) true 0
      __xn_exec_downup true
      (mk_kstate (caller (Some plain_thread) 40 true false) [])
    = (Return KEVENT_STOP, s')
    /\ root_p (st_world s') = false.
Proof.
  destruct (switchback_restores_domain
              (sample_env __xn_exec_downup (answer 0))
              (caller (Some plain_thread) 40 true false) plain_thread
              0 __xn_exec_downup [] eq_refl eq_refl)
    as [Hhead _].
  apply Hhead; [reflexivity|intros _; reflexivity].
Defined.

(** A weak thread in primary mode, [switched] clear: both dispatchers
    relax it. *)
Lemma weak_idle_witness :
  exists s1 s2,
    head_done (sample_env __xn_exec_primary (answer 0)) true 0
      __xn_exec_primary false
      (mk_kstate (caller (Some weak_thread) 40 false false) [])
    = (Return KEVENT_STOP, s1)
    /\ root_done true 0 __xn_exec_primary false
         (mk_kstate (caller (Some weak_thread) 40 false false) [])
       = (Return KEVENT_STOP, s2)
    /\ root_p (st_world s1) = true
    /\ root_p (st_world s2) = true.
Proof.
  destruct (weak_idle_paths
              (sample_env __xn_exec_primary (answer 0))
              (caller (Some weak_thread) 40 false false) weak_thread
              0 __xn_exec_primary false true [] eq_refl eq_refl eq_refl eq_refl)
    as (s1 & s2 & H1 & H2 & _ & _ & Hr2 & Hr1 & _).
  exists s1, s2. split; [exact H1|]. split; [exact H2|].
  split; [exact (Hr1 eq_refl)|exact Hr2].
Defined.

(** A probing call from a thread in primary mode, served in the relaxed
    domain only: two invocations, the second one relaxed. *)
Lemma adaptive_retry_witness :
  handle_head_syscall (sample_env __xn_exec_probing (relaxed_only 5)) 2
    xnsched_realtime_domain
    (mk_kstate (caller (Some plain_thread) 40 false false) [])
  = (Return KEVENT_STOP,
     mk_kstate
       (mk_world (mk_pt_regs true 40 [0; 0; 0; 0; 0] 5)
                 (Some (mk_xnthread 0 0 0 1)) true true true false true)
       [EvHandler 40 true; EvRelax true SIGDEBUG_MIGRATE_SYSCALL;
        EvHandler 40 false; EvStatusReturn 5])
  /\ calls_at_most (2 <= 2)%nat 2
       (handle_head_syscall (sample_env __xn_exec_probing (relaxed_only 5)) 2
          xnsched_realtime_domain).
Proof.
  split; [vm_compute; reflexivity|].
  destruct (adaptive_retry_bounded
              (sample_env __xn_exec_probing (relaxed_only 5)) 2
              xnsched_realtime_domain true 40 (relaxed_only 5)
              __xn_exec_probing (caller (Some plain_thread) 40 false false) [])
    as (_ & _ & _ & Hhead & _).
  exact Hhead.
Defined.

(** The scenario of the specification: a call of mode
    [__xn_exec_lostage | __xn_exec_adaptive] from a thread in primary
    mode, served in primary mode only.  The thread is relaxed, the handler
    declines, the thread is hardened, the handler succeeds; the call ends
    with the success value and the thread in the control domain. *)
Example lostage_adaptive_scenario :
  handle_head_syscall
    (sample_env (Z.lor __xn_exec_lostage __xn_exec_adaptive) (primary_only 5)) 2
    xnsched_realtime_domain
    (mk_kstate (caller (Some plain_thread) 40 false false) [])
  = (Return KEVENT_STOP,
     mk_kstate
       (mk_world (mk_pt_regs true 40 [0; 0; 0; 0; 0] 5)
                 (Some (mk_xnthread 0 0 0 1)) true true false false true)
       [EvRelax true SIGDEBUG_MIGRATE_SYSCALL; EvHandler 40 false;
        EvHarden 0; EvHandler 40 true; EvStatusReturn 5]).
Proof. vm_compute. reflexivity. Qed.

(** * Further properties of the dispatchers *)

(** ** What a dispatcher answers *)

Lemma returns_pure {A} (P : Z -> Prop) (o : outcome A) :
  (forall k, o = Return k -> P k) -> returns_only P (fun s => (o, s)).
Proof. intros Ho s k s' H. injection H as H _. exact (Ho k H). Qed.

Lemma returns_ret {A} (P : Z -> Prop) (a : A) : returns_only P (ret a).
Proof. apply returns_pure. discriminate. Qed.

Lemma returns_return {A} (P : Z -> Prop) (k : Z) :
  P k -> returns_only P (@return_ A k).
Proof. intro Hk. apply returns_pure. intros k' H. injection H as <-. exact Hk. Qed.

Lemma returns_cancel {A} (P : Z -> Prop) : returns_only P (@cancel A).
Proof. apply returns_pure. discriminate. Qed.

Lemma returns_oops {A} (P : Z -> Prop) : returns_only P (@oops A).
Proof. apply returns_pure. discriminate. Qed.

Lemma returns_out_of_fuel {A} (P : Z -> Prop) : returns_only P (@out_of_fuel A).
Proof. apply returns_pure. discriminate. Qed.

Lemma returns_get_world (P : Z -> Prop) : returns_only P get_world.
Proof. intros s k s' H. discriminate H. Qed.

Lemma returns_put_world (P : Z -> Prop) (w : world) : returns_only P (put_world w).
Proof. intros s k s' H. discriminate H. Qed.

Lemma returns_emit (P : Z -> Prop) (e : event) : returns_only P (emit e).
Proof. intros s k s' H. discriminate H. Qed.

Lemma returns_bind {A B} (P : Z -> Prop) (m : M A) (f : A -> M B) :
  returns_only P m ->
  (forall a, returns_only P (f a)) ->
  returns_only P (bind m f).
Proof.
  intros Hm Hf s k s'. unfold bind.
  destruct (m s) as [[a|k0| | |] s1] eqn:Hrun; intro H;
    try discriminate H.
  - exact (Hf a s1 k s' H).
  - injection H as <- _. exact (Hm s k0 s1 Hrun).
Qed.

(** Discharges [returns_only] for code whose every [return_] is allowed. *)
Ltac kreturns :=
  repeat first
    [ apply returns_ret | apply returns_cancel | apply returns_oops
    | apply returns_out_of_fuel
    | apply returns_get_world | apply returns_put_world | apply returns_emit
    | apply returns_return; solve [reflexivity | auto]
    | apply returns_bind; [|intro]
    | match goal with
      | |- returns_only _ (if ?b then _ else _) => destruct b
      | |- returns_only _ (match ?x with _ => _ end) => destruct x
      | |- returns_only _ (let _ := _ in _) => cbv zeta
      end ].

Lemma prepare_for_signal_returns (P : Z -> Prop) (thread : bool) (sysflags : Z) :
  returns_only P (prepare_for_signal thread sysflags).
Proof.
  unfold prepare_for_signal, xnthread_test_info, xnthread_test_state,
    xnthread_clear_info, xnthread_test_cancel, xnthread_relax,
    __xn_error_return, signal_pending, deref, store.
  kreturns.
Qed.

Lemma ret_handled_returns {A} (thread : bool) :
  returns_only (eq KEVENT_STOP) (@ret_handled A thread).
Proof.
  unfold ret_handled, xnstat_counter_inc_xsc, xnthread_sync_window, deref, store.
  kreturns.
Qed.

Lemma head_done_returns
    (env : cobalt_env) (thread : bool) (r sysflags : Z) (switched : bool) :
  returns_only (eq KEVENT_STOP) (head_done env thread r sysflags switched).
Proof.
  unfold head_done.
  repeat first
    [ apply prepare_for_signal_returns | apply ret_handled_returns
    | progress unfold __xn_status_return, xnsched_root_p, signal_pending,
        xnthread_test_info, xnthread_test_state, thread_res_count,
        xnthread_relax, xnthread_harden, deref
    | progress kreturns ].
Qed.

Lemma root_done_returns
    (thread : bool) (r sysflags : Z) (switched : bool) :
  returns_only (eq KEVENT_STOP) (root_done thread r sysflags switched).
Proof.
  unfold root_done.
  repeat first
    [ apply prepare_for_signal_returns | apply ret_handled_returns
    | progress unfold __xn_status_return, xnsched_root_p, xnsched_primary_p,
        signal_pending, xnthread_current,
        xnthread_test_info, xnthread_test_state, thread_res_count,
        xnthread_relax, deref
    | progress kreturns ].
Qed.

(** For a call issued from the control domain the restart loop never
    leaves the dispatcher. *)
Lemma head_restart_realtime_returns
    (env : cobalt_env) (fuel : nat) (nr : Z) (h : cobalt_syshand)
    (sysflags : Z) (switched : bool) :
  returns_only (fun _ => False)
    (head_restart env fuel xnsched_realtime_domain nr h sysflags switched).
Proof.
  revert sysflags switched.
  induction fuel as [|fuel IH]; intros sysflags switched; cbn [head_restart].
  - apply returns_out_of_fuel.
  - cbn [is_realtime negb].
    unfold invoke, xnthread_harden, xnthread_relax.
    repeat first [ apply IH | progress kreturns ].
Qed.

(** The restart loop of the relaxed-domain dispatcher leaves only
    through [ret_handled]. *)
Lemma root_restart_returns
    (env : cobalt_env) (fuel : nat) (thread : bool) (nr : Z)
    (h : cobalt_syshand) (sysflags : Z) :
  returns_only (eq KEVENT_STOP) (root_restart env fuel thread nr h sysflags).
Proof.
  revert sysflags.
  induction fuel as [|fuel IH]; intros sysflags; cbn [root_restart].
  - apply returns_out_of_fuel.
  - unfold invoke, xnthread_harden, xnthread_relax, __xn_error_return.
    repeat first [ apply IH | apply ret_handled_returns | progress kreturns ].
Qed.

Lemma returns_weaken {A} (P Q : Z -> Prop) (m : M A) :
  (forall k, P k -> Q k) -> returns_only P m -> returns_only Q m.
Proof. intros HPQ Hm s k s' H. exact (HPQ k (Hm s k s' H)). Qed.

(** X1: the assertion of [ipipe_fastcall_hook] holds for every
    recognized call: the control-domain dispatcher, entered for a call
    issued from the control domain, never answers KEVENT_PROPAGATE, and
    with two units of fuel the model does not cut it. *)
Theorem fastcall_never_propagates
    (env : cobalt_env) (fuel : nat) (w : world) (tr : list event) :
  xn_syscall_p (regs w) = true ->
  (forall k s',
      ipipe_fastcall_hook env fuel (mk_kstate w tr) = (Return k, s') ->
      k = KEVENT_STOP)
  /\ ((2 <= fuel)%nat ->
      fst (ipipe_fastcall_hook env fuel (mk_kstate w tr)) <> OutOfFuel).
Proof.
  intro Hp. split.
  - assert (Hrest : forall w0,
      returns_only (eq KEVENT_STOP)
        (thread <- xnthread_current ;;
         let nr := int_of_long (xn_syscall (regs w0)) in
         if (nr <? 0) || (nr >=? __NR_COBALT_SYSCALLS env) then head_bad_syscall
         else
           process <- lookup_process ;;
           let handler := cobalt_syscalls env nr in
           let sysflags := cobalt_sysmodes env nr in
           if syscall_denied env process thread (cap_sys_nice w0) nr sysflags then
             __xn_error_return (- EPERM) ;;;
             ret_handled thread
           else head_dispatch env fuel xnsched_realtime_domain thread nr
                  handler sysflags)%kmonad).
    { intro w0.
      apply returns_bind; [unfold xnthread_current; kreturns|intro thread].
      cbv zeta.
      destruct ((int_of_long (xn_syscall (regs w0)) <? 0)
                || (int_of_long (xn_syscall (regs w0)) >=? __NR_COBALT_SYSCALLS env)).
      { unfold head_bad_syscall, __xn_error_return. kreturns. }
      apply returns_bind; [unfold lookup_process; kreturns|intro process].
      destruct (syscall_denied env process thread (cap_sys_nice w0) _ _).
      { apply returns_bind; [unfold __xn_error_return; kreturns|intros _].
        apply ret_handled_returns. }
      unfold head_dispatch. cbv zeta.
      apply returns_bind; [|intros [[r f] sw]; apply head_done_returns].
      apply (returns_weaken (fun _ => False)); [intros k []|].
      apply head_restart_realtime_returns. }
    intros k s' Hrun. symmetry.
    unfold ipipe_fastcall_hook, handle_head_syscall in Hrun.
    unfold bind at 1 in Hrun. unfold get_world in Hrun.
    cbn [st_world] in Hrun. rewrite Hp in Hrun. cbn [negb] in Hrun.
    exact (Hrest w (mk_kstate w tr) k s' Hrun).
  - intro Hfuel.
    destruct (handle_head_syscall_calls env fuel xnsched_realtime_domain
                (mk_kstate w tr)) as (evs & _ & _ & Hcut).
    exact (Hcut Hfuel).
Qed.

(** X2: for a recognized call the relaxed-domain dispatcher never
    answers KEVENT_PROPAGATE: whatever the mode and the handler, the call
    ends there. *)
Theorem root_never_propagates
    (env : cobalt_env) (fuel : nat) (ipd : ipipe_domain)
    (w : world) (tr : list event) :
  xn_syscall_p (regs w) = true ->
  (forall k s',
      handle_root_syscall env fuel ipd (mk_kstate w tr) = (Return k, s') ->
      k = KEVENT_STOP)
  /\ ((2 <= fuel)%nat ->
      fst (handle_root_syscall env fuel ipd (mk_kstate w tr)) <> OutOfFuel).
Proof.
  intro Hp. split.
  - assert (Hrest : forall w0,
      returns_only (eq KEVENT_STOP)
        (thread <- xnthread_current ;;
         let nr := int_of_long (xn_syscall (regs w0)) in
         '(handler, sysflags) <- table_entry env nr ;;
         let sysflags := resolve_conforming thread sysflags in
         '(r, sysflags, switched) <-
            root_restart env fuel thread nr handler sysflags ;;
         root_done thread r sysflags switched)%kmonad).
    { intro w0.
      apply returns_bind; [unfold xnthread_current; kreturns|intro thread].
      cbv zeta.
      apply returns_bind; [unfold table_entry; kreturns|intros [h mode]].
      apply returns_bind; [apply root_restart_returns|intros [[r f] sw]].
      apply root_done_returns. }
    intros k s' Hrun. symmetry.
    unfold handle_root_syscall in Hrun. unfold bind at 1 in Hrun.
    destruct (xnthread_test_cancel (mk_kstate w tr)) as [[[]|k0| | |] s1] eqn:Hc;
      try discriminate Hrun.
    + assert (Hw : st_world s1 = w).
      { revert Hc. unfold xnthread_test_cancel. kstep.
        destruct (current_thread w) as [t|];
          [destruct (has (info t) XNCANCELD)|]; intro H;
          try discriminate H; injection H as <-; reflexivity. }
      unfold bind at 1 in Hrun. unfold get_world in Hrun.
      rewrite Hw, Hp in Hrun. cbn [negb] in Hrun.
      exact (Hrest w s1 k s' Hrun).
    + exfalso. revert Hc. unfold xnthread_test_cancel. kstep.
      destruct (current_thread w) as [t|];
        [destruct (has (info t) XNCANCELD)|]; discriminate.
  - intro Hfuel.
    destruct (handle_root_syscall_calls env fuel ipd (mk_kstate w tr))
      as (evs & _ & _ & Hcut).
    exact (Hcut Hfuel).
Qed.

(** ** Calls the dispatchers do not serve *)

(** X3: a syscall that is not a Cobalt call is propagated with its frame
    untouched and no handler entered.  The control-domain dispatcher
    first relaxes a thread that is not in the root domain, asking for the
    notification; the relaxed-domain dispatcher only tests the thread for
    cancellation. *)
Theorem foreign_syscall_propagated
    (env : cobalt_env) (fuel : nat) (ipd : ipipe_domain)
    (w : world) (tr : list event) :
  xn_syscall_p (regs w) = false ->
  handle_head_syscall env fuel ipd (mk_kstate w tr)
  = (Return KEVENT_PROPAGATE,
     if root_p w then mk_kstate w tr
     else mk_kstate (set_root_p true w)
                    (tr ++ [EvRelax true SIGDEBUG_MIGRATE_SYSCALL]))
  /\ (cancel_pending w = false ->
      handle_root_syscall env fuel ipd (mk_kstate w tr)
      = (Return KEVENT_PROPAGATE, mk_kstate w (tr ++ [EvTestCancel]))).
Proof.
  destruct w as [[p nr args rv] th cp mp rp sp cap].
  unfold cancel_pending. cbn [regs xn_syscall_p current_thread root_p].
  intros Hp. subst p. split.
  - unfold handle_head_syscall, head_linux_syscall. kstep.
    destruct rp; kstep; reflexivity.
  - intro Hc. unfold handle_root_syscall.
    destruct th as [[i st rc xsc]|]; krun; reflexivity.
Qed.

(** X4: a call issued from the root domain whose effective mode has
    [__xn_exec_lostage], [__xn_exec_histage] or [__xn_exec_current] is
    not served by the control-domain dispatcher: it is propagated, with
    nothing done but the caching of the process binding, and the
    relaxed-domain dispatcher serves it. *)
Theorem root_call_handed_over
    (env : cobalt_env) (fuel : nat) (w : world) (tr : list event) :
  let nr := int_of_long (xn_syscall (regs w)) in
  let mode := resolve_conforming (thread_bound w) (cobalt_sysmodes env nr) in
  xn_syscall_p (regs w) = true ->
  0 <= nr < __NR_COBALT_SYSCALLS env ->
  gate_open env w = true ->
  has mode __xn_exec_lostage
  || has mode (Z.lor __xn_exec_histage __xn_exec_current) = true ->
  (0 < fuel)%nat ->
  handle_head_syscall env fuel ipipe_root_domain (mk_kstate w tr)
  = (Return KEVENT_PROPAGATE,
     mk_kstate (set_process (process_bound w) w) tr)
  /\ syscall_pipeline env fuel ipipe_root_domain (mk_kstate w tr)
     = handle_root_syscall env fuel ipipe_root_domain
         (mk_kstate (set_process (process_bound w) w) tr).
Proof.
  intros nr mode Hp Hr Hg Hm Hfuel.
  assert (Hhead :
    handle_head_syscall env fuel ipipe_root_domain (mk_kstate w tr)
    = (Return KEVENT_PROPAGATE,
       mk_kstate (set_process (process_bound w) w) tr)).
  { rewrite (head_gate_open env fuel ipipe_root_domain w tr Hp Hr Hg).
    unfold head_dispatch. fold nr. fold mode. cbv zeta.
    destruct fuel as [|n]; [lia|]. cbn [head_restart].
    unfold bind at 1. unfold bind at 1.
    destruct (has mode __xn_exec_lostage); cbn [is_realtime negb].
    - reflexivity.
    - cbn [orb] in Hm. rewrite Hm. reflexivity. }
  split; [exact Hhead|].
  unfold syscall_pipeline, ipipe_syscall_hook. rewrite Hhead. reflexivity.
Qed.

(** X5: a call denied by the permission test is counted in the syscall
    statistics of the thread, and changes nothing else than the status
    word and the cached process binding; a call whose id, as stored in
    the [int nr] of the dispatcher, is out of range is not counted. *)
Theorem denied_call_counted
    (env : cobalt_env) (fuel : nat) (ipd : ipipe_domain)
    (w : world) (t : xnthread) (tr : list event) :
  xn_syscall_p (regs w) = true ->
  current_thread w = Some t ->
  let nr := int_of_long (xn_syscall (regs w)) in
  (0 <= nr < __NR_COBALT_SYSCALLS env -> gate_open env w = false ->
   handle_head_syscall env fuel ipd (mk_kstate w tr)
   = (Return KEVENT_STOP,
      mk_kstate
        (set_thread (Some (set_stat_xsc (stat_xsc t + 1) t))
           (set_regs (set_rval (- EPERM) (regs w))
              (set_process (process_bound w) w)))
        (tr ++ [EvErrorReturn (- EPERM)])))
  /\ (nr < 0 \/ __NR_COBALT_SYSCALLS env <= nr ->
      handle_head_syscall env fuel ipd (mk_kstate w tr)
      = (Return KEVENT_STOP,
         mk_kstate (set_regs (set_rval (- ENOSYS) (regs w)) w)
                   (tr ++ [EvErrorReturn (- ENOSYS)]))).
Proof.
  intros Hp Ht nr. subst nr. split.
  - intros Hr Hg. pose proof (syscall_denied_spec env w) as Hd.
    rewrite Hg in Hd. revert Hd.
    destruct w as [[p nr args rv] th cp mp rp sp cap].
    destruct t as [i st rc xsc].
    unfold process_bound, thread_bound.
    cbn [regs xn_syscall_p xn_syscall current_thread current_process
         mm_process cap_sys_nice] in *.
    subst p th. intro Hd.
    unfold handle_head_syscall, lookup_process. kstep.
    rewrite (range_test_in _ _ Hr).
    destruct cp; kstep; cbn [orb] in Hd; rewrite Hd; kstep; reflexivity.
  - intros Hr.
    destruct w as [[p nr args rv] th cp mp rp sp cap].
    cbn [regs xn_syscall_p xn_syscall] in *. subst p.
    unfold handle_head_syscall, head_bad_syscall. kstep.
    rewrite (range_test _ _ Hr). reflexivity.
Qed.

(** ** The way out of the dispatchers *)

(** X6: in the control-domain dispatcher, when the relaxed attempt of an
    adaptive call answers -ENOSYS and the thread cannot be hardened
    again, the call is not retried: it ends with the status of the failed
    migration, after a single entry of the handler, the thread staying in
    the domain the handler left it in. *)
Theorem head_retry_harden_failure
    (env : cobalt_env) (fuel : nat) (nr sysflags e : Z) (h : cobalt_syshand)
    (w w2 : world) (t2 : xnthread) (tr : list event) :
  let mode := resolve_conforming true sysflags in
  has mode __xn_exec_lostage = true ->
  has mode __xn_exec_adaptive = true ->
  h (xn_reg_arglist (regs w)) (set_root_p true w) = (- ENOSYS, w2) ->
  harden_status env w2 = e ->
  e <> 0 ->
  root_p w2 = true ->
  current_thread w2 = Some t2 ->
  head_dispatch env (S fuel) xnsched_realtime_domain true nr h sysflags
    (mk_kstate w tr)
  = (Return KEVENT_STOP,
     mk_kstate
       (set_thread (Some (set_stat_xsc (stat_xsc t2 + 1) t2))
          (set_regs (set_rval e (regs w2)) w2))
       (tr ++ [EvRelax true SIGDEBUG_MIGRATE_SYSCALL; EvHandler nr false;
               EvHarden e; EvStatusReturn e])).
Proof.
  intros mode Hlo Had Hh He Hne Hroot Ht.
  unfold head_dispatch. fold mode. clearbody mode.
  apply Z.eqb_neq in Hne.
  destruct w as [[p n args rv] th cp mp rp sp cap].
  destruct w2 as [[p2 n2 args2 rv2] th2 cp2 mp2 rp2 sp2 cap2].
  destruct t2 as [i2 st2 rc2 xsc2].
  unfold set_root_p in Hh.
  cbn [regs current_thread current_process mm_process root_p sigpending
       cap_sys_nice xn_reg_arglist] in *.
  subst rp2 th2.
  cbn [head_restart]. unfold head_done.
  kstep. rewrite Hlo. kstep. rewrite Hh. kstep.
  rewrite Z.eqb_refl, Had. kstep. rewrite He, Hne. kstep.
  rewrite Hne. kstep. rewrite andb_false_r. kstep.
  rewrite <- !app_assoc. reflexivity.
Qed.

(** X7: a thread found kicked in primary mode with no signal pending is not
    treated alike by the two dispatchers.  The control-domain one runs the
    interposition: the kick is consumed and the thread relaxed without
    notification, the status of the handler being kept.  The
    relaxed-domain one does not look at the kick: the thread stays kicked
    and, unless it is weak and idle or the call asks for a switch back,
    in primary mode. *)
Theorem kicked_without_signal
    (env : cobalt_env) (w : world) (t : xnthread)
    (r sysflags : Z) (switched thread : bool) (tr : list event) :
  current_thread w = Some t ->
  has (info t) XNKICKED = true ->
  has (info t) XNCANCELD = false ->
  sigpending w = false ->
  root_p w = false ->
  let cleared := set_info (Z.land (info t) (Z.lnot XNKICKED)) t in
  head_done env true r sysflags switched (mk_kstate w tr)
  = (Return KEVENT_STOP,
     mk_kstate
       (set_thread (Some (set_stat_xsc (stat_xsc t + 1) cleared))
          (set_root_p true (set_regs (set_rval r (regs w)) w)))
       (tr ++ [EvStatusReturn r; EvClearInfo XNKICKED; EvTestCancel;
               EvRelax false SIGDEBUG_MIGRATE_SIGNAL]))
  /\ (weak_idle w = false ->
      has sysflags __xn_exec_switchback = false ->
      root_done thread r sysflags switched (mk_kstate w tr)
      = (Return KEVENT_STOP,
         mk_kstate
           (set_thread (Some (set_stat_xsc (stat_xsc t + 1) t))
              (set_regs (set_rval r (regs w)) w))
           (tr ++ [EvStatusReturn r]))).
Proof.
  intros Ht Hk Hc Hs Hr cleared. subst cleared.
  destruct w as [[p n args rv] th cp mp rp sp cap].
  destruct t as [i st rc xsc].
  unfold weak_idle.
  cbn [regs current_thread current_process mm_process root_p sigpending
       cap_sys_nice info state res_count stat_xsc] in *.
  subst th sp rp.
  assert (Hc' : has (Z.land i (Z.lnot XNKICKED)) XNCANCELD = false).
  { rewrite clear_kicked_canceld. exact Hc. }
  split.
  - unfold head_done, prepare_for_signal. krun.
    rewrite <- !app_assoc. reflexivity.
  - intros Hw Hsb. cbn [state res_count] in Hw. unfold root_done. kstep.
    destruct (has st XNWEAK); cbn [andb] in Hw; kstep.
    + rewrite Hw. kstep. rewrite Hsb. kstep. reflexivity.
    + rewrite Hsb. kstep. reflexivity.
Qed.

(** X8: the dispatchers do not migrate a thread on their own.  For a
    thread that is neither weak and idle nor kicked, with no signal
    pending, and a call whose mode has no [__xn_exec_switchback], the way
    out of either dispatcher writes the status, counts the call and
    leaves the thread in the domain the handler left it in. *)
Theorem no_spontaneous_migration
    (env : cobalt_env) (w : world) (t : xnthread)
    (r sysflags : Z) (switched : bool) (tr : list event) :
  current_thread w = Some t ->
  sigpending w = false ->
  kicked w = false ->
  weak_idle w = false ->
  has sysflags __xn_exec_switchback = false ->
  let w' := set_thread (Some (set_stat_xsc (stat_xsc t + 1) t))
              (set_regs (set_rval r (regs w)) w) in
  head_done env true r sysflags switched (mk_kstate w tr)
  = (Return KEVENT_STOP, mk_kstate w' (tr ++ [EvStatusReturn r]))
  /\ root_done true r sysflags switched (mk_kstate w tr)
     = (Return KEVENT_STOP, mk_kstate w' (tr ++ [EvStatusReturn r]))
  /\ root_p w' = root_p w.
Proof.
  intros Ht Hs Hk Hw Hsb w'. subst w'.
  destruct w as [[p n args rv] th cp mp rp sp cap].
  destruct t as [i st rc xsc].
  unfold weak_idle, kicked in *.
  cbn [regs current_thread current_process mm_process root_p sigpending
       cap_sys_nice info state res_count stat_xsc] in *.
  subst th sp. cbn [info state res_count] in Hk, Hw.
  split; [|split].
  - unfold head_done. kstep. destruct rp; kstep.
    + rewrite Hsb. kstep. reflexivity.
    + rewrite Hk. kstep.
      destruct (has st XNWEAK); cbn [andb] in Hw; kstep.
      * rewrite Hw. kstep. rewrite Hsb. kstep. reflexivity.
      * rewrite Hsb. kstep. reflexivity.
  - unfold root_done. kstep. destruct rp; kstep.
    + rewrite Hsb. kstep. reflexivity.
    + destruct (has st XNWEAK); cbn [andb] in Hw; kstep.
      * rewrite Hw. kstep. rewrite Hsb. kstep. reflexivity.
      * rewrite Hsb. kstep. reflexivity.
  - reflexivity.
Qed.

(** ** The domain the handler is entered in *)

Lemma enters_first_then_quiet {A B} (e : event) (s : kstate)
    (m : M A) (f : A -> M B) :
  enters_first e s (m s) ->
  (forall a, emits_at_most is_handler False 0 (f a)) ->
  enters_first e s (bind m f s).
Proof.
  intros (evs & Htr & Hfirst) Hf. unfold bind.
  destruct (m s) as [[a|k| | |] s1]; cbn [fst snd] in *;
    try (exists evs; split; [exact Htr|exact Hfirst]).
  destruct (Hf a s1) as (evs2 & Htr2 & Hlen & _).
  exists (evs ++ evs2). split.
  - rewrite Htr2, Htr. symmetry. apply app_assoc.
  - assert (Hq : handler_calls evs2 = []).
    { unfold handler_calls. destruct (filter is_handler evs2); [reflexivity|].
      cbn in Hlen. lia. }
    rewrite handler_calls_app, Hq, app_nil_r. exact Hfirst.
Qed.

Lemma quiet_then_enters_first {A} (e : event) (w : world)
    (tr pre : list event) (run : outcome A * kstate) :
  handler_calls pre = [] ->
  enters_first e (mk_kstate w (tr ++ pre)) run ->
  enters_first e (mk_kstate w tr) run.
Proof.
  intros Hpre (evs & Htr & Hfirst). exists (pre ++ evs).
  cbn [st_trace] in *. split.
  - rewrite Htr. symmetry. apply app_assoc.
  - rewrite handler_calls_app, Hpre. exact Hfirst.
Qed.

Lemma head_restart_first
    (env : cobalt_env) (fuel : nat) (ipd : ipipe_domain) (nr : Z)
    (h : cobalt_syshand) (sysflags : Z) (switched : bool)
    (w : world) (tr : list event) :
  enters_first (EvHandler nr (head_pass_primary sysflags w)) (mk_kstate w tr)
    (head_restart env fuel ipd nr h sysflags switched (mk_kstate w tr)).
Proof.
  assert (Hrec : forall n f sw w1 pre,
    exists evs2,
      st_trace (snd (head_restart env n ipd nr h f sw
                       (mk_kstate w1 (tr ++ pre))))
      = tr ++ (pre ++ evs2)).
  { intros n f sw w1 pre.
    destruct (head_restart_clears env n ipd nr h f sw
                (mk_kstate w1 (tr ++ pre))) as (evs2 & Htr & _).
    exists evs2. cbn [st_trace] in Htr. rewrite Htr. symmetry. apply app_assoc. }
  unfold enters_first, head_pass_primary.
  destruct fuel as [|n].
  { exists []. split; [cbn; symmetry; apply app_nil_r|left; reflexivity]. }
  destruct w as [[p nr0 args rv] th cp mp rp sp cap].
  cbn [head_restart]. cbn [root_p st_trace].
  destruct (has sysflags __xn_exec_lostage);
    [|destruct (has sysflags (Z.lor __xn_exec_histage __xn_exec_current))];
    destruct ipd; kstep;
    try (exists []; split; [symmetry; apply app_nil_r|left; reflexivity]);
    khandler; kstep;
    destruct ((r =? - ENOSYS) && has sysflags __xn_exec_adaptive); kstep;
    try destruct switched; kstep;
    try (match goal with
         | |- context [harden_status ?e ?w] =>
             destruct (harden_status e w =? 0) eqn:Hhs; kstep;
             rewrite ?Hhs; kstep
         end);
    rewrite <- ?app_assoc;
    try (match goal with
         | |- context [head_restart ?e ?n ?i ?k ?hh ?f ?sw
                         (mk_kstate ?w1 (tr ++ ?pre))] =>
             destruct (Hrec n f sw w1 pre) as (evs2 & Htr2);
             exists (pre ++ evs2); split;
             [exact Htr2
             |right; rewrite handler_calls_app; cbn; eexists; reflexivity]
         end);
    try (eexists; split; [reflexivity|right; cbn; eexists; reflexivity]).
Qed.

Lemma root_restart_first
    (env : cobalt_env) (fuel : nat) (thread : bool) (nr : Z)
    (h : cobalt_syshand) (sysflags : Z) (w : world) (tr : list event) :
  enters_first (EvHandler nr (root_pass_primary sysflags w)) (mk_kstate w tr)
    (root_restart env fuel thread nr h sysflags (mk_kstate w tr)).
Proof.
  assert (Hrec : forall n f w1 pre,
    exists evs2,
      st_trace (snd (root_restart env n thread nr h f
                       (mk_kstate w1 (tr ++ pre))))
      = tr ++ (pre ++ evs2)).
  { intros n f w1 pre.
    destruct (root_restart_clears env n thread nr h f
                (mk_kstate w1 (tr ++ pre))) as (evs2 & Htr & _).
    exists evs2. cbn [st_trace] in Htr. rewrite Htr. symmetry. apply app_assoc. }
  unfold enters_first, root_pass_primary.
  destruct fuel as [|n].
  { exists []. split; [cbn; symmetry; apply app_nil_r|left; reflexivity]. }
  destruct w as [[p nr0 args rv] [[i st rc xsc]|] cp mp rp sp cap];
    cbn [root_restart]; cbn [root_p st_trace];
    (destruct (has sysflags __xn_exec_histage); kstep;
     [match goal with
      | |- context [harden_status ?e ?w] =>
          destruct (harden_status e w =? 0) eqn:Hhs; kstep;
          rewrite ?Hhs; kstep
      end|]);
    try (destruct thread; kstep; rewrite <- ?app_assoc;
         eexists; (split; [reflexivity|left; reflexivity])).
  all: try (khandler; kstep;
    destruct ((r =? - ENOSYS) && has sysflags __xn_exec_adaptive); kstep;
    rewrite <- ?app_assoc).
  all:
    try (match goal with
         | |- context [root_restart ?e ?n ?t ?k ?hh ?f
                         (mk_kstate ?w1 (_ ++ ?pre))] =>
             destruct (Hrec n f w1 pre) as (evs2 & Htr2);
             exists (pre ++ evs2); split;
             [exact Htr2
             |right; rewrite handler_calls_app; cbn; eexists; reflexivity]
         end);
    try (eexists; split; [reflexivity|right; cbn; eexists; reflexivity]).
Qed.

Lemma head_done_calls (env : cobalt_env) (thread : bool) (r sysflags : Z)
    (switched : bool) :
  emits_at_most is_handler False 0 (head_done env thread r sysflags switched).
Proof.
  apply head_done_emits; try (intros; reflexivity).
  intros th f. apply prepare_for_signal_calls.
Qed.

Lemma root_done_calls (thread : bool) (r sysflags : Z) (switched : bool) :
  emits_at_most is_handler False 0 (root_done thread r sysflags switched).
Proof.
  apply root_done_emits; try (intros; reflexivity).
  intros th f. apply prepare_for_signal_calls.
Qed.

(** X9: the mode of a call decides the domain its handler is first entered
    in.  Whatever the call and the state of the caller, the first handler
    invocation of the control-domain dispatcher takes place with the
    thread relaxed when the effective mode has [__xn_exec_lostage], and in
    the domain of the caller otherwise; the first one of the
    relaxed-domain dispatcher takes place in primary mode when the
    effective mode has [__xn_exec_histage], and in the domain of the
    caller otherwise. *)
Theorem first_entry_follows_mode
    (env : cobalt_env) (fuel : nat) (ipd : ipipe_domain)
    (w : world) (tr : list event) :
  let nr := int_of_long (xn_syscall (regs w)) in
  let mode := resolve_conforming (thread_bound w) (cobalt_sysmodes env nr) in
  enters_first (EvHandler nr (head_pass_primary mode w)) (mk_kstate w tr)
    (handle_head_syscall env fuel ipd (mk_kstate w tr))
  /\ enters_first (EvHandler nr (root_pass_primary mode w)) (mk_kstate w tr)
       (handle_root_syscall env fuel ipd (mk_kstate w tr)).
Proof.
  intros nr mode. split.
  - destruct (xn_syscall_p (regs w)) eqn:Hp.
    2:{ exists (if root_p w then []
                else [EvRelax true SIGDEBUG_MIGRATE_SYSCALL]).
        revert Hp. destruct w as [[p nr0 args rv] th cp mp rp sp cap].
        cbn [regs xn_syscall_p root_p]. intros ->.
        unfold handle_head_syscall, head_linux_syscall. kstep.
        destruct rp; kstep;
          (split; [rewrite ?app_nil_r; reflexivity|left; reflexivity]). }
    destruct (Z_lt_dec nr 0) as [Hlt|Hge];
      [|destruct (Z_le_dec (__NR_COBALT_SYSCALLS env) nr) as [Hbig|Hin]].
    1,2: exists [EvErrorReturn (- ENOSYS)];
         assert (Hr : nr < 0 \/ __NR_COBALT_SYSCALLS env <= nr) by lia;
         clear - Hp Hr; subst nr; revert Hp Hr;
         destruct w as [[p nr0 args rv] th cp mp rp sp cap];
         cbn [regs xn_syscall_p xn_syscall]; intros -> Hr;
         unfold handle_head_syscall, head_bad_syscall; kstep;
         rewrite (range_test _ _ Hr); kstep;
         (split; [reflexivity|left; reflexivity]).
    assert (Hr : 0 <= int_of_long (xn_syscall (regs w)) < __NR_COBALT_SYSCALLS env)
      by (subst nr; lia).
    destruct (gate_open env w) eqn:Hg.
    2:{ destruct (head_gate_closed env fuel ipd w tr Hp Hr Hg)
          as (s' & Hrun & _ & Htr).
        exists [EvErrorReturn (- EPERM)]. rewrite Hrun.
        split; [exact Htr|left; reflexivity]. }
    rewrite (head_gate_open env fuel ipd w tr Hp Hr Hg).
    unfold head_dispatch. fold nr. fold mode. cbv zeta.
    change (enters_first
              (EvHandler nr
                 (head_pass_primary mode (set_process (process_bound w) w)))
              (mk_kstate (set_process (process_bound w) w) tr)
              (bind (head_restart env fuel ipd nr (cobalt_syscalls env nr)
                       mode false)
                    (fun x => let '(r, sysflags, switched) := x in
                              head_done env (thread_bound w) r sysflags switched)
                    (mk_kstate (set_process (process_bound w) w) tr))).
    apply enters_first_then_quiet.
    + apply head_restart_first.
    + intros [[r f] sw]. apply head_done_calls.
  - destruct (cancel_pending w) eqn:Hc.
    { exists [EvTestCancel]. revert Hc.
      destruct w as [[p nr0 args rv] [[i st rc xsc]|] cp mp rp sp cap];
        unfold cancel_pending; cbn [current_thread info]; intros Hc;
        [|discriminate].
      unfold handle_root_syscall. krun.
      split; [reflexivity|left; reflexivity]. }
    destruct (xn_syscall_p (regs w)) eqn:Hp.
    2:{ exists [EvTestCancel]. revert Hp Hc.
        destruct w as [[p nr0 args rv] [[i st rc xsc]|] cp mp rp sp cap];
          unfold cancel_pending; cbn [regs xn_syscall_p current_thread info];
          intros -> Hc; unfold handle_root_syscall; krun;
          (split; [reflexivity|left; reflexivity]). }
    destruct (Z_lt_dec nr 0) as [Hlt|Hge];
      [|destruct (Z_le_dec (__NR_COBALT_SYSCALLS env) nr) as [Hbig|Hin]].
    1,2: exists [EvTestCancel];
         assert (Hr : nr < 0 \/ __NR_COBALT_SYSCALLS env <= nr) by lia;
         clear - Hp Hr Hc; subst nr; revert Hp Hr Hc;
         destruct w as [[p nr0 args rv] [[i st rc xsc]|] cp mp rp sp cap];
         unfold cancel_pending;
         cbn [regs xn_syscall_p xn_syscall current_thread info];
         intros -> Hr Hc; unfold handle_root_syscall, table_entry; krun;
         rewrite (range_test _ _ Hr); kstep;
         (split; [reflexivity|left; reflexivity]).
    assert (Hr : 0 <= int_of_long (xn_syscall (regs w)) < __NR_COBALT_SYSCALLS env)
      by (subst nr; lia).
    rewrite (root_entry env fuel ipd w tr Hp Hr Hc).
    fold nr. cbv zeta. fold mode.
    apply (quiet_then_enters_first _ w tr [EvTestCancel]); [reflexivity|].
    pose proof (root_restart_first env fuel (thread_bound w) nr
                  (cobalt_syscalls env nr) mode w (tr ++ [EvTestCancel]))
      as Hfirst.
    apply enters_first_then_quiet.
    + exact Hfirst.
    + intros [[r f] sw]. apply root_done_calls.
Qed.

(** ** The two tables of the source *)

Lemma designated_initializers {E V : Type} (key : E -> Z) (val : E -> V)
    (nr : Z) (entries : list E) (d : V) :
  let r := fold_left (fun acc e => if key e =? nr then val e else acc)
                     entries d in
  (r = d /\ forall e, In e entries -> key e <> nr)
  \/ exists e, In e entries /\ key e = nr /\ r = val e.
Proof.
  revert d. induction entries as [|a entries IH]; intro d; cbn [fold_left].
  - left. split; [reflexivity|]. intros e [].
  - destruct (Z.eqb_spec (key a) nr) as [Ha|Ha].
    + destruct (IH (val a)) as [[Hr Hnone]|(e & Hin & Hsc & Hr)].
      * right. exists a. split; [left; reflexivity|]. split; assumption.
      * right. exists e. split; [right; exact Hin|]. split; assumption.
    + destruct (IH d) as [[Hr Hnone]|(e & Hin & Hsc & Hr)].
      * left. split; [exact Hr|]. intros e [<-|Hin]; [exact Ha|apply Hnone, Hin].
      * right. exists e. split; [right; exact Hin|]. split; assumption.
Qed.

Lemma mode_entries_names : map fst cobalt_mode_entries = cobalt_call_entries.
Proof. reflexivity. Qed.

Lemma mode_entries_functional (name : string) (m1 m2 : Z) :
  In (name, m1) cobalt_mode_entries ->
  In (name, m2) cobalt_mode_entries ->
  m1 = m2.
Proof.
  assert (Hall : forallb (fun e1 =>
            forallb (fun e2 => negb (String.eqb (fst e1) (fst e2))
                               || (snd e1 =? snd e2))
                    cobalt_mode_entries) cobalt_mode_entries = true)
    by (vm_compute; reflexivity).
  intros H1 H2. rewrite forallb_forall in Hall.
  specialize (Hall _ H1). rewrite forallb_forall in Hall.
  specialize (Hall _ H2). cbn [fst snd] in Hall.
  rewrite String.eqb_refl in Hall. apply Z.eqb_eq. exact Hall.
Qed.

Lemma slot_assigned (sc : string -> Z) (handlers : string -> cobalt_syshand)
    (name : string) (mode : Z) :
  (forall a b, In a cobalt_call_entries -> In b cobalt_call_entries ->
               sc a = sc b -> a = b) ->
  In (name, mode) cobalt_mode_entries ->
  cobalt_syscalls_of sc handlers (sc name) = handlers name
  /\ cobalt_sysmodes_of sc (sc name) = mode.
Proof.
  intros Hinj Hin.
  assert (Hname : In name cobalt_call_entries).
  { rewrite <- mode_entries_names. apply (in_map fst _ _ Hin). }
  split.
  - unfold cobalt_syscalls_of.
    destruct (designated_initializers sc handlers (sc name)
                cobalt_call_entries cobalt_ni)
      as [[_ Hnone]|(e & He & Hsc & Hr)].
    + exfalso. exact (Hnone name Hname eq_refl).
    + rewrite Hr. rewrite (Hinj e name He Hname Hsc). reflexivity.
  - unfold cobalt_sysmodes_of.
    destruct (designated_initializers (fun e => sc (fst e)) snd (sc name)
                cobalt_mode_entries 0)
      as [[_ Hnone]|([n m] & He & Hsc & Hr)].
    + exfalso. exact (Hnone (name, mode) Hin eq_refl).
    + rewrite Hr. cbn [fst snd] in *.
      assert (Hn : In n cobalt_call_entries).
      { rewrite <- mode_entries_names. apply (in_map fst _ _ He). }
      rewrite (Hinj n name Hn Hname Hsc) in He.
      exact (mode_entries_functional name m mode He Hin).
Qed.

Lemma slot_unassigned (sc : string -> Z) (handlers : string -> cobalt_syshand)
    (nr : Z) :
  (forall name, In name cobalt_call_entries -> sc name <> nr) ->
  cobalt_syscalls_of sc handlers nr = cobalt_ni
  /\ cobalt_sysmodes_of sc nr = 0.
Proof.
  intros Hfree. split.
  - unfold cobalt_syscalls_of.
    destruct (designated_initializers sc handlers nr
                cobalt_call_entries cobalt_ni)
      as [[Hr _]|(e & He & Hsc & _)]; [exact Hr|].
    exfalso. exact (Hfree e He Hsc).
  - unfold cobalt_sysmodes_of.
    destruct (designated_initializers (fun e => sc (fst e)) snd nr
                cobalt_mode_entries 0)
      as [[Hr _]|(e & He & Hsc & _)]; [exact Hr|].
    exfalso. apply (Hfree (fst e)); [|exact Hsc].
    rewrite <- mode_entries_names. apply (in_map fst _ _ He).
Qed.

(** X10: the two tables of the source go together.  For a numbering that
    gives the calls of the table distinct numbers, the slot of a call
    holds the handler of that call in [cobalt_syscalls] and the mode
    written for that call in [cobalt_sysmodes]; a slot that is the number
    of no call holds [cobalt_ni] and the mode 0. *)
Theorem tables_go_together
    (sc : string -> Z) (handlers : string -> cobalt_syshand) :
  (forall a b, In a cobalt_call_entries -> In b cobalt_call_entries ->
               sc a = sc b -> a = b) ->
  (forall name mode, In (name, mode) cobalt_mode_entries ->
     cobalt_syscalls_of sc handlers (sc name) = handlers name
     /\ cobalt_sysmodes_of sc (sc name) = mode)
  /\ (forall nr, (forall name, In name cobalt_call_entries -> sc name <> nr) ->
        cobalt_syscalls_of sc handlers nr = cobalt_ni
        /\ cobalt_sysmodes_of sc nr = 0).
Proof.
  intros Hinj. split.
  - intros name mode Hin. exact (slot_assigned sc handlers name mode Hinj Hin).
  - intros nr Hfree. exact (slot_unassigned sc handlers nr Hfree).
Qed.

(** X11: a call whose number is in range but is the number of no call of
    the table, issued by a relaxed caller that passes the permission
    test, is served by the control-domain dispatcher itself: [cobalt_ni]
    is entered once, with the thread relaxed, the status is -ENOSYS, the
    event is not propagated and the thread stays relaxed. *)
Theorem unassigned_slot_not_implemented
    (sc : string -> Z) (n : Z) (handlers : string -> cobalt_syshand)
    (harden : world -> Z) (fuel : nat) (ipd : ipipe_domain)
    (w : world) (tr : list event) :
  let env := source_env sc n handlers harden in
  let nr := int_of_long (xn_syscall (regs w)) in
  xn_syscall_p (regs w) = true ->
  0 <= nr < n ->
  (forall name, In name cobalt_call_entries -> sc name <> nr) ->
  process_bound w = true ->
  cap_sys_nice w = true ->
  root_p w = true ->
  (0 < fuel)%nat ->
  exists s',
    handle_head_syscall env fuel ipd (mk_kstate w tr) = (Return KEVENT_STOP, s')
    /\ xn_reg_rval (regs (st_world s')) = - ENOSYS
    /\ root_p (st_world s') = true
    /\ st_trace s' = tr ++ [EvHandler nr false; EvStatusReturn (- ENOSYS)].
Proof.
  intros env nr Hp Hr Hfree Hproc Hcap Hroot Hfuel.
  destruct (slot_unassigned sc handlers nr Hfree) as [Hh Hm].
  assert (Hg : gate_open env w = true).
  { unfold gate_open. fold nr. cbn [env source_env cobalt_sysmodes].
    rewrite Hm, Hproc, Hcap. reflexivity. }
  rewrite (head_gate_open env fuel ipd w tr Hp Hr Hg).
  fold nr. cbn [env source_env cobalt_sysmodes cobalt_syscalls].
  rewrite Hh, Hm. clear Hg Hh Hm Hfree Hr Hproc Hcap. subst nr.
  destruct fuel as [|fuel]; [lia|].
  destruct w as [[p nr args rv] th cp mp rp sp cap].
  cbn [regs xn_syscall root_p] in *. subst rp.
  unfold head_dispatch, resolve_conforming, head_done, cobalt_ni,
    process_bound, thread_bound.
  cbn [regs current_thread current_process mm_process].
  change (has 0 __xn_exec_conforming) with false. cbv iota.
  cbn [head_restart].
  change (has 0 __xn_exec_lostage) with false.
  change (has 0 (Z.lor __xn_exec_histage __xn_exec_current)) with false.
  change (has 0 __xn_exec_adaptive) with false.
  change (has 0 __xn_exec_switchback) with false.
  kstep. rewrite andb_false_r. kstep.
  destruct th as [[i st rc xsc]|]; kstep;
    (eexists; split; [reflexivity|]; cbn [st_world st_trace regs xn_reg_rval root_p];
     split; [reflexivity|]; split; [reflexivity|];
     rewrite <- !app_assoc; reflexivity).
Qed.

(** ** Handlers of the file *)

Lemma mayday_mode_entry :
  In ("mayday"%string, __xn_exec_oneway) cobalt_mode_entries.
Proof. apply (nth_error_In _ 92). reflexivity. Qed.

(** A value that fits an [int] goes through the conversion unchanged. *)
Lemma int_of_long_fits (v : Z) :
  - 2 ^ 31 <= v < 2 ^ 31 -> int_of_long v = v.
Proof.
  intro H. unfold int_of_long.
  change (2 ^ 31) with 2147483648 in *. change (2 ^ 32) with 4294967296.
  rewrite Z.mod_small by lia. lia.
Qed.

(** X12: the mayday call of a thread kicked in primary mode makes it
    relax.  Served by the control-domain dispatcher with no signal
    pending, the call leaves the frame as [xnarch_fixup_mayday] wrote it
    but for the return register, where the dispatcher writes the status
    of the handler: the value the fix-up put there, gone through an
    [int].  When that value fits an [int] the frame is the one of the
    fix-up.  The kick is consumed and the thread relaxed. *)
Theorem mayday_relaxes_kicked
    (sc : string -> Z) (n : Z) (handlers : string -> cobalt_syshand)
    (harden : world -> Z) (xnarch_fixup_mayday : world -> pt_regs)
    (fuel : nat) (w : world) (t : xnthread) (tr : list event) :
  let env := source_env sc n handlers harden in
  let nr := int_of_long (xn_syscall (regs w)) in
  let fixed := xnarch_fixup_mayday (set_process (process_bound w) w) in
  let status := int_of_long (xn_reg_rval fixed) in
  (forall a b, In a cobalt_call_entries -> In b cobalt_call_entries ->
               sc a = sc b -> a = b) ->
  handlers "mayday"%string = cobalt_mayday xnarch_fixup_mayday ->
  xn_syscall_p (regs w) = true ->
  nr = sc "mayday"%string ->
  0 <= nr < n ->
  process_bound w = true ->
  cap_sys_nice w = true ->
  current_thread w = Some t ->
  has (info t) XNKICKED = true ->
  has (info t) XNCANCELD = false ->
  sigpending w = false ->
  root_p w = false ->
  (0 < fuel)%nat ->
  exists s',
    handle_head_syscall env fuel xnsched_realtime_domain (mk_kstate w tr)
    = (Return KEVENT_STOP, s')
    /\ regs (st_world s') = set_rval status fixed
    /\ (- 2 ^ 31 <= xn_reg_rval fixed < 2 ^ 31 ->
        regs (st_world s') = fixed)
    /\ root_p (st_world s') = true
    /\ kicked (st_world s') = false
    /\ st_trace s'
       = tr ++ [EvHandler nr true; EvStatusReturn status;
                EvClearInfo XNKICKED; EvTestCancel;
                EvRelax false SIGDEBUG_MIGRATE_SIGNAL].
Proof.
  intros env nr fixed status Hinj Hmay Hp Hnr Hr Hproc Hcap Ht Hk Hc Hs Hroot Hfuel.
  destruct (slot_assigned sc handlers _ _ Hinj mayday_mode_entry) as [Hh Hm].
  rewrite Hmay in Hh. rewrite <- Hnr in Hh, Hm.
  assert (Hg : gate_open env w = true).
  { unfold gate_open. fold nr. cbn [env source_env cobalt_sysmodes].
    rewrite Hm, Hproc, Hcap. rewrite !orb_true_l. reflexivity. }
  rewrite (head_gate_open env fuel xnsched_realtime_domain w tr Hp Hr Hg).
  fold nr. cbn [env source_env cobalt_sysmodes cobalt_syscalls].
  rewrite Hh, Hm. subst status fixed. rewrite Hproc.
  clear Hg Hh Hm Hr Hproc Hcap Hnr Hmay Hinj.
  generalize nr. clear nr. intro nr.
  destruct fuel as [|fuel]; [lia|].
  destruct w as [[p nr0 args rv] th cp mp rp sp cap].
  destruct t as [i st rc xsc].
  cbn [regs current_thread root_p sigpending] in *. subst th rp sp.
  assert (Hc' : has (Z.land i (Z.lnot XNKICKED)) XNCANCELD = false).
  { rewrite clear_kicked_canceld. exact Hc. }
  assert (Hk' : has (Z.land i (Z.lnot XNKICKED)) XNKICKED = false)
    by apply clear_kicked_kicked.
  unfold head_dispatch, resolve_conforming, head_done, prepare_for_signal,
    cobalt_mayday, thread_bound, kicked.
  cbn [current_thread].
  change (has __xn_exec_oneway __xn_exec_conforming) with false. cbv iota.
  cbn [head_restart].
  change (has __xn_exec_oneway __xn_exec_lostage) with false.
  change (has __xn_exec_oneway
            (Z.lor __xn_exec_histage __xn_exec_current)) with false.
  change (has __xn_exec_oneway __xn_exec_adaptive) with false.
  change (has __xn_exec_oneway __xn_exec_switchback) with false.
  kstep. rewrite andb_false_r. krun.
  destruct (xnarch_fixup_mayday _) as [p1 nr1 args1 rv1]. krun.
  eexists. split; [reflexivity|].
  cbn [st_world st_trace regs root_p current_thread info xn_reg_rval].
  unfold set_rval.
  cbn [xn_syscall_p xn_syscall xn_reg_arglist xn_reg_rval].
  split; [reflexivity|].
  split; [intro Hfit; rewrite (int_of_long_fits rv1 Hfit); reflexivity|].
  split; [reflexivity|]. split; [exact Hk'|].
  rewrite <- !app_assoc. reflexivity.
Qed.

(** X13: [cobalt_migrate] answers 1 exactly when the thread changed
    domain.  Run over the domain the thread is in, with a hardening that
    answers zero or an error, the handler either answers 1 and has moved
    the thread to the domain asked for, the other one, or answers
    something else and has changed nothing. *)
Theorem migrate_answer
    (env : cobalt_env) (COBALT_PRIMARY COBALT_SECONDARY domain : Z)
    (w : world) (tr : list event) :
  harden_status env w <= 0 ->
  exists r w' tr',
    cobalt_migrate env COBALT_PRIMARY COBALT_SECONDARY (root_p w) domain
      (mk_kstate w tr)
    = (Next r, mk_kstate w' tr')
    /\ ((r = 1
         /\ w' = set_root_p (negb (root_p w)) w
         /\ domain = (if root_p w then COBALT_PRIMARY else COBALT_SECONDARY))
        \/ (r <> 1 /\ w' = w)).
Proof.
  intros Hh.
  destruct w as [[p nr args rv] th cp mp rp sp cap].
  unfold cobalt_migrate. cbn [root_p]. destruct rp.
  - destruct (Z.eqb_spec domain COBALT_PRIMARY) as [Hd|Hd].
    2:{ kstep. do 3 eexists. split; [reflexivity|]. right.
        split; [lia|reflexivity]. }
    destruct th as [[i st rc xsc]|]; kstep.
    2:{ do 3 eexists. split; [reflexivity|]. right.
        split; [unfold EPERM; lia|reflexivity]. }
    destruct (has st XNDORMANT); kstep.
    { do 3 eexists. split; [reflexivity|]. right. split; [lia|reflexivity]. }
    match goal with
    | |- context [harden_status env ?w0] =>
        remember (harden_status env w0) as e eqn:He
    end.
    destruct (e =? 0) eqn:H0; kstep; rewrite ?H0; kstep.
    + do 3 eexists. split; [reflexivity|]. left.
      split; [reflexivity|]. split; [reflexivity|exact Hd].
    + apply Z.eqb_neq in H0.
      do 3 eexists. split; [reflexivity|]. right. split; [lia|reflexivity].
  - destruct (Z.eqb_spec domain COBALT_SECONDARY) as [Hd|Hd]; kstep.
    + do 3 eexists. split; [reflexivity|]. left.
      split; [reflexivity|]. split; [reflexivity|exact Hd].
    + do 3 eexists. split; [reflexivity|]. right. split; [lia|reflexivity].
Qed.

(** ** [cobalt_serialdbg] *)

Lemma read_bytes_length (m : umem) (n : nat) :
  forall addr l, read_bytes m addr n = Some l -> Datatypes.length l = n.
Proof.
  induction n as [|n IH]; intros addr l; cbn [read_bytes].
  - intros [= <-]. reflexivity.
  - destruct (m addr); [|discriminate].
    destruct (read_bytes m (addr + 1) n) as [l'|] eqn:Hl; [|discriminate].
    intros [= <-]. cbn. f_equal. exact (IH _ _ Hl).
Qed.

Lemma read_bytes_app (m : umem) (n1 n2 : nat) :
  forall addr,
    read_bytes m addr (n1 + n2)
    = match read_bytes m addr n1 with
      | Some l1 =>
          match read_bytes m (addr + Z.of_nat n1) n2 with
          | Some l2 => Some (l1 ++ l2)
          | None => None
          end
      | None => None
      end.
Proof.
  induction n1 as [|n1 IH]; intros addr.
  - cbn [read_bytes Nat.add]. rewrite Z.add_0_r.
    destruct (read_bytes m addr n2); reflexivity.
  - cbn [read_bytes Nat.add]. destruct (m addr) as [b|]; [|reflexivity].
    rewrite IH.
    replace (addr + 1 + Z.of_nat n1) with (addr + Z.of_nat (S n1)) by lia.
    destruct (read_bytes m (addr + 1) n1) as [l1|]; [|reflexivity].
    destruct (read_bytes m (addr + Z.of_nat (S n1)) n2); reflexivity.
Qed.

Lemma serialdbg_loop_spec (m : umem) (fuel : nat) :
  forall (u_msg len : Z) (out : list (list Byte.byte)),
    (Z.to_nat len < fuel)%nat ->
    match read_bytes m u_msg (Z.to_nat len) with
    | Some msg =>
        exists chunks,
          serialdbg_loop fuel m u_msg len out = Some (0, out ++ chunks)
          /\ List.concat chunks = msg
          /\ Forall (fun c => (0 < Datatypes.length c <= 128)%nat) chunks
    | None =>
        exists chunks,
          serialdbg_loop fuel m u_msg len out = Some (- EFAULT, out ++ chunks)
          /\ Forall (fun c => Datatypes.length c = 128%nat) chunks
          /\ read_bytes m u_msg (Datatypes.length (List.concat chunks))
             = Some (List.concat chunks)
    end.
Proof.
  induction fuel as [|fuel IH]; intros u_msg len out Hfuel; [lia|].
  cbn [serialdbg_loop].
  destruct (Z.gtb_spec len 0) as [Hpos|Hneg].
  2:{ replace (Z.to_nat len) with 0%nat by lia. cbn [read_bytes].
      exists []. rewrite app_nil_r. repeat split. constructor. }
  set (n := if len >? serialdbg_bufsz then serialdbg_bufsz else len).
  assert (Hn : 0 < n <= 128 /\ n <= len
               /\ (len - n > 0 -> n = 128)).
  { subst n. unfold serialdbg_bufsz.
    destruct (Z.gtb_spec len 128); lia. }
  destruct Hn as (Hn1 & Hn2 & Hn3).
  replace (Z.to_nat len) with (Z.to_nat n + Z.to_nat (len - n))%nat by lia.
  rewrite read_bytes_app. unfold __xn_safe_copy_from_user.
  rewrite Z2Nat.id by lia.
  destruct (read_bytes m u_msg (Z.to_nat n)) as [buf|] eqn:Hbuf.
  2:{ exists []. rewrite app_nil_r. repeat split. constructor. }
  pose proof (read_bytes_length _ _ _ _ Hbuf) as Hlen.
  assert (Hfuel' : (Z.to_nat (len - n) < fuel)%nat) by lia.
  specialize (IH (u_msg + n) (len - n) (out ++ [buf]) Hfuel').
  destruct (read_bytes m (u_msg + n) (Z.to_nat (len - n))) as [rest|] eqn:Hrest.
  - destruct IH as (chunks & Hrun & Hcat & Hall).
    exists (buf :: chunks). rewrite Hrun, <- app_assoc.
    split; [reflexivity|]. split; [cbn; rewrite Hcat; reflexivity|].
    constructor; [lia|exact Hall].
  - destruct IH as (chunks & Hrun & Hall & Hread).
    assert (Hfull : n = 128).
    { apply Hn3. destruct (Z_gt_dec (len - n) 0) as [Hgt|Hle]; [exact Hgt|].
      replace (Z.to_nat (len - n)) with 0%nat in Hrest by lia.
      discriminate Hrest. }
    exists (buf :: chunks). rewrite Hrun, <- app_assoc.
    split; [reflexivity|]. split; [constructor; [lia|exact Hall]|].
    cbn [List.concat]. rewrite length_app, read_bytes_app.
    rewrite Hlen, Hbuf, Z2Nat.id by lia. rewrite Hread. reflexivity.
Qed.

(** X14: [cobalt_serialdbg] hands the message to the serial console in
    order and whole.  When the [len] bytes at [u_msg] can be read, the
    call answers 0 and the pieces it handed to [__ipipe_serial_debug],
    each of 1 to 128 bytes, put end to end are the message. *)
Theorem serialdbg_prints_message
    (m : umem) (fuel : nat) (u_msg len : Z) (msg : list Byte.byte) :
  read_bytes m u_msg (Z.to_nat len) = Some msg ->
  (Z.to_nat len < fuel)%nat ->
  exists chunks,
    cobalt_serialdbg fuel m u_msg len = Some (0, chunks)
    /\ List.concat chunks = msg
    /\ Forall (fun c => (0 < Datatypes.length c <= 128)%nat) chunks.
Proof.
  intros Hmsg Hfuel.
  pose proof (serialdbg_loop_spec m fuel u_msg len [] Hfuel) as H.
  rewrite Hmsg in H. exact H.
Qed.

(** X15: when some of the [len] bytes at [u_msg] cannot be read,
    [cobalt_serialdbg] answers -EFAULT, and what it handed to
    [__ipipe_serial_debug] before is a number of pieces of 128 bytes, the
    bytes at [u_msg] in order. *)
Theorem serialdbg_fault
    (m : umem) (fuel : nat) (u_msg len : Z) :
  read_bytes m u_msg (Z.to_nat len) = None ->
  (Z.to_nat len < fuel)%nat ->
  exists chunks,
    cobalt_serialdbg fuel m u_msg len = Some (- EFAULT, chunks)
    /\ Forall (fun c => Datatypes.length c = 128%nat) chunks
    /\ read_bytes m u_msg (128 * Datatypes.length chunks)
       = Some (List.concat chunks).
Proof.
  intros Hmsg Hfuel.
  pose proof (serialdbg_loop_spec m fuel u_msg len [] Hfuel) as H.
  rewrite Hmsg in H. destruct H as (chunks & Hrun & Hall & Hread).
  exists chunks. split; [exact Hrun|]. split; [exact Hall|].
  assert (Hlen : Datatypes.length (List.concat chunks)
                 = (128 * Datatypes.length chunks)%nat).
  { clear - Hall. induction Hall as [|c l Hc _ IH]; [reflexivity|].
    cbn [List.concat Datatypes.length]. rewrite length_app, Hc, IH. lia. }
  rewrite <- Hlen. exact Hread.
Qed.

(** ** [stringify_feature_set] and [cobalt_bind] *)







Lemma featmis_zero (dep man req : Z) :
  Z.land (Z.lnot dep) (Z.land req man) = 0
  <-> (forall i, 0 <= i -> Z.testbit req i = true -> Z.testbit man i = true ->
                 Z.testbit dep i = true).
Proof.
  split.
  - intros H i Hi Hr Hm.
    assert (Hb : Z.testbit (Z.land (Z.lnot dep) (Z.land req man)) i = false)
      by (rewrite H; apply Z.bits_0).
    rewrite !Z.land_spec, Z.lnot_spec, Hr, Hm in Hb by exact Hi.
    destruct (Z.testbit dep i); [reflexivity|discriminate Hb].
  - intros H. apply Z.bits_inj'. intros i Hi.
    rewrite !Z.land_spec, Z.lnot_spec, Z.bits_0 by exact Hi.
    destruct (Z.testbit req i) eqn:Hr; [|apply andb_false_r].
    destruct (Z.testbit man i) eqn:Hm; [|apply andb_false_r].
    rewrite (H i Hi Hr Hm). reflexivity.
Qed.

(** X17: [cobalt_bind] reaches [cobalt_bind_core] exactly when the request
    can be read and written back, every mandatory feature the caller
    requires is among those the kernel supports, and the ABI revision is
    accepted.  Otherwise it answers -EFAULT, -EINVAL or -ENOEXEC.  The
    feature information is copied back as soon as the request can be
    read and written, whether the binding is then refused or not. *)
Theorem bind_reaches_core
    (BITS_PER_LONG : Z) (ksformat : Z -> bool -> Z -> Z)
    (XENOMAI_FEAT_DEP XENOMAI_FEAT_MAN XENOMAI_ABI_REV : Z)
    (sizeof_feat_all_s sizeof_feat_man_s : Z)
    (sizeof_feat_mis_s sizeof_feat_req_s : Z)
    (check_abi_revision : Z -> bool)
    (collect_arch_features : cobalt_featinfo -> cobalt_featinfo)
    (cobalt_bind_core : Z)
    (fuel : nat) (u_breq : option cobalt_bindreq) (writable : bool) :
  let run :=
    cobalt_bind BITS_PER_LONG ksformat XENOMAI_FEAT_DEP XENOMAI_FEAT_MAN
      XENOMAI_ABI_REV sizeof_feat_all_s sizeof_feat_man_s
      sizeof_feat_mis_s sizeof_feat_req_s check_abi_revision
      collect_arch_features cobalt_bind_core fuel u_breq writable in
  (bind_core_called run = true
   <-> exists breq,
         u_breq = Some breq /\ writable = true
         /\ (forall i, 0 <= i ->
               Z.testbit (breq_feat_req breq) i = true ->
               Z.testbit XENOMAI_FEAT_MAN i = true ->
               Z.testbit XENOMAI_FEAT_DEP i = true)
         /\ check_abi_revision (breq_abi_rev breq) = true)
  /\ (bind_core_called run = false ->
      bind_status run = - EFAULT \/ bind_status run = - EINVAL
      \/ bind_status run = - ENOEXEC)
  /\ (bind_copied run = None <-> u_breq = None \/ writable = false).
Proof.
  intros run. subst run. unfold cobalt_bind.
  destruct u_breq as [breq|].
  2:{ cbn. split; [|split].
      - split; [discriminate|]. intros (b & Hb & _). discriminate Hb.
      - intros _. left. reflexivity.
      - split; [intros _; left; reflexivity|reflexivity]. }
  cbv zeta. destruct writable; cbn [negb].
  2:{ cbn. split; [|split].
      - split; [discriminate|]. intros (b & _ & Hw & _). discriminate Hw.
      - intros _. left. reflexivity.
      - split; [intros _; right; reflexivity|reflexivity]. }
  pose proof (featmis_zero XENOMAI_FEAT_DEP XENOMAI_FEAT_MAN
                (breq_feat_req breq)) as Hmis.
  destruct (Z.eqb_spec (Z.land (Z.lnot XENOMAI_FEAT_DEP)
                          (Z.land (breq_feat_req breq) XENOMAI_FEAT_MAN)) 0)
    as [Hz|Hnz]; cbn [negb].
  2:{ cbn. split; [|split].
      - split; [discriminate|]. intros (b & [= <-] & _ & Hall & _).
        exfalso. apply Hnz, Hmis, Hall.
      - intros _. right. left. reflexivity.
      - split; [discriminate|]. intros [H|H]; discriminate H. }
  destruct (check_abi_revision (breq_abi_rev breq)) eqn:Habi; cbn.
  - split; [|split].
    + split; [|reflexivity]. intros _. exists breq.
      split; [reflexivity|]. split; [reflexivity|].
      split; [apply Hmis, Hz|exact Habi].
    + discriminate.
    + split; [discriminate|]. intros [H|H]; discriminate H.
  - split; [|split].
    + split; [discriminate|]. intros (b & [= <-] & _ & _ & Hc).
      rewrite Habi in Hc. discriminate Hc.
    + intros _. right. right. reflexivity.
    + split; [discriminate|]. intros [H|H]; discriminate H.
Qed.

(** ** Hardening under the tables of the source *)

Lemma hardenings_app (a b : list event) :
  hardenings (a ++ b) = (hardenings a + hardenings b)%nat.
Proof. unfold hardenings. rewrite filter_app. apply length_app. Qed.

Lemma head_restart_hardens
    (env : cobalt_env) (fuel : nat) (ipd : ipipe_domain) (nr : Z)
    (h : cobalt_syshand) :
  forall (sysflags : Z) (switched : bool) (w : world) (tr : list event),
    exists evs,
      st_trace (snd (head_restart env fuel ipd nr h sysflags switched
                       (mk_kstate w tr))) = tr ++ evs
      /\ (hardenings evs
          <= if has sysflags __xn_exec_adaptive then 1 else 0)%nat
      /\ (forall r f sw,
            fst (head_restart env fuel ipd nr h sysflags switched
                   (mk_kstate w tr)) = Next (r, f, sw) ->
            has f __xn_exec_switchback = has sysflags __xn_exec_switchback).
Proof.
  induction fuel as [|n IH]; intros sysflags switched w tr.
  { exists []. cbn. rewrite app_nil_r. split; [reflexivity|].
    split; [destruct (has sysflags __xn_exec_adaptive); cbn; lia|].
    intros r f sw [=]. }
  destruct w as [[p nr0 args rv] th cp mp rp sp cap].
  cbn [head_restart].
  destruct (has sysflags __xn_exec_adaptive) eqn:Ha.
  2:{ destruct (has sysflags __xn_exec_lostage);
        [|destruct (has sysflags (Z.lor __xn_exec_histage __xn_exec_current))];
        destruct ipd; kstep;
        try (exists []; cbn; rewrite app_nil_r; split; [reflexivity|];
             split; [lia|]; intros r f sw [=]);
        khandler; kstep; rewrite andb_false_r; kstep;
        rewrite <- ?app_assoc;
        (eexists; split; [reflexivity|]; split; [cbn; lia|];
         intros r' f sw [= _ <- _]; reflexivity). }
  destruct (has sysflags __xn_exec_lostage);
    [|destruct (has sysflags (Z.lor __xn_exec_histage __xn_exec_current))];
    destruct ipd; kstep;
    try (exists []; cbn; rewrite app_nil_r; split; [reflexivity|];
         split; [lia|]; intros r f sw [=]);
    khandler; kstep; rewrite andb_true_r;
    (destruct (r =? - ENOSYS); kstep;
     [|rewrite <- ?app_assoc;
       eexists; split; [reflexivity|]; split; [cbn; lia|];
       intros r' f sw [= _ <- _]; reflexivity]);
    try destruct switched; kstep;
    try (match goal with
         | |- context [harden_status ?e ?w] =>
             destruct (harden_status e w =? 0) eqn:Hhs; kstep;
             rewrite ?Hhs; kstep
         end);
    rewrite <- ?app_assoc;
    try (match goal with
         | |- context [head_restart ?e ?n0 ?i ?k ?hh ?f ?sw0
                         (mk_kstate ?w1 ?t1)] =>
             destruct (IH f sw0 w1 t1) as (evs2 & Htr2 & Hlen2 & Hf2);
             rewrite flip_adaptive_adaptive, Ha in Hlen2;
             rewrite <- app_assoc in Htr2;
             eexists; split; [exact Htr2|]; split;
             [rewrite ?hardenings_app; cbn in Hlen2 |- *; lia
             |intros r' f' sw' Hrun'; rewrite (Hf2 r' f' sw' Hrun');
              apply flip_adaptive_switchback]
         end);
    try (eexists; split; [reflexivity|]; split; [cbn; lia|];
         intros r' f sw [= _ <- _]; reflexivity).
Qed.

Lemma prepare_for_signal_hardens (thread : bool) (sysflags : Z) :
  emits_at_most is_harden False 0 (prepare_for_signal thread sysflags).
Proof.
  unfold prepare_for_signal, xnthread_test_info, xnthread_test_state,
    xnthread_clear_info, xnthread_test_cancel, xnthread_relax,
    __xn_error_return, signal_pending, deref, store.
  kquiet.
Qed.

Lemma head_done_hardens (env : cobalt_env) (thread : bool) (r sysflags : Z)
    (switched : bool) :
  has sysflags __xn_exec_switchback = false ->
  emits_at_most is_harden False 0 (head_done env thread r sysflags switched).
Proof.
  intro Hsb. unfold head_done. rewrite Hsb.
  apply emits_quiet_bind; [unfold __xn_status_return; kquiet|intros _].
  apply emits_quiet_bind; [unfold xnsched_root_p; kquiet|intros root].
  apply emits_quiet_bind.
  - destruct (negb root); [|kquiet].
    apply emits_quiet_bind; [unfold signal_pending; kquiet|intros sp].
    apply emits_quiet_bind;
      [destruct sp; [kquiet|unfold xnthread_test_info, deref; kquiet]
      |intros interpose].
    destruct interpose.
    + apply emits_quiet_bind; [apply prepare_for_signal_hardens|intro; kquiet].
    + unfold xnthread_test_state, thread_res_count, xnthread_relax, deref.
      kquiet.
  - intros [sigs sw]. rewrite andb_false_r. cbn [andb].
    apply emits_quiet_bind; [kquiet|intros _].
    unfold ret_handled, xnstat_counter_inc_xsc, xnthread_sync_window,
      deref, store.
    kquiet.
Qed.

Lemma resolve_conforming_keeps (thread : bool) (mode : Z) :
  has (resolve_conforming thread mode) __xn_exec_switchback
  = has mode __xn_exec_switchback
  /\ has (resolve_conforming thread mode) __xn_exec_adaptive
     = has mode __xn_exec_adaptive.
Proof.
  unfold resolve_conforming.
  destruct (has mode __xn_exec_conforming); [|split; reflexivity].
  rewrite !has_lor. destruct thread; split; apply orb_false_r.
Qed.

(** X18: with the tables of the source, the control-domain dispatcher
    hardens the thread at most once in a call, and only in the retry of
    a probing call.  The mode of no call of the table has
    [__xn_exec_switchback] and the retry does not bring it in, so that
    the switch back on the way out never takes place. *)
Theorem source_table_hardening
    (sc : string -> Z) (n : Z) (handlers : string -> cobalt_syshand)
    (harden : world -> Z) (fuel : nat) (ipd : ipipe_domain)
    (w : world) (tr : list event) :
  let env := source_env sc n handlers harden in
  exists evs,
    st_trace (snd (handle_head_syscall env fuel ipd (mk_kstate w tr)))
    = tr ++ evs
    /\ (hardenings evs <= 1)%nat
    /\ (cobalt_sysmodes_of sc (int_of_long (xn_syscall (regs w))) <> __xn_exec_probing ->
        hardenings evs = 0%nat).
Proof.
  intros env.
  assert (Hquiet : forall run : outcome unit * kstate,
            (exists evs, st_trace (snd run) = tr ++ evs /\ hardenings evs = 0%nat) ->
            exists evs,
              st_trace (snd run) = tr ++ evs
              /\ (hardenings evs <= 1)%nat
              /\ (cobalt_sysmodes_of sc (int_of_long (xn_syscall (regs w)))
                  <> __xn_exec_probing -> hardenings evs = 0%nat)).
  { intros run (evs & Htr & H0). exists evs.
    split; [exact Htr|]. split; [lia|]. intros _. exact H0. }
  destruct (xn_syscall_p (regs w)) eqn:Hp.
  2:{ apply Hquiet.
      exists (if root_p w then []
              else [EvRelax true SIGDEBUG_MIGRATE_SYSCALL]).
      revert Hp. destruct w as [[p nr0 args rv] th cp mp rp sp cap].
      cbn [regs xn_syscall_p root_p]. intros ->.
      unfold handle_head_syscall, head_linux_syscall. kstep.
      destruct rp; kstep;
        (split; [rewrite ?app_nil_r; reflexivity|reflexivity]). }
  set (nr := int_of_long (xn_syscall (regs w))).
  destruct (Z_lt_dec nr 0) as [Hlt|Hge];
    [|destruct (Z_le_dec (__NR_COBALT_SYSCALLS env) nr) as [Hbig|Hin]].
  1,2: apply Hquiet; exists [EvErrorReturn (- ENOSYS)];
       assert (Hr : nr < 0 \/ __NR_COBALT_SYSCALLS env <= nr) by lia;
       clear - Hp Hr; subst nr; revert Hp Hr;
       destruct w as [[p nr0 args rv] th cp mp rp sp cap];
       cbn [regs xn_syscall_p xn_syscall]; intros -> Hr;
       unfold handle_head_syscall, head_bad_syscall; kstep;
       rewrite (range_test _ _ Hr); kstep;
       (split; reflexivity).
  assert (Hr : 0 <= int_of_long (xn_syscall (regs w)) < __NR_COBALT_SYSCALLS env)
    by (subst nr; lia).
  destruct (gate_open env w) eqn:Hg.
  2:{ apply Hquiet.
      destruct (head_gate_closed env fuel ipd w tr Hp Hr Hg)
        as (s' & Hrun & _ & Htr).
      exists [EvErrorReturn (- EPERM)]. rewrite Hrun.
      split; [exact Htr|reflexivity]. }
  rewrite (head_gate_open env fuel ipd w tr Hp Hr Hg).
  fold nr. unfold head_dispatch.
  set (mode := resolve_conforming (thread_bound w) (cobalt_sysmodes env nr)).
  cbv zeta.
  destruct (cobalt_sysmodes_of_shape sc nr) as [Hsb Had].
  destruct (resolve_conforming_keeps (thread_bound w) (cobalt_sysmodes env nr))
    as [Hksb Hkad].
  fold mode in Hksb, Hkad.
  cbn [env source_env cobalt_sysmodes] in Hksb, Hkad.
  rewrite Hsb in Hksb.
  destruct (head_restart_hardens env fuel ipd nr (cobalt_syscalls env nr)
              mode false (set_process (process_bound w) w) tr)
    as (evs1 & Htr1 & Hlen1 & Hflags).
  unfold bind at 1.
  destruct (head_restart env fuel ipd nr (cobalt_syscalls env nr) mode false
              (mk_kstate (set_process (process_bound w) w) tr))
    as [[[[r f] sw]|k| | |] s1] eqn:Hrun; cbn [fst snd] in *.
  2-5: exists evs1; split; [exact Htr1|]; split;
       [destruct (has mode __xn_exec_adaptive); lia|];
       intros Hnp; rewrite Hkad in Hlen1;
       destruct (has (cobalt_sysmodes_of sc nr) __xn_exec_adaptive) eqn:Ha;
       [exfalso; apply Hnp, Had; reflexivity|lia].
  assert (Hfsb : has f __xn_exec_switchback = false).
  { rewrite (Hflags r f sw eq_refl). exact Hksb. }
  destruct (head_done_hardens env (thread_bound w) r f sw Hfsb s1)
    as (evs2 & Htr2 & Hlen2 & _).
  exists (evs1 ++ evs2). split.
  - rewrite Htr2, Htr1. symmetry. apply app_assoc.
  - rewrite hardenings_app. fold (hardenings evs2) in Hlen2.
    split; [destruct (has mode __xn_exec_adaptive); lia|].
    intros Hnp. rewrite Hkad in Hlen1.
    destruct (has (cobalt_sysmodes_of sc nr) __xn_exec_adaptive) eqn:Ha;
      [exfalso; apply Hnp, Had; reflexivity|lia].
Qed.

(** ** The further properties at sample inputs *)

Lemma sc_position_injective (a b : string) :
  In a cobalt_call_entries -> In b cobalt_call_entries ->
  sc_position a = sc_position b -> a = b.
Proof.
  assert (Hall : forallb (fun a =>
            forallb (fun b => negb (sc_position a =? sc_position b)
                              || String.eqb a b)
                    cobalt_call_entries) cobalt_call_entries = true)
    by (vm_compute; reflexivity).
  intros Ha Hb Hsc. rewrite forallb_forall in Hall.
  specialize (Hall a Ha). rewrite forallb_forall in Hall.
  specialize (Hall b Hb). rewrite Hsc, Z.eqb_refl in Hall.
  apply String.eqb_eq. exact Hall.
Qed.

Lemma sc_position_below (nr : Z) (name : string) :
  97 <= nr -> In name cobalt_call_entries -> sc_position name <> nr.
Proof.
  assert (Hall : forallb (fun a => sc_position a <? 97) cobalt_call_entries
                 = true) by (vm_compute; reflexivity).
  intros Hnr Ha. rewrite forallb_forall in Hall.
  specialize (Hall name Ha). apply Z.ltb_lt in Hall. lia.
Qed.

(** A probing call entered through the fast path, served in the relaxed
    domain only. *)
Lemma fastcall_witness :
  (forall k s',
     ipipe_fastcall_hook (sample_env __xn_exec_probing (relaxed_only 0)) 2
       (mk_kstate (caller (Some plain_thread) 40 false false) [])
     = (Return k, s') -> k = KEVENT_STOP)
  /\ fst (ipipe_fastcall_hook (sample_env __xn_exec_probing (relaxed_only 0)) 2
            (mk_kstate (caller (Some plain_thread) 40 false false) []))
     <> OutOfFuel.
Proof.
  destruct (fastcall_never_propagates
              (sample_env __xn_exec_probing (relaxed_only 0)) 2
              (caller (Some plain_thread) 40 false false) [] eq_refl)
    as [Hret Hcut].
  split; [exact Hret|]. apply Hcut. lia.
Defined.

(** The same call in the relaxed-domain dispatcher. *)
Lemma root_stop_witness :
  (forall k s',
     handle_root_syscall (sample_env __xn_exec_probing (primary_only 0)) 2
       ipipe_root_domain
       (mk_kstate (caller (Some plain_thread) 40 true false) [])
     = (Return k, s') -> k = KEVENT_STOP)
  /\ fst (handle_root_syscall (sample_env __xn_exec_probing (primary_only 0)) 2
            ipipe_root_domain
            (mk_kstate (caller (Some plain_thread) 40 true false) []))
     <> OutOfFuel.
Proof.
  destruct (root_never_propagates
              (sample_env __xn_exec_probing (primary_only 0)) 2
              ipipe_root_domain
              (caller (Some plain_thread) 40 true false) [] eq_refl)
    as [Hret Hcut].
  split; [exact Hret|]. apply Hcut. lia.
Defined.

(** A Linux syscall of a thread in primary mode. *)
Lemma foreign_syscall_witness :
  handle_head_syscall (sample_env __xn_exec_current (answer 0)) 2
    xnsched_realtime_domain (mk_kstate foreign_caller [])
  = (Return KEVENT_PROPAGATE,
     mk_kstate (set_root_p true foreign_caller)
               [EvRelax true SIGDEBUG_MIGRATE_SYSCALL]).
Proof.
  exact (proj1 (foreign_syscall_propagated
                  (sample_env __xn_exec_current (answer 0)) 2
                  xnsched_realtime_domain foreign_caller [] eq_refl)).
Defined.

(** A call of mode [__xn_exec_current] issued by a relaxed thread. *)
Lemma handed_over_witness :
  syscall_pipeline (sample_env __xn_exec_current (answer 0)) 2
    ipipe_root_domain
    (mk_kstate (caller (Some plain_thread) 40 true false) [])
  = handle_root_syscall (sample_env __xn_exec_current (answer 0)) 2
      ipipe_root_domain
      (mk_kstate (caller (Some plain_thread) 40 true false) []).
Proof.
  assert (Hr : 0 <= int_of_long (xn_syscall (regs (caller (Some plain_thread) 40 true false)))
               < __NR_COBALT_SYSCALLS (sample_env __xn_exec_current (answer 0)))
    by kdecide.
  assert (Hfuel : (0 < 2)%nat) by lia.
  exact (proj2 (root_call_handed_over
                  (sample_env __xn_exec_current (answer 0)) 2
                  (caller (Some plain_thread) 40 true false) []
                  eq_refl Hr eq_refl eq_refl Hfuel)).
Defined.

(** A call of a thread that lacks the privilege. *)
Lemma denied_call_witness :
  handle_head_syscall (sample_env __xn_exec_current (answer 0)) 2
    ipipe_root_domain (mk_kstate (unprivileged_caller 40) [])
  = (Return KEVENT_STOP,
     mk_kstate
       (set_thread (Some (set_stat_xsc 1 plain_thread))
          (set_regs (set_rval (- EPERM) (sample_regs 40))
             (unprivileged_caller 40)))
       [EvErrorReturn (- EPERM)]).
Proof.
  assert (Hr : 0 <= int_of_long (xn_syscall (regs (unprivileged_caller 40)))
               < __NR_COBALT_SYSCALLS (sample_env __xn_exec_current (answer 0)))
    by kdecide.
  exact (proj1 (denied_call_counted
                  (sample_env __xn_exec_current (answer 0)) 2
                  ipipe_root_domain (unprivileged_caller 40) plain_thread []
                  eq_refl eq_refl) Hr eq_refl).
Defined.

(** An adaptive call declined in the relaxed domain, the thread being
    refused in the control domain afterwards. *)
Lemma declined_retry_witness :
  head_dispatch declining_env 1 xnsched_realtime_domain true 40
    (answer (- ENOSYS)) (Z.lor __xn_exec_lostage __xn_exec_adaptive)
    (mk_kstate (caller (Some plain_thread) 40 false false) [])
  = (Return KEVENT_STOP,
     mk_kstate
       (set_thread (Some (set_stat_xsc 1 plain_thread))
          (set_regs (set_rval (- EPERM) (sample_regs 40))
             (caller (Some plain_thread) 40 true false)))
       [EvRelax true SIGDEBUG_MIGRATE_SYSCALL; EvHandler 40 false;
        EvHarden (- EPERM); EvStatusReturn (- EPERM)]).
Proof.
  assert (Hne : - EPERM <> 0) by (unfold EPERM; lia).
  exact (head_retry_harden_failure declining_env 0 40
           (Z.lor __xn_exec_lostage __xn_exec_adaptive) (- EPERM)
           (answer (- ENOSYS))
           (caller (Some plain_thread) 40 false false)
           (caller (Some plain_thread) 40 true false) plain_thread []
           eq_refl eq_refl eq_refl eq_refl Hne eq_refl eq_refl).
Defined.

(** A kicked thread in primary mode with no signal pending, on the way
    out of the relaxed-domain dispatcher. *)
Lemma kicked_quiet_witness :
  root_done true 0 __xn_exec_current false
    (mk_kstate (caller (Some kicked_thread) 40 false false) [])
  = (Return KEVENT_STOP,
     mk_kstate
       (set_thread (Some (set_stat_xsc 1 kicked_thread))
          (set_regs (set_rval 0 (sample_regs 40))
             (caller (Some kicked_thread) 40 false false)))
       [EvStatusReturn 0]).
Proof.
  exact (proj2 (kicked_without_signal
                  (sample_env __xn_exec_current (answer 0))
                  (caller (Some kicked_thread) 40 false false) kicked_thread
                  0 __xn_exec_current false true []
                  eq_refl eq_refl eq_refl eq_refl eq_refl)
               eq_refl eq_refl).
Defined.

(** A plain thread left in primary mode by the handler. *)
Lemma stays_primary_witness :
  root_done true 0 __xn_exec_current true
    (mk_kstate (caller (Some plain_thread) 40 false false) [])
  = (Return KEVENT_STOP,
     mk_kstate
       (set_thread (Some (set_stat_xsc 1 plain_thread))
          (set_regs (set_rval 0 (sample_regs 40))
             (caller (Some plain_thread) 40 false false)))
       [EvStatusReturn 0]).
Proof.
  exact (proj1 (proj2 (no_spontaneous_migration
                         (sample_env __xn_exec_current (answer 0))
                         (caller (Some plain_thread) 40 false false)
                         plain_thread 0 __xn_exec_current true []
                         eq_refl eq_refl eq_refl eq_refl eq_refl))).
Defined.

(** The slot of clock_nanosleep under the numbering by rank, and a slot
    above the calls of the table. *)
Lemma tables_witness :
  cobalt_sysmodes_of sc_position (sc_position "clock_nanosleep")
  = __xn_exec_nonrestartable
  /\ cobalt_syscalls_of sc_position sample_handlers 100 = cobalt_ni.
Proof.
  destruct (tables_go_together sc_position sample_handlers
              sc_position_injective) as [Hslot Hfree].
  assert (Hin : In ("clock_nanosleep"%string, __xn_exec_nonrestartable)
                   cobalt_mode_entries)
    by (apply (nth_error_In _ 26); reflexivity).
  assert (H100 : 97 <= 100) by lia.
  split.
  - exact (proj2 (Hslot _ _ Hin)).
  - exact (proj1 (Hfree 100 (fun name => sc_position_below 100 name H100))).
Defined.

(** Call 100 of a relaxed thread under the numbering by rank. *)
Lemma unassigned_slot_witness :
  exists s',
    handle_head_syscall sample_source_env 2 ipipe_root_domain
      (mk_kstate (caller (Some plain_thread) 100 true false) [])
    = (Return KEVENT_STOP, s')
    /\ xn_reg_rval (regs (st_world s')) = - ENOSYS.
Proof.
  assert (Hr : 0 <= int_of_long (xn_syscall (regs (caller (Some plain_thread) 100 true false)))
               < 128) by kdecide.
  assert (H100 : 97 <= int_of_long
                         (xn_syscall
                            (regs (caller (Some plain_thread) 100 true false))))
    by kdecide.
  assert (Hfuel : (0 < 2)%nat) by lia.
  destruct (unassigned_slot_not_implemented sc_position 128 sample_handlers
              harden_unless_signal 2 ipipe_root_domain
              (caller (Some plain_thread) 100 true false) []
              eq_refl Hr (fun name => sc_position_below _ name H100)
              eq_refl eq_refl eq_refl Hfuel)
    as (s' & Hrun & Hrv & _).
  exists s'. split; [exact Hrun|exact Hrv].
Defined.

(** The mayday call of a kicked thread under the numbering by rank. *)
Lemma mayday_witness :
  exists s',
    handle_head_syscall sample_source_env 1 xnsched_realtime_domain
      (mk_kstate (caller (Some kicked_thread) 92 false false) [])
    = (Return KEVENT_STOP, s')
    /\ xn_reg_rval (regs (st_world s')) = 7
    /\ root_p (st_world s') = true
    /\ kicked (st_world s') = false.
Proof.
  assert (Hr : 0 <= int_of_long (xn_syscall (regs (caller (Some kicked_thread) 92 false false)))
               < 128) by kdecide.
  assert (Hfuel : (0 < 1)%nat) by lia.
  destruct (mayday_relaxes_kicked sc_position 128 sample_handlers
              harden_unless_signal sample_fixup 1
              (caller (Some kicked_thread) 92 false false) kicked_thread []
              sc_position_injective eq_refl eq_refl eq_refl Hr
              eq_refl eq_refl eq_refl eq_refl eq_refl eq_refl eq_refl Hfuel)
    as (s' & Hrun & Hregs & _ & Hroot & Hk & _).
  exists s'. split; [exact Hrun|]. split; [rewrite Hregs; reflexivity|].
  split; [exact Hroot|exact Hk].
Defined.

(** A relaxed thread asking for the primary domain. *)
Lemma migrate_witness :
  exists tr',
    cobalt_migrate (sample_env __xn_exec_current (answer 0)) 1 0 true 1
      (mk_kstate (caller (Some plain_thread) 85 true false) [])
    = (Next 1, mk_kstate (caller (Some plain_thread) 85 false false) tr').
Proof.
  assert (Hh : harden_status (sample_env __xn_exec_current (answer 0))
                 (caller (Some plain_thread) 85 true false) <= 0)
    by (vm_compute; discriminate).
  destruct (migrate_answer (sample_env __xn_exec_current (answer 0)) 1 0 1
              (caller (Some plain_thread) 85 true false) [] Hh)
    as (r & w' & tr' & Hrun & [(Hr & Hw & _)|(Hr & Hw)]).
  - exists tr'. subst r w'. exact Hrun.
  - exfalso. apply Hr. vm_compute in Hrun. congruence.
Defined.

(** A message of 200 letters. *)
Lemma serialdbg_prints_witness :
  exists chunks,
    cobalt_serialdbg 201 (sample_mem 300) 0 200 = Some (0, chunks)
    /\ List.concat chunks = repeat Byte.x41 200.
Proof.
  assert (Hmsg : read_bytes (sample_mem 300) 0 (Z.to_nat 200)
                 = Some (repeat Byte.x41 200))
    by (vm_compute; reflexivity).
  assert (Hfuel : (Z.to_nat 200 < 201)%nat) by lia.
  destruct (serialdbg_prints_message (sample_mem 300) 201 0 200
              (repeat Byte.x41 200) Hmsg Hfuel)
    as (chunks & Hrun & Hcat & _).
  exists chunks. split; [exact Hrun|exact Hcat].
Defined.

(** The same message when the memory ends after 150 bytes. *)
Lemma serialdbg_fault_witness :
  exists chunks,
    cobalt_serialdbg 201 (sample_mem 150) 0 200 = Some (- EFAULT, chunks)
    /\ Forall (fun c => Datatypes.length c = 128%nat) chunks.
Proof.
  assert (Hmsg : read_bytes (sample_mem 150) 0 (Z.to_nat 200) = None)
    by (vm_compute; reflexivity).
  assert (Hfuel : (Z.to_nat 200 < 201)%nat) by lia.
  destruct (serialdbg_fault (sample_mem 150) 201 0 200 Hmsg Hfuel)
    as (chunks & Hrun & Hall & _).
  exists chunks. split; [exact Hrun|exact Hall].
Defined.

